(** * SafeSplitX fraud-detection core: a shallow embedding and its properties

    The development follows the Python sources of the repository:
    - [fraud_detection/schemas.py]                      (Module [Schemas])
    - [fraud_detection/models/rule_engine.py]           (Module [RuleEngine])
    - [fraud_detection/models/ensemble.py]              (Module [Ensemble])
    - [fraud_detection/models/realtime_risk_engine.py]  (Module [RealTimeRisk])
    - [fraud_detection/models/behavioral_analyzer.py]   (Module [Behavioral])
    - [fraud_detection/models/smart_notifications.py]   (Module [Notifications])
    - [fraud_detection/feature_engineering.py]          (Module [FeatureEngineering])

    Conventions of the embedding.
    - A Python [float] is an exact rational ([Q]); comparisons are the
      numeric ones ([Qle_bool], [Qeq_bool]).  Rounding of IEEE doubles, NaN and
      infinities are outside the model.
    - A naive [datetime] is the number of microseconds since
      0001-01-01T00:00:00 (a Monday in the proleptic Gregorian calendar), a
      [timedelta] is a number of microseconds; [isoformat] followed by
      [fromisoformat] is the identity on such values, so a stored ISO string
      is kept as the time it denotes.
    - A [dict] read with [.get(key, default)] on a fixed set of keys is a
      record of optional fields; a [dict] built as a literal and read by key
      is an association list in insertion order; a [defaultdict] or lookup
      table is a [gmap].
    - [str] is a string of 8-bit characters; [lower] folds A-Z only.
    - Every call of [datetime.now()] is a separate reading of the wall clock.
*)

From Stdlib Require Import ZArith QArith Qround Qminmax Qabs Lia Lqa.
From Stdlib Require Import String Ascii List.
From stdpp Require Import gmap strings list.

Local Open Scope Q_scope.

(** ** Python primitives shared by all modules *)

Module Py.

Definition Qltb (a b : Q) : bool := negb (Qle_bool b a).

(** [a % b] on numbers: [a - b * floor (a / b)]. *)
Definition mod_ (a b : Q) : Q := a - b * inject_Z (Qfloor (a / b)).

(** [min(a, b)] and [max(a, b)] return the first argument unless the second
    is strictly smaller (larger). *)
Definition min_ (a b : Q) : Q := if Qltb b a then b else a.
Definition max_ (a b : Q) : Q := if Qltb a b then b else a.

Definition abs_ (a : Q) : Q := if Qltb a 0 then - a else a.

Definition of_nat (n : nat) : Q := inject_Z (Z.of_nat n).

(** [sum(xs)] and [np.mean(xs)] (the latter on a non-empty list). *)
Definition sum (xs : list Q) : Q := fold_left Qplus xs 0.
Definition mean (xs : list Q) : Q := sum xs / of_nat (length xs).

Definition lower_ascii (c : ascii) : ascii :=
  let n := nat_of_ascii c in
  if (65 <=? n)%nat && (n <=? 90)%nat then ascii_of_nat (n + 32) else c.

Fixpoint lower (s : string) : string :=
  match s with
  | EmptyString => EmptyString
  | String c r => String (lower_ascii c) (lower r)
  end.

(** [needle in hay] for strings. *)
Fixpoint contains (needle hay : string) : bool :=
  String.prefix needle hay ||
  match hay with
  | EmptyString => false
  | String _ r => contains needle r
  end.

(** [x in xs] for a list of strings. *)
Definition mem (x : string) (xs : list string) : bool :=
  existsb (String.eqb x) xs.

(** Naive datetimes and timedeltas, in microseconds. *)
Definition datetime := Z.
Definition timedelta := Z.

Definition minutes (n : Z) : timedelta := (n * 60000000)%Z.
Definition hours (n : Z) : timedelta := (n * 3600000000)%Z.

Definition hour (t : datetime) : Z := ((t / 3600000000) mod 24)%Z.
Definition weekday (t : datetime) : Z := ((t / 86400000000) mod 7)%Z.

(** [d.total_seconds()]. *)
Definition total_seconds (d : timedelta) : Q := inject_Z d / 1000000.

(** Values of dynamically typed slots (feature values, validated fields). *)
Inductive value :=
| Num (q : Q)
| Str (s : string)
| Bool (b : bool)
| NoneV.

(** Exceptions, and computations that may raise. *)
Inductive exn :=
| TypeError
| ValueError
| ZeroDivisionError
| ValidationError
| RuntimeError (msg : string).

Definition result (A : Type) : Type := exn + A.
Definition ret {A} (a : A) : result A := inr a.
Definition raise {A} (e : exn) : result A := inl e.
Definition bind {A B} (m : result A) (k : A -> result B) : result B :=
  match m with
  | inl e => inl e
  | inr a => k a
  end.

(** [a / b] where the divisor is not guarded by the caller. *)
Definition div_ (a b : Q) : result Q :=
  if Qeq_bool b 0 then raise ZeroDivisionError else ret (a / b).

(** A [datetime] parsed from an ISO string: the wall-clock reading and, when
    the string carries one, its UTC offset (an aware datetime). *)
Record parsed_datetime := mkParsed {
  wall : datetime;
  utcoffset : option timedelta
}.

Definition naive (t : datetime) : parsed_datetime := mkParsed t None.

(** [a - b] and [a > b]: a [TypeError] when exactly one side is aware. *)
Definition dt_sub (a b : parsed_datetime) : result timedelta :=
  match utcoffset a, utcoffset b with
  | None, None => ret (wall a - wall b)%Z
  | Some oa, Some ob => ret ((wall a - oa) - (wall b - ob))%Z
  | _, _ => raise TypeError
  end.

Definition dt_gt (a b : parsed_datetime) : result bool :=
  match utcoffset a, utcoffset b with
  | None, None => ret (wall b <? wall a)%Z
  | Some oa, Some ob => ret (wall b - ob <? wall a - oa)%Z
  | _, _ => raise TypeError
  end.

(** [s.replace('Z', '+00:00')] *)
Fixpoint replace_Z (s : string) : string :=
  match s with
  | EmptyString => EmptyString
  | String c r =>
      if Ascii.eqb c "Z" then ("+00:00" ++ replace_Z r)%string
      else String c (replace_Z r)
  end.

Definition is_upper_ascii (c : ascii) : bool :=
  let n := nat_of_ascii c in (65 <=? n)%nat && (n <=? 90)%nat.
Definition is_lower_ascii (c : ascii) : bool :=
  let n := nat_of_ascii c in (97 <=? n)%nat && (n <=? 122)%nat.

(** [s.isupper()]: some cased character, and no lowercase one. *)
Definition isupper (s : string) : bool :=
  let cs := list_ascii_of_string s in
  existsb is_upper_ascii cs && negb (existsb is_lower_ascii cs).

Definition is_integer (a : Q) : bool := Qeq_bool (inject_Z (Qfloor a)) a.

(** [len(set(xs))] for an equality test [eqb]. *)
Fixpoint set_size {A} (eqb : A -> A -> bool) (xs : list A) : nat :=
  match xs with
  | [] => 0
  | x :: r => if existsb (eqb x) r then set_size eqb r else S (set_size eqb r)
  end.

(** A value used as a number; [bool] is a subtype of [int]. *)
Definition as_number (v : value) : result Q :=
  match v with
  | Num q => ret q
  | Bool b => ret (if b then 1 else 0)
  | Str _ | NoneV => raise TypeError
  end.

(** [round(x, ndigits)], to the nearest multiple of [10 ** -ndigits], ties
    to the even one. *)
Definition round_ (x : Q) (ndigits : nat) : Q :=
  let scale := inject_Z (10 ^ Z.of_nat ndigits) in
  let scaled := x * scale in
  let below := Qfloor scaled in
  let rest := scaled - inject_Z below in
  let nearest :=
    if Qltb rest (1 # 2) then below
    else if Qltb (1 # 2) rest then (below + 1)%Z
    else if Z.even below then below else (below + 1)%Z in
  inject_Z nearest / scale.

(** [int(x)]: truncation towards zero. *)
Definition int_ (x : Q) : Z :=
  if Qltb x 0 then (- Qfloor (- x))%Z else Qfloor x.

End Py.

Declare Scope py_scope.
Notation "x <~ m ;; k" := (Py.bind m (fun x => k))
  (at level 100, m at next level, right associativity) : py_scope.

(** ** schemas.py *)

Module Schemas.

Local Open Scope py_scope.

Module ParticipantInfo.
Record t := mk { user_id : string; amount : Q }.
End ParticipantInfo.

Module ExpenseIn.
Record t := mk {
  expense_id : string;
  group_id : string;
  payer_id : string;
  participants : list ParticipantInfo.t;
  amount : Q;
  currency : string;
  merchant : option string;
  category : option string;
  timestamp : string
}.
End ExpenseIn.

Module RuleViolation.
Record t := mk {
  rule_name : string;
  severity : string;
  message : string;
  confidence : Q
}.

(** [RuleViolation(...)]: the [confidence] field is declared [ge=0, le=1],
    so the constructor raises outside that range. *)
Definition new (rule_name severity message : string) (confidence : Q) : Py.result t :=
  if Qle_bool 0 confidence && Qle_bool confidence 1
  then Py.ret (mk rule_name severity message confidence)
  else Py.raise Py.ValidationError.
End RuleViolation.

Module FeatureContribution.
Record t := mk {
  feature_name : string;
  contribution : Q;
  value : Py.value
}.

(** [value] is declared [Union[str, float, int]]. *)
Definition new (feature_name : string) (contribution : Q) (value : Py.value) : Py.result t :=
  match value with
  | Py.NoneV => Py.raise Py.ValidationError
  | _ => Py.ret (mk feature_name contribution value)
  end.
End FeatureContribution.

(** *** Construction of an [ExpenseIn] from keyword arguments

    The incoming arguments, each possibly absent; [itemized] carries no
    constraint and is left out. *)
Record RawParticipant := mkRawParticipant {
  raw_user_id : option string;
  raw_p_amount : option Q
}.

Record RawExpense := mkRawExpense {
  raw_expense_id : option string;
  raw_group_id : option string;
  raw_payer_id : option string;
  raw_participants : option (list RawParticipant);
  raw_amount : option Q;
  raw_currency : option string;
  raw_merchant : option string;
  raw_category : option string;
  raw_timestamp : option string
}.

(** The [values] argument of a validator: the fields validated so far. *)
Inductive field_value :=
| FStr (s : string)
| FNum (q : Q)
| FOpt (s : option string)
| FParticipants (ps : list ParticipantInfo.t).

Section WithDatetime.

(** [datetime.fromisoformat]; [None] stands for its [ValueError]. *)
Variable fromisoformat : string -> option Py.parsed_datetime.

Definition validate_currency (v : string) : Py.result string :=
  if negb (Py.isupper v) then Py.raise Py.ValueError else Py.ret v.

Definition validate_timestamp (v : string) : Py.result string :=
  match fromisoformat (Py.replace_Z v) with
  | Some _ => Py.ret v
  | None => Py.raise Py.ValueError
  end.

Definition validate_participants_amount (v : list ParticipantInfo.t)
    (values : gmap string field_value) : Py.result (list ParticipantInfo.t) :=
  match values !! "amount"%string with
  | None => Py.ret v
  | Some total =>
      let total_participant_amount := Py.sum (map ParticipantInfo.amount v) in
      match total with
      | FNum total_amount =>
          (* Allow small floating point differences *)
          if Py.Qltb 0.01 (Py.abs_ (total_participant_amount - total_amount))
          then Py.raise Py.ValueError
          else Py.ret v
      | _ => Py.raise Py.TypeError
      end
  end.

(** [ParticipantInfo] built from keyword arguments: [user_id] required, [amount] required and [gt=0]. *)
Definition ParticipantInfo_new (raw : RawParticipant) : Py.result ParticipantInfo.t :=
  match raw_user_id raw, raw_p_amount raw with
  | Some u, Some a =>
      if Py.Qltb 0 a then Py.ret (ParticipantInfo.mk u a) else Py.raise Py.ValidationError
  | _, _ => Py.raise Py.ValidationError
  end.

Fixpoint ParticipantInfo_list (raws : list RawParticipant) : Py.result (list ParticipantInfo.t) :=
  match raws with
  | [] => Py.ret []
  | r :: rest =>
      p <~ ParticipantInfo_new r ;;
      ps <~ ParticipantInfo_list rest ;;
      Py.ret (p :: ps)
  end.

(** One field of the model: its name and the outcome of its own
    validation given the fields validated before it. *)
Definition field_check : Type := string * (gmap string field_value -> Py.result field_value).

Definition required_str (v : option string) : Py.result field_value :=
  match v with
  | Some s => Py.ret (FStr s)
  | None => Py.raise Py.ValidationError
  end.

(** The fields of [ExpenseIn] in the order of their declaration in the
    class body, which is the order in which they are validated. *)
Definition ExpenseIn_fields (raw : RawExpense) : list field_check :=
  [ ("expense_id"%string, fun _ => required_str (raw_expense_id raw));
    ("group_id"%string, fun _ => required_str (raw_group_id raw));
    ("payer_id"%string, fun _ => required_str (raw_payer_id raw));
    ("participants"%string, fun values =>
       match raw_participants raw with
       | None => Py.raise Py.ValidationError
       | Some raws =>
           ps <~ ParticipantInfo_list raws ;;
           (* min_items=1 *)
           if (length ps <? 1)%nat then Py.raise Py.ValidationError
           else v <~ validate_participants_amount ps values ;; Py.ret (FParticipants v)
       end);
    ("amount"%string, fun _ =>
       match raw_amount raw with
       | None => Py.raise Py.ValidationError
       | Some a =>
           (* gt=0, le=1000000 *)
           if Py.Qltb 0 a && Qle_bool a 1000000 then Py.ret (FNum a)
           else Py.raise Py.ValidationError
       end);
    ("currency"%string, fun _ =>
       match raw_currency raw with
       | None => Py.raise Py.ValidationError
       | Some c =>
           (* min_length=3, max_length=3 *)
           if (String.length c =? 3)%nat
           then v <~ validate_currency c ;; Py.ret (FStr v)
           else Py.raise Py.ValidationError
       end);
    ("merchant"%string, fun _ => Py.ret (FOpt (raw_merchant raw)));
    ("category"%string, fun _ => Py.ret (FOpt (raw_category raw)));
    ("timestamp"%string, fun _ =>
       match raw_timestamp raw with
       | None => Py.raise Py.ValidationError
       | Some t => v <~ validate_timestamp t ;; Py.ret (FStr v)
       end) ].

(** Fields are validated one after the other; a field that passes is
    added to [values], a field that fails is recorded as an error and is
    absent from [values] for the validators that follow. *)
Fixpoint validate_fields (fields : list field_check)
    (values : gmap string field_value) (errors : list (string * Py.exn))
    : gmap string field_value * list (string * Py.exn) :=
  match fields with
  | [] => (values, errors)
  | (name, check) :: rest =>
      match check values with
      | inr v => validate_fields rest (<[name := v]> values) errors
      | inl e => validate_fields rest values (errors ++ [(name, e)])
      end
  end.

(** [ExpenseIn] built from keyword arguments: the model, or the list of field errors carried by
    the [ValidationError]. *)
Definition ExpenseIn_new (raw : RawExpense) : list (string * Py.exn) + ExpenseIn.t :=
  let '(values, errors) := validate_fields (ExpenseIn_fields raw) ∅ [] in
  match errors with
  | _ :: _ => inl errors
  | [] =>
      match values !! "expense_id"%string, values !! "group_id"%string,
            values !! "payer_id"%string, values !! "participants"%string,
            values !! "amount"%string, values !! "currency"%string,
            values !! "merchant"%string, values !! "category"%string,
            values !! "timestamp"%string with
      | Some (FStr expense_id), Some (FStr group_id), Some (FStr payer_id),
        Some (FParticipants participants), Some (FNum amount), Some (FStr currency),
        Some (FOpt merchant), Some (FOpt category), Some (FStr timestamp) =>
          inr (ExpenseIn.mk expense_id group_id payer_id participants amount currency
                            merchant category timestamp)
      | _, _, _, _, _, _, _, _, _ => inl [("__root__"%string, Py.TypeError)]
      end
  end.

(** *** Notions used to state the properties of the schema *)

(** A participant entry with a user id and a positive amount. *)
Definition valid_participant (raw : RawParticipant) : Prop :=
  exists u a, raw_user_id raw = Some u /\ raw_p_amount raw = Some a /\ 0 < a.

(** The participant amounts and the total of the incoming arguments. *)
Definition raw_participant_amounts (raw : RawExpense) : list Q :=
  map (fun r => default 0 (raw_p_amount r)) (default [] (raw_participants raw)).

(** A structurally usable event: ids, currency and time stamp present and
    well-formed, a positive amount within the accepted range, and a non-empty
    list of valid participants. *)
Definition structurally_valid (raw : RawExpense) : Prop :=
  is_Some (raw_expense_id raw)
  /\ is_Some (raw_group_id raw)
  /\ is_Some (raw_payer_id raw)
  /\ (exists raws, raw_participants raw = Some raws /\ raws <> [] /\ Forall valid_participant raws)
  /\ (exists a, raw_amount raw = Some a /\ 0 < a /\ a <= 1000000)
  /\ (exists c, raw_currency raw = Some c /\ String.length c = 3%nat /\ Py.isupper c = true)
  /\ (exists t, raw_timestamp raw = Some t /\ is_Some (fromisoformat (Py.replace_Z t))).

(** The participant amounts sum to a value that differs from the total by
    more than 0.01. *)
Definition amount_mismatch (raw : RawExpense) : Prop :=
  0.01 < Py.abs_ (Py.sum (raw_participant_amounts raw) - default 0 (raw_amount raw)).

End WithDatetime.

End Schemas.

(** ** rule_engine.py *)

Module RuleEngine.

Import Schemas.
Local Open Scope py_scope.

Record t := mk {
  amount_multiplier_threshold : Q;
  rapid_expense_minutes : Z;
  max_participants_threshold : nat;
  suspicious_merchants : list string;
  suspicious_categories : list string
}.

(** [RuleEngine()] with no environment variable set; [''.split(',')] is
    [['']], so the default merchant blacklist holds the empty string. *)
Definition __init__ : t :=
  mk 5 15 20 [EmptyString] ["gambling"; "adult"]%string.

(** An entry of [historical_data], restricted to the keys the rules read. *)
Record Hist := mkHist {
  hist_payer_id : option string;
  hist_timestamp : option string
}.

(** Violations whose confidence is a literal within [0, 1] pass the
    constructor's range check; they are built directly.  Messages are
    f-strings; numeric placeholders are left as written in the source. *)

Definition _check_excessive_amount (self : t) (expense : ExpenseIn.t)
    (features : gmap string Py.value) : Py.result (list RuleViolation.t) :=
  amount_vs_group <~ Py.as_number (default (Py.Num 1) (features !! "amount_vs_group_mean"%string)) ;;
  if Py.Qltb (amount_multiplier_threshold self) amount_vs_group then
    let severity :=
      if Py.Qltb (amount_multiplier_threshold self * 2) amount_vs_group
      then "high"%string else "medium"%string in
    ratio <~ Py.div_ amount_vs_group (amount_multiplier_threshold self * 2) ;;
    v <~ RuleViolation.new "excessive_amount" severity
           "Expense amount is {amount_vs_group:.1f}x higher than group average"
           (Py.min_ 0.9 ratio) ;;
    Py.ret [v]
  else Py.ret [].

Definition _check_participant_mismatch (expense : ExpenseIn.t) : list RuleViolation.t :=
  (* Check if total participant amounts don't match expense amount *)
  let participant_total :=
    Py.sum (map ParticipantInfo.amount (ExpenseIn.participants expense)) in
  let violations :=
    if Py.Qltb 0.01 (Py.abs_ (participant_total - ExpenseIn.amount expense)) then
      [RuleViolation.mk "amount_mismatch" "high"
         "Participant amounts ({participant_total}) don't match total ({expense.amount})"
         0.95]
    else [] in
  (* Check for duplicate participants *)
  let participant_ids := map ParticipantInfo.user_id (ExpenseIn.participants expense) in
  if negb (length participant_ids =? Py.set_size String.eqb participant_ids)%nat then
    violations ++
    [RuleViolation.mk "duplicate_participants" "medium"
       "Duplicate participants found in expense" 0.9]
  else violations.

Definition truthy (s : option string) : bool :=
  match s with
  | Some (String _ _) => true
  | _ => false
  end.

Definition _check_blacklisted_entities (self : t) (expense : ExpenseIn.t)
    : list RuleViolation.t :=
  let violations :=
    if truthy (ExpenseIn.merchant expense) &&
       Py.mem (Py.lower (default EmptyString (ExpenseIn.merchant expense)))
              (suspicious_merchants self)
    then [RuleViolation.mk "blacklisted_merchant" "high"
            "Transaction with blacklisted merchant: {expense.merchant}" 0.95]
    else [] in
  if truthy (ExpenseIn.category expense) &&
     Py.mem (Py.lower (default EmptyString (ExpenseIn.category expense)))
            (suspicious_categories self)
  then violations ++
       [RuleViolation.mk "suspicious_category" "medium"
          "Transaction in suspicious category: {expense.category}" 0.8]
  else violations.

Section WithDatetime.

Variable fromisoformat : string -> option Py.parsed_datetime.

(** [datetime.fromisoformat(s.replace('Z', '+00:00'))] *)
Definition parse_timestamp (s : string) : Py.result Py.parsed_datetime :=
  match fromisoformat (Py.replace_Z s) with
  | Some d => Py.ret d
  | None => Py.raise Py.ValueError
  end.

(** The counting loop of [_check_rapid_expenses]. *)
Fixpoint count_rapid (expense : ExpenseIn.t) (expense_time : Py.parsed_datetime)
    (rapid_threshold : Py.timedelta) (historical_data : list Hist) (rapid_count : nat)
    : Py.result nat :=
  match historical_data with
  | [] => Py.ret rapid_count
  | hist :: rest =>
      match hist_payer_id hist, hist_timestamp hist with
      | Some payer, Some ts =>
          if String.eqb payer (ExpenseIn.payer_id expense) then
            hist_time <~ parse_timestamp ts ;;
            delta <~ Py.dt_sub expense_time hist_time ;;
            count_rapid expense expense_time rapid_threshold rest
              (if (delta <? rapid_threshold)%Z then S rapid_count else rapid_count)
          else count_rapid expense expense_time rapid_threshold rest rapid_count
      | _, _ => count_rapid expense expense_time rapid_threshold rest rapid_count
      end
  end.

Definition _check_rapid_expenses (self : t) (expense : ExpenseIn.t)
    (historical_data : list Hist) : list RuleViolation.t :=
  let attempt : Py.result (list RuleViolation.t) :=
    expense_time <~ parse_timestamp (ExpenseIn.timestamp expense) ;;
    let rapid_threshold := Py.minutes (rapid_expense_minutes self) in
    rapid_count <~ count_rapid expense expense_time rapid_threshold historical_data 0 ;;
    if (3 <=? rapid_count)%nat then
      Py.ret [RuleViolation.mk "rapid_expenses" "high"
                "{rapid_count} expenses from same payer in {self.rapid_expense_minutes} minutes"
                0.8]
    else if (2 <=? rapid_count)%nat then
      Py.ret [RuleViolation.mk "rapid_expenses" "medium"
                "{rapid_count} expenses from same payer in {self.rapid_expense_minutes} minutes"
                0.6]
    else Py.ret [] in
  match attempt with
  | inr violations => violations
  | inl _ => []          (* except Exception: logged *)
  end.

(** [utcnow] is the reading of [datetime.utcnow()], a naive datetime.  An
    exception leaves the violations appended before it in place. *)
Definition _check_time_patterns (utcnow : Py.datetime) (expense : ExpenseIn.t)
    : list RuleViolation.t :=
  match parse_timestamp (ExpenseIn.timestamp expense) with
  | inl _ => []
  | inr expense_time =>
      let hour := Py.hour (Py.wall expense_time) in
      (* Very late night transactions (2-5 AM) *)
      let violations :=
        if (2 <=? hour)%Z && (hour <=? 5)%Z then
          [RuleViolation.mk "unusual_time" "low"
             "Transaction at unusual hour: {hour}:00" 0.4]
        else [] in
      (* Future timestamp (more than 1 hour ahead) *)
      match Py.dt_gt expense_time (Py.naive (utcnow + Py.hours 1)%Z) with
      | inr true =>
          violations ++
          [RuleViolation.mk "future_timestamp" "high"
             "Transaction timestamp is in the future" 0.9]
      | inr false => violations
      | inl _ => violations
      end
  end.

Definition _check_participant_count (self : t) (expense : ExpenseIn.t)
    : list RuleViolation.t :=
  let participant_count := length (ExpenseIn.participants expense) in
  if (max_participants_threshold self <? participant_count)%nat then
    [RuleViolation.mk "excessive_participants" "medium"
       "Unusually high participant count: {participant_count}" 0.7]
  else [].

Definition _check_payer_participation (expense : ExpenseIn.t) : list RuleViolation.t :=
  let payer_participating :=
    existsb (fun p => String.eqb (ParticipantInfo.user_id p) (ExpenseIn.payer_id expense))
            (ExpenseIn.participants expense) in
  if negb payer_participating then
    [RuleViolation.mk "payer_not_participating" "medium"
       "Payer is not listed as a participant" 0.6]
  else [].

(** [str(expense.amount)] has more than two digits after the point: on
    exact rationals, the amount is not a whole number of hundredths. *)
Definition _check_amount_precision (expense : ExpenseIn.t) : list RuleViolation.t :=
  let amount := ExpenseIn.amount expense in
  let violations :=
    if Py.is_integer amount && Qle_bool 100 amount then
      [RuleViolation.mk "round_amount" "low"
         "Suspiciously round amount: ${expense.amount:.0f}" 0.3]
    else [] in
  if negb (Py.is_integer (amount * 100)) then
    violations ++
    [RuleViolation.mk "precise_amount" "low"
       "Unusually precise amount: ${expense.amount}" 0.25]
  else violations.

Definition check_rules (self : t) (utcnow : Py.datetime) (expense : ExpenseIn.t)
    (derived_features : gmap string Py.value) (historical_data : option (list Hist))
    : list RuleViolation.t :=
  let attempt : Py.result (list RuleViolation.t) :=
    (* Rule 1: Excessive amount compared to group average *)
    excessive <~ _check_excessive_amount self expense derived_features ;;
    let violations := excessive in
    (* Rule 2: Single participant mismatch *)
    let violations := violations ++ _check_participant_mismatch expense in
    (* Rule 3: Blacklisted merchant or category *)
    let violations := violations ++ _check_blacklisted_entities self expense in
    (* Rule 4: Rapid repeated expenses *)
    let violations :=
      match historical_data with
      | Some (_ :: _ as hist) => violations ++ _check_rapid_expenses self expense hist
      | _ => violations
      end in
    (* Rule 5: Unusual time patterns *)
    let violations := violations ++ _check_time_patterns utcnow expense in
    (* Rule 6: Too many participants *)
    let violations := violations ++ _check_participant_count self expense in
    (* Rule 7: Payer not participating *)
    let violations := violations ++ _check_payer_participation expense in
    (* Rule 8: Amount precision anomalies *)
    let violations := violations ++ _check_amount_precision expense in
    Py.ret violations in
  match attempt with
  | inr violations => violations
  | inl _ => []          (* except Exception: logged, no violation reported *)
  end.

(** [derived_features] whose group-mean ratio, when present, is a number. *)
Definition numeric_features (features : gmap string Py.value) : Prop :=
  match features !! "amount_vs_group_mean"%string with
  | Some (Py.Str _) | Some Py.NoneV => False
  | _ => True
  end.

(** A violation as the schema admits it: a confidence within [0, 1] and one
    of the three severities. *)
Definition well_formed_violation (v : RuleViolation.t) : Prop :=
  0 <= RuleViolation.confidence v <= 1
  /\ In (RuleViolation.severity v) ["low"; "medium"; "high"]%string.

End WithDatetime.

End RuleEngine.

(** ** ensemble.py *)

Module Ensemble.

Import Schemas.
Local Open Scope py_scope.

(** The ML model behind the [BaseModel] interface: an external provider
    whose calls may raise. *)
Record MLModel := mkMLModel {
  is_fitted : bool;
  predict_proba : list Q -> Py.result (list Q);
  explain_prediction : list Q -> nat -> Py.result (list (string * Q));
  version : string
}.

Record t := mk {
  ml_model : option MLModel;
  rule_engine : RuleEngine.t;
  ml_weight : Q;
  rule_weight : Q;
  suspicion_threshold : Q
}.

(** [EnsembleModel(ml_model, rule_engine)] with no environment variable set. *)
Definition __init__ (ml_model : option MLModel) (rule_engine : RuleEngine.t) : t :=
  mk ml_model rule_engine 0.7 0.3 0.6.

(** [self.severity_weights.get(severity, 0.5)] *)
Definition severity_weights_get (severity : string) : Q :=
  if String.eqb severity "low" then 0.3
  else if String.eqb severity "medium" then 0.6
  else if String.eqb severity "high" then 0.9
  else 0.5.

Definition _calculate_rule_score (violations : list RuleViolation.t) : Q :=
  match violations with
  | [] => 0
  | _ =>
      let '(total_score, max_possible_score) :=
        fold_left
          (fun acc violation =>
             let severity_weight := severity_weights_get (RuleViolation.severity violation) in
             let violation_score := severity_weight * RuleViolation.confidence violation in
             (fst acc + violation_score, snd acc + severity_weight))
          violations (0, 0) in
      if Py.Qltb 0 max_possible_score
      then Py.min_ 1 (total_score / max_possible_score)
      else 0
  end.

Definition _combine_scores (self : t) (ml_score rule_score : Q) : Q :=
  (* Weighted combination *)
  let combined := (ml_weight self * ml_score) + (rule_weight self * rule_score) in
  (* Apply boosting if both models agree *)
  if Py.Qltb 0.5 ml_score && Py.Qltb 0.5 rule_score then
    let boost_factor := 1.1 in
    Py.min_ 1 (combined * boost_factor)
  else combined.

(** [list.sort(key=lambda x: abs(x.contribution), reverse=True)]: a stable
    sort, entries of equal magnitude keep their order. *)
Fixpoint insert_by_magnitude (x : FeatureContribution.t) (sorted : list FeatureContribution.t)
    : list FeatureContribution.t :=
  match sorted with
  | [] => [x]
  | y :: rest =>
      if Py.Qltb (Py.abs_ (FeatureContribution.contribution y))
                 (Py.abs_ (FeatureContribution.contribution x))
      then x :: sorted
      else y :: insert_by_magnitude x rest
  end.

Definition sort_by_magnitude (xs : list FeatureContribution.t) : list FeatureContribution.t :=
  fold_left (fun sorted x => insert_by_magnitude x sorted) xs [].

Fixpoint ml_contributions (ml_explanation : list (string * Q))
    (features : gmap string Py.value) : Py.result (list FeatureContribution.t) :=
  match ml_explanation with
  | [] => Py.ret []
  | (feature_name, contribution) :: rest =>
      let value := default (Py.Num 0) (features !! feature_name) in
      c <~ FeatureContribution.new feature_name contribution value ;;
      cs <~ ml_contributions rest features ;;
      Py.ret (c :: cs)
  end.

Definition _create_explanation (self : t) (ml_explanation : list (string * Q))
    (features : gmap string Py.value) (violations : list RuleViolation.t)
    : Py.result (list FeatureContribution.t) :=
  (* Add ML contributions: top 5 ML features *)
  ml_part <~ ml_contributions (take 5 ml_explanation) features ;;
  (* Add rule-based contributions *)
  let rule_part :=
    map (fun violation =>
           let contribution_score :=
             severity_weights_get (RuleViolation.severity violation)
             * RuleViolation.confidence violation * rule_weight self in
           FeatureContribution.mk
             ("rule_" ++ RuleViolation.rule_name violation)%string
             contribution_score
             (Py.Str (RuleViolation.message violation)))
        violations in
  (* Sort by contribution magnitude, return top 10 *)
  Py.ret (take 10 (sort_by_magnitude (ml_part ++ rule_part))).

(** [update_threshold]: the ensemble with the new threshold, or the
    [ValueError] raised outside [0, 1]. *)
Definition update_threshold (self : t) (new_threshold : Q) : Py.result t :=
  if Qle_bool 0 new_threshold && Qle_bool new_threshold 1
  then Py.ret (mk (ml_model self) (rule_engine self) (ml_weight self) (rule_weight self)
                  new_threshold)
  else Py.raise Py.ValueError.

(** Values stored in the result dictionary of [predict_single]. *)
Inductive verdict_value :=
| VFloat (q : Q)
| VBool (b : bool)
| VStr (s : string)
| VViolations (vs : list RuleViolation.t)
| VExplanation (cs : list FeatureContribution.t).

Definition Verdict : Type := list (string * verdict_value).

(** [d.get(key)] / [key in d] on a result dictionary. *)
Definition lookup_key (d : Verdict) (key : string) : option verdict_value :=
  option_map snd (List.find (fun kv => String.eqb (fst kv) key) d).

Section WithDatetime.

Variable fromisoformat : string -> option Py.parsed_datetime.

(** The body of the [try] block of [predict_single]. *)
Definition predict_single_try (self : t) (utcnow : Py.datetime) (expense : ExpenseIn.t)
    (features : gmap string Py.value) (feature_vector : list Q)
    (historical_data : option (list RuleEngine.Hist)) : Py.result Verdict :=
  (* Get ML model prediction *)
  ml <~ match ml_model self with
        | Some model =>
            if is_fitted model then
              ml_proba <~ predict_proba model feature_vector ;;
              let ml_score := match ml_proba with p :: _ => p | [] => 0 end in
              (* Get ML explanation *)
              ml_explanation <~ explain_prediction model feature_vector 0 ;;
              Py.ret (ml_score, ml_explanation)
            else Py.ret (0, [])
        | None => Py.ret (0, [])
        end ;;
  let '(ml_score, ml_explanation) := ml in
  (* Get rule violations *)
  let rule_violations :=
    RuleEngine.check_rules fromisoformat (rule_engine self) utcnow expense features
                           historical_data in
  (* Calculate rule score *)
  let rule_score := _calculate_rule_score rule_violations in
  (* Combine scores *)
  let final_score := _combine_scores self ml_score rule_score in
  (* Determine if suspicious *)
  let is_suspicious := Qle_bool (suspicion_threshold self) final_score in
  (* Create explanation *)
  explanation <~ _create_explanation self ml_explanation features rule_violations ;;
  Py.ret
    [ ("anomaly_score", VFloat final_score);
      ("is_suspicious", VBool is_suspicious);
      ("ml_score", VFloat ml_score);
      ("rule_score", VFloat rule_score);
      ("rule_violations", VViolations rule_violations);
      ("explanation", VExplanation explanation);
      ("model_version",
       VStr (match ml_model self with
             | Some model => version model
             | None => "rules_only"
             end)) ]%string.

(** The safe default returned by the [except Exception] handler. *)
Definition safe_default : Verdict :=
  [ ("anomaly_score", VFloat 0);
    ("is_suspicious", VBool false);
    ("ml_score", VFloat 0);
    ("rule_score", VFloat 0);
    ("rule_violations", VViolations []);
    ("explanation", VExplanation []);
    ("model_version", VStr "error") ]%string.

(** [predict_single]: what the call produces, a returned dictionary or an
    exception that escapes to the caller. *)
Definition predict_single (self : t) (utcnow : Py.datetime) (expense : ExpenseIn.t)
    (features : gmap string Py.value) (feature_vector : list Q)
    (historical_data : option (list RuleEngine.Hist)) : Py.result Verdict :=
  match predict_single_try self utcnow expense features feature_vector historical_data with
  | inr result => Py.ret result
  | inl _ => Py.ret safe_default
  end.

(** *** Notions used to state further properties of the ensemble *)

(** No fitted ML model is attached. *)
Definition without_fitted_model (self : t) : Prop :=
  match ml_model self with
  | Some model => is_fitted model = false
  | None => True
  end.

(** The ML provider, when one is attached and fitted, answers both calls of
    [predict_single] without raising, and none of the five first features it
    explains is present in [features] with the value [None] (which
    [FeatureContribution] refuses). *)
Definition provider_succeeds (self : t) (feature_vector : list Q)
    (features : gmap string Py.value) : Prop :=
  match ml_model self with
  | Some model =>
      is_fitted model = true ->
      exists ml_proba ml_explanation,
        predict_proba model feature_vector = inr ml_proba
        /\ explain_prediction model feature_vector 0 = inr ml_explanation
        /\ Forall (fun kv => features !! fst kv <> Some Py.NoneV) (take 5 ml_explanation)
  | None => True
  end.


End WithDatetime.

End Ensemble.

(** ** realtime_risk_engine.py *)

Module RealTimeRisk.

(** The [expense_data] dictionary, restricted to the keys the engine reads. *)
Record ExpenseData := mkExpenseData {
  ed_user_id : option string;
  ed_group_id : option string;
  ed_amount : option Q;
  ed_category : option string;
  ed_location : option string;
  ed_description : option string
}.

Definition get {A} (field : option A) (dflt : A) : A :=
  match field with Some v => v | None => dflt end.

(** [RiskEvent]; [details] is [expense_data.copy()] updated with the risk
    scores, whose keys are disjoint from the keys read back later. *)
Record RiskEvent := mkRiskEvent {
  timestamp : Py.datetime;
  user_id : string;
  group_id : string;
  event_type : string;
  risk_score : Q;
  details : ExpenseData * list (string * Q)
}.

(** [self.risk_thresholds] *)
Definition risk_thresholds : gmap string Q :=
  <["high_velocity" := 0.8]>
  (<["suspicious_pattern" := 0.7]>
  (<["anomaly_detection" := 0.6]>
  (<["group_coordination" := 0.75]> ∅))).

(** [self.suspicious_patterns] *)
Definition round_amounts : list Q := [100; 250; 500; 1000; 2000; 5000].
Definition common_fraud_categories : list string :=
  ["cash_advance"; "gift_cards"; "cryptocurrency"; "gambling"]%string.
Definition high_risk_locations : list string :=
  ["atm"; "casino"; "pawn_shop"; "gas_station"]%string.

Definition _analyze_patterns (expense_data : ExpenseData) : Q :=
  let risk_score := 0 in
  let factors := 0%nat in
  let amount := get (ed_amount expense_data) 0 in
  let category := Py.lower (get (ed_category expense_data) EmptyString) in
  let location := Py.lower (get (ed_location expense_data) EmptyString) in
  let description := Py.lower (get (ed_description expense_data) EmptyString) in
  (* Round amount pattern *)
  let risk_score :=
    if existsb (Qeq_bool amount) round_amounts then risk_score + 0.3 else risk_score in
  let factors := (factors + 1)%nat in
  (* Suspicious category *)
  let risk_score :=
    if existsb (fun cat => Py.contains cat category) common_fraud_categories
    then risk_score + 0.4 else risk_score in
  let factors := (factors + 1)%nat in
  (* Risky location keywords *)
  let risk_score :=
    if existsb (fun loc => Py.contains loc location) high_risk_locations
    then risk_score + 0.3 else risk_score in
  let factors := (factors + 1)%nat in
  (* Description patterns *)
  let suspicious_words :=
    ["cash"; "advance"; "atm"; "withdrawal"; "transfer"; "urgent"; "emergency"]%string in
  let risk_score :=
    if existsb (fun word => Py.contains word description) suspicious_words
    then risk_score + 0.2 else risk_score in
  let factors := (factors + 1)%nat in
  Py.min_ 1 (risk_score / Py.of_nat (Nat.max 1 factors)).

Definition _analyze_temporal_patterns (expense_data : ExpenseData)
    (current_time : Py.datetime) : Q :=
  let hour := Py.hour current_time in
  let day_of_week := Py.weekday current_time in
  let risk_score := 0 in
  (* Late night / early morning *)
  let risk_score :=
    if (23 <=? hour)%Z || (hour <=? 5)%Z then risk_score + 0.4 else risk_score in
  (* Business hours on weekday for personal expenses *)
  let risk_score :=
    if (9 <=? hour)%Z && (hour <=? 17)%Z && (day_of_week <? 5)%Z then
      let category := Py.lower (get (ed_category expense_data) EmptyString) in
      if existsb (fun word => Py.contains word category)
           ["entertainment"; "shopping"; "dining"]%string
      then risk_score + 0.2 else risk_score
    else risk_score in
  (* Weekend large transactions *)
  let risk_score :=
    if (5 <=? day_of_week)%Z then
      let amount := get (ed_amount expense_data) 0 in
      if Py.Qltb 1000 amount then risk_score + 0.3 else risk_score
    else risk_score in
  Py.min_ 1 risk_score.

Definition suspicious_thresholds : list Q := [999; 1999; 2999; 4999; 9999].

Definition _analyze_amount_suspicion (amount : Q) : Q :=
  (* Very round numbers *)
  if Qeq_bool (Py.mod_ amount 100) 0 && Qle_bool 100 amount then 0.3
  (* Amounts just under reporting thresholds *)
  else if existsb (fun threshold =>
                     Qle_bool (threshold - 50) amount && Qle_bool amount threshold)
                  suspicious_thresholds then 0.5
  (* Very large amounts *)
  else if Py.Qltb 10000 amount then 0.6
  else if Py.Qltb 5000 amount then 0.4
  (* Very small amounts *)
  else if Qle_bool amount 1 then 0.3
  else 0.1.

Definition _categorize_risk (overall_risk : Q) : string :=
  if Qle_bool 0.8 overall_risk then "CRITICAL"
  else if Qle_bool 0.6 overall_risk then "HIGH"
  else if Qle_bool 0.4 overall_risk then "MEDIUM"
  else if Qle_bool 0.2 overall_risk then "LOW"
  else "MINIMAL".

(** [deque(maxlen=n).append(x)]: the oldest entry is discarded when full. *)
Definition deque_append {A} (maxlen : nat) (d : list A) (x : A) : list A :=
  let d' := d ++ [x] in drop (length d' - maxlen) d'.

(** [while d and p(d[0]): d.popleft()] *)
Fixpoint popleft_while {A} (p : A -> bool) (d : list A) : list A :=
  match d with
  | [] => []
  | x :: r => if p x then popleft_while p r else d
  end.

(** [xs[-n:]] *)
Definition last_n {A} (n : nat) (xs : list A) : list A :=
  drop (length xs - n) xs.

(** [[b - a for consecutive a, b in ts]], in seconds. *)
Fixpoint time_diffs (ts : list Py.datetime) : list Q :=
  match ts with
  | a :: (b :: _) as r => Py.total_seconds (b - a)%Z :: time_diffs r
  | _ => []
  end.

Record Engine := mkEngine {
  monitoring_window : Py.timedelta;
  recent_events : list RiskEvent;                                  (* deque(maxlen=10000) *)
  user_velocities : gmap string (list (Py.datetime * Q));          (* deque(maxlen=100) each *)
  group_activities : gmap string (list (Py.datetime * ExpenseData)) (* deque(maxlen=200) each *)
}.

(** [RealTimeRiskEngine(monitoring_window_minutes)] *)
Definition __init__ (monitoring_window_minutes : Z) : Engine :=
  mkEngine (Py.minutes monitoring_window_minutes) [] ∅ ∅.

Definition set_user_velocities (self : Engine) v : Engine :=
  mkEngine (monitoring_window self) (recent_events self) v (group_activities self).
Definition set_group_activities (self : Engine) g : Engine :=
  mkEngine (monitoring_window self) (recent_events self) (user_velocities self) g.

Definition _analyze_velocity (self : Engine) (user_id : string) (amount : Q)
    (current_time : Py.datetime) : Q * Engine :=
  let user_transactions := default [] (user_velocities self !! user_id) in
  (* Add current transaction *)
  let user_transactions := deque_append 100 user_transactions (current_time, amount) in
  (* Clean old transactions *)
  let cutoff_time := (current_time - monitoring_window self)%Z in
  let user_transactions :=
    popleft_while (fun e => (fst e <? cutoff_time)%Z) user_transactions in
  let self := set_user_velocities self (<[user_id := user_transactions]> (user_velocities self)) in
  match user_transactions with
  | [] | [_] => (0.1, self)
  | (t0, _) :: _ =>
      let recent_count := length user_transactions in
      let total_amount := Py.sum (map snd user_transactions) in
      let time_span := Py.total_seconds (current_time - t0)%Z / 3600 in
      if Qeq_bool time_span 0 then (0.9, self)
      else
        let frequency_risk := Py.min_ 1 (Py.of_nat recent_count / 20) in
        let amount_velocity_risk := Py.min_ 1 (total_amount / (time_span * 1000)) in
        ((frequency_risk + amount_velocity_risk) / 2, self)
  end.

Definition _analyze_group_coordination (self : Engine) (group_id : string)
    (expense_data : ExpenseData) (current_time : Py.datetime) : Q * Engine :=
  let group_activities_ := default [] (group_activities self !! group_id) in
  (* Add current activity *)
  let group_activities_ := deque_append 200 group_activities_ (current_time, expense_data) in
  (* Clean old activities *)
  let cutoff_time := (current_time - monitoring_window self)%Z in
  let group_activities_ :=
    popleft_while (fun e => (fst e <? cutoff_time)%Z) group_activities_ in
  let self := set_group_activities self (<[group_id := group_activities_]> (group_activities self)) in
  if (length group_activities_ <? 2)%nat then (0.1, self)
  else
    let recent_activities := group_activities_ in
    (* Similar amounts in short time *)
    let amounts := map (fun e => get (ed_amount (snd e)) 0) (last_n 5 recent_activities) in
    if (Py.set_size Qeq_bool amounts =? 1)%nat && (1 <? length amounts)%nat then (0.8, self)
    else
      (* Similar categories *)
      let categories :=
        map (fun e => get (ed_category (snd e)) EmptyString) (last_n 5 recent_activities) in
      if (Py.set_size String.eqb categories =? 1)%nat && (2 <? length categories)%nat
      then (0.6, self)
      else
        (* Time clustering *)
        let times := map fst (last_n 10 recent_activities) in
        if (3 <? length times)%nat && forallb (fun diff => Py.Qltb diff 300) (time_diffs times)
        then (0.7, self)
        else (0.2, self).

Section WithNumpy.

(** [np.std], the population standard deviation, is irrational in general;
    it is taken as a parameter of the engine. *)
Variable np_std : list Q -> Q.

Definition _detect_anomalies (self : Engine) (user_id : string)
    (expense_data : ExpenseData) : Q :=
  let amount := get (ed_amount expense_data) 0 in
  let category := get (ed_category expense_data) EmptyString in
  (* Get user's recent transactions *)
  let user_transactions :=
    last_n 20 (map (fun event => fst (details event))
                   (filter (fun event => RealTimeRisk.user_id event = user_id)
                           (recent_events self))) in
  match user_transactions with
  | [] => 0.3
  | _ =>
      (* Amount anomaly *)
      let amounts := map (fun t => get (ed_amount t) 0) user_transactions in
      let avg_amount := Py.mean amounts in
      let std_amount :=
        if (1 <? length amounts)%nat then np_std amounts else avg_amount * 0.5 in
      let std_amount := if Qeq_bool std_amount 0 then avg_amount * 0.1 else std_amount in
      let z_score :=
        if Py.Qltb 0 std_amount then Py.abs_ (amount - avg_amount) / std_amount else 0 in
      let amount_anomaly := Py.min_ 1 (z_score / 3) in
      (* Category anomaly *)
      let categories := map (fun t => get (ed_category t) EmptyString) user_transactions in
      let category_frequency :=
        match categories with
        | [] => 0
        | _ => Py.of_nat (length (filter (fun c => c = category) categories))
               / Py.of_nat (length categories)
        end in
      let category_anomaly := 1 - category_frequency in
      (amount_anomaly + category_anomaly) / 2
  end.

Definition _store_event (self : Engine) (event : RiskEvent) : Engine :=
  mkEngine (monitoring_window self) (deque_append (100 * 100) (recent_events self) event)
           (user_velocities self) (group_activities self).

(** An f-string ending in [(score: {score:.2f})] is kept as its text with
    the placeholder, paired with the score it formats. *)
Definition Message : Type := string * Q.

Definition _get_alert_message (risk_type : string) (score : Q) : Message :=
  let messages : list (string * string) :=
    [("velocity_risk", "High transaction velocity detected (score: {score:.2f})");
     ("pattern_risk", "Suspicious transaction pattern identified (score: {score:.2f})");
     ("coordination_risk", "Potential coordinated group activity (score: {score:.2f})");
     ("anomaly_risk", "Transaction anomaly detected (score: {score:.2f})");
     ("temporal_risk", "Suspicious timing pattern (score: {score:.2f})");
     ("amount_suspicion", "Suspicious amount characteristics (score: {score:.2f})")]%string in
  match List.find (fun kv => String.eqb (fst kv) risk_type) messages with
  | Some kv => (snd kv, score)
  | None => (("Risk detected: " ++ risk_type ++ " (score: {score:.2f})")%string, score)
  end.

Record Alert := mkAlert {
  alert_type : string;
  alert_severity : string;
  alert_score : Q;
  alert_message : Message;
  alert_timestamp : Py.datetime;
  alert_expense_amount : Q;
  alert_user_id : string
}.

(** [now k] is the [k]-th reading of [datetime.now()] made while building
    the alerts: one reading per emitted alert, in emission order. *)
Fixpoint _generate_alerts_from (now : nat -> Py.datetime) (k : nat)
    (items : list (string * Q)) (expense_data : ExpenseData) : list Alert :=
  match items with
  | [] => []
  | (risk_type, score) :: rest =>
      if Qle_bool (default 0.6 (risk_thresholds !! risk_type)) score then
        mkAlert risk_type
                (if Qle_bool 0.8 score then "HIGH" else "MEDIUM")
                score
                (_get_alert_message risk_type score)
                (now k)
                (get (ed_amount expense_data) 0)
                (get (ed_user_id expense_data) "unknown"%string)
        :: _generate_alerts_from now (S k) rest expense_data
      else _generate_alerts_from now k rest expense_data
  end.

Definition _generate_alerts (now : nat -> Py.datetime)
    (risk_scores : list (string * Q)) (expense_data : ExpenseData) : list Alert :=
  _generate_alerts_from now 0 risk_scores expense_data.

(** [risk_scores.get(key, 0)] *)
Definition scores_get (risk_scores : list (string * Q)) (key : string) : Q :=
  match List.find (fun kv => String.eqb (fst kv) key) risk_scores with
  | Some kv => snd kv
  | None => 0
  end.

Definition _generate_recommendations (risk_scores : list (string * Q)) : list string :=
  let recommendations :=
    (if Py.Qltb 0.6 (scores_get risk_scores "velocity_risk")
     then ["Consider implementing transaction velocity limits";
           "Review recent transaction history for this user"] else [])
    ++ (if Py.Qltb 0.6 (scores_get risk_scores "pattern_risk")
        then ["Flag for manual review due to suspicious patterns";
              "Verify transaction authenticity with user"] else [])
    ++ (if Py.Qltb 0.7 (scores_get risk_scores "coordination_risk")
        then ["Investigate potential coordinated fraud in group";
              "Review all group members' recent activities"] else [])
    ++ (if Py.Qltb 0.6 (scores_get risk_scores "anomaly_risk")
        then ["Transaction deviates significantly from user patterns";
              "Consider additional authentication"] else []) in
  match recommendations with
  | [] => ["Transaction appears normal - continue monitoring"]
  | _ => recommendations
  end%string.

Record MonitoringInsights := mkInsights {
  monitoring_window_minutes : Q;
  user_activity_count : nat;
  group_activity_count : nat;
  avg_user_risk : Q;
  avg_group_risk : Q;
  high_risk_events : nat
}.

Definition _get_monitoring_insights (self : Engine) (current_time : Py.datetime)
    (user_id group_id : string) : MonitoringInsights :=
  let cutoff_time := (current_time - monitoring_window self)%Z in
  let user_events :=
    filter (fun e => RealTimeRisk.user_id e = user_id /\ (cutoff_time < timestamp e)%Z)
           (recent_events self) in
  let group_events :=
    filter (fun e => RealTimeRisk.group_id e = group_id /\ (cutoff_time < timestamp e)%Z)
           (recent_events self) in
  mkInsights
    (Py.total_seconds (monitoring_window self) / 60)
    (length user_events)
    (length group_events)
    (match user_events with [] => 0 | _ => Py.mean (map risk_score user_events) end)
    (match group_events with [] => 0 | _ => Py.mean (map risk_score group_events) end)
    (length (filter (fun e => Py.Qltb 0.7 (risk_score e) = true)
                    (user_events ++ group_events))).

Record Analysis := mkAnalysis {
  risk_scores : list (string * Q);
  alerts : list Alert;
  risk_level : string;
  recommendations : list string;
  monitoring_insights : MonitoringInsights
}.

(** [clock 0] is the reading taken on entry ([current_time]); readings
    [1 .. n] stamp the [n] alerts; reading [n + 1] is taken by
    [_get_monitoring_insights]. *)
Definition analyze_real_time_risk (clock : nat -> Py.datetime) (self : Engine)
    (expense_data : ExpenseData) : Analysis * Engine :=
  let current_time := clock 0%nat in
  let user_id := get (ed_user_id expense_data) "unknown"%string in
  let group_id := get (ed_group_id expense_data) "unknown"%string in
  let amount := get (ed_amount expense_data) 0 in
  (* 1. Velocity Analysis *)
  let '(velocity_risk, self) := _analyze_velocity self user_id amount current_time in
  (* 2. Pattern Recognition *)
  let pattern_risk := _analyze_patterns expense_data in
  (* 3. Group Coordination Analysis *)
  let '(coordination_risk, self) :=
    _analyze_group_coordination self group_id expense_data current_time in
  (* 4. Anomaly Detection *)
  let anomaly_risk := _detect_anomalies self user_id expense_data in
  (* 5. Time-based Analysis *)
  let temporal_risk := _analyze_temporal_patterns expense_data current_time in
  (* 6. Amount-based Suspicion *)
  let amount_suspicion := _analyze_amount_suspicion amount in
  let risk_scores :=
    [("velocity_risk", velocity_risk); ("pattern_risk", pattern_risk);
     ("coordination_risk", coordination_risk); ("anomaly_risk", anomaly_risk);
     ("temporal_risk", temporal_risk); ("amount_suspicion", amount_suspicion)]%string in
  (* Calculate overall real-time risk *)
  let overall_risk := Py.mean (map snd risk_scores) in
  let risk_scores := risk_scores ++ [("overall_realtime_risk"%string, overall_risk)] in
  (* Store event *)
  let risk_event :=
    mkRiskEvent current_time user_id group_id "expense_analysis" overall_risk
                (expense_data, risk_scores) in
  let self := _store_event self risk_event in
  (* Generate alerts if necessary *)
  let alerts := _generate_alerts (fun k => clock (S k)) risk_scores expense_data in
  (mkAnalysis risk_scores alerts
              (_categorize_risk overall_risk)
              (_generate_recommendations risk_scores)
              (_get_monitoring_insights self (clock (S (length alerts))) user_id group_id),
   self).

(** *** Notions used to state the properties of the engine *)

(** An event is valid when its amount is positive. *)
Definition valid_event (expense_data : ExpenseData) : Prop :=
  0 < get (ed_amount expense_data) 0.

(** Every buffered transaction is stamped no later than [now] and carries a
    non-negative amount. *)
Definition window_ok (now : Py.datetime) (txs : list (Py.datetime * Q)) : Prop :=
  Forall (fun e => (fst e <= now)%Z /\ 0 <= snd e) txs.

Definition wf_engine (now : Py.datetime) (self : Engine) : Prop :=
  forall user txs, user_velocities self !! user = Some txs -> window_ok now txs.

(** Engine states obtained from a fresh engine by scoring valid events
    while the wall clock does not go backwards; the index is the clock
    reading on entry of the last call. *)
Inductive reachable : Py.datetime -> Engine -> Prop :=
| reachable_init (m : Z) (t : Py.datetime) : reachable t (__init__ m)
| reachable_step (t : Py.datetime) (self : Engine) (clock : nat -> Py.datetime)
    (expense_data : ExpenseData) :
    reachable t self ->
    valid_event expense_data ->
    (t <= clock 0%nat)%Z ->
    reachable (clock 0%nat) (snd (analyze_real_time_risk clock self expense_data)).

(** The thresholds of the risk levels as documented. *)
Definition documented_level (score : Q) (level : string) : Prop :=
  (0.8 <= score -> level = "CRITICAL"%string)
  /\ (0.6 <= score < 0.8 -> level = "HIGH"%string)
  /\ (0.4 <= score < 0.6 -> level = "MEDIUM"%string)
  /\ (0.2 <= score < 0.4 -> level = "LOW"%string)
  /\ (score < 0.2 -> level = "MINIMAL"%string).

(** The two tests of [_analyze_amount_suspicion] that single out special
    amounts: exact multiples of 100 from 100 up, and amounts within 50 below
    a reporting threshold. *)
Definition round_hundred (amount : Q) : bool :=
  Qeq_bool (Py.mod_ amount 100) 0 && Qle_bool 100 amount.

Definition just_under_threshold (amount : Q) : bool :=
  existsb (fun threshold =>
             Qle_bool (threshold - 50) amount && Qle_bool amount threshold)
          suspicious_thresholds.

(** An amount above 1 that neither test singles out. *)
Definition plain_amount (amount : Q) : Prop :=
  round_hundred amount = false /\ just_under_threshold amount = false /\ 1 < amount.

(** An alert without the clock reading that stamps it. *)
Definition untimed (a : Alert) : string * string * Q * Message * Q * string :=
  (alert_type a, alert_severity a, alert_score a, alert_message a,
   alert_expense_amount a, alert_user_id a).

(** [get_real_time_stats]; the keys [medium_risk_events], [low_risk_events]
    and [monitoring_window_minutes] are present only when some event is
    recent. *)
Record Stats := mkStats {
  total_events : nat;
  avg_risk_score : Q;
  stats_high_risk_events : nat;
  medium_risk_events : option nat;
  low_risk_events : option nat;
  active_users : nat;
  active_groups : nat;
  stats_monitoring_window_minutes : option Z
}.

Definition get_real_time_stats (self : Engine) (current_time : Py.datetime) : Stats :=
  let cutoff_time := (current_time - monitoring_window self)%Z in
  let recent :=
    filter (fun e => (cutoff_time < timestamp e)%Z) (recent_events self) in
  match recent with
  | [] => mkStats 0 0 0 None None 0 0 None
  | _ =>
      mkStats
        (length recent)
        (Py.round_ (Py.mean (map risk_score recent)) 3)
        (length (filter (fun e => Py.Qltb 0.7 (risk_score e) = true) recent))
        (Some (length (filter (fun e => Qle_bool 0.4 (risk_score e)
                                        && Qle_bool (risk_score e) 0.7 = true) recent)))
        (Some (length (filter (fun e => Py.Qltb (risk_score e) 0.4 = true) recent)))
        (Py.set_size String.eqb (map RealTimeRisk.user_id recent))
        (Py.set_size String.eqb (map RealTimeRisk.group_id recent))
        (Some (Py.int_ (Py.total_seconds (monitoring_window self) / 60)))
  end.

(** *** Notions used to state further properties of the engine *)

(** The capacities of the three buffers. *)
Definition bounded_engine (self : Engine) : Prop :=
  (length (recent_events self) <= 100 * 100)%nat
  /\ (forall user txs, user_velocities self !! user = Some txs -> (length txs <= 100)%nat)
  /\ (forall group acts,
        group_activities self !! group = Some acts -> (length acts <= 200)%nat).

(** Time stamps in non-decreasing order, none later than [now]. *)
Fixpoint nondecreasing (ts : list Py.datetime) : Prop :=
  match ts with
  | a :: (b :: _) as rest => (a <= b)%Z /\ nondecreasing rest
  | _ => True
  end.

Definition ordered_upto (now : Py.datetime) (ts : list Py.datetime) : Prop :=
  nondecreasing ts /\ Forall (fun t => (t <= now)%Z) ts.

Definition ordered_engine (now : Py.datetime) (self : Engine) : Prop :=
  (forall user txs, user_velocities self !! user = Some txs -> ordered_upto now (map fst txs))
  /\ (forall group acts,
        group_activities self !! group = Some acts -> ordered_upto now (map fst acts)).

(** Time stamps within the monitoring window that ends at [now]. *)
Definition within_window (self : Engine) (now : Py.datetime) (ts : list Py.datetime) : Prop :=
  Forall (fun t => (now - monitoring_window self <= t <= now)%Z) ts.

End WithNumpy.

End RealTimeRisk.

(** ** behavioral_analyzer.py *)

Module Behavioral.

Record UserProfile := mkUserProfile {
  user_id : string;
  total_expenses : Z;
  avg_amount : Q;
  favorite_categories : list string;
  usual_times : list Z;
  frequent_locations : list string;
  preferred_payment_methods : list string;
  group_memberships : list string;
  risk_score : Q;
  last_updated : Py.datetime
}.

Record GroupProfile := mkGroupProfile {
  group_id : string;
  members : list string;
  avg_expense_amount : Q;
  common_categories : list string;
  expense_frequency : Q;
  risk_incidents : Z;
  trust_score : Q;
  created_at : Py.datetime
}.

(** [UserProfile(user_id=...)] and [GroupProfile(group_id=...)]: the
    dataclass defaults, stamped with the clock reading [now]. *)
Definition UserProfile_new (user_id : string) (now : Py.datetime) : UserProfile :=
  mkUserProfile user_id 0 0 [] [] [] [] [] 0 now.
Definition GroupProfile_new (group_id : string) (now : Py.datetime) : GroupProfile :=
  mkGroupProfile group_id [] 0 [] 0 0 1 now.

(** [getattr(group_profile, 'total_expenses', 1)]: [GroupProfile] declares no
    [total_expenses] field and nothing assigns one, so the default is taken. *)
Definition getattr_total_expenses (group_profile : GroupProfile) : Z := 1.

(** The [expense_data] dictionary, restricted to the keys read here. *)
Record ExpenseData := mkExpenseData {
  ed_user_id : option string;
  ed_group_id : option string;
  ed_amount : option Q;
  ed_category : option string;
  ed_payment_method : option string;
  ed_location : option string;
  ed_timestamp : option string
}.

Definition get {A} (field : option A) (dflt : A) : A :=
  match field with Some v => v | None => dflt end.

Record Analyzer := mkAnalyzer {
  user_profiles : gmap string UserProfile;
  group_profiles : gmap string GroupProfile
}.

Definition _calculate_amount_deviation (profile : UserProfile) (amount : Q) : Q :=
  if (total_expenses profile <? 3)%Z then 0.3
  else if Qeq_bool (avg_amount profile) 0 then 0.5
  else
    let deviation := Py.abs_ (amount - avg_amount profile) / avg_amount profile in
    Py.min_ 1 (deviation / 2).

Definition _calculate_category_familiarity (profile : UserProfile) (category : string) : Q :=
  match favorite_categories profile with
  | [] => 0.2
  | _ => if Py.mem category (favorite_categories profile) then 0.1 else 0.6
  end.

Definition _calculate_group_amount_deviation (profile : GroupProfile) (amount : Q) : Q :=
  if Qeq_bool (avg_expense_amount profile) 0 then 0.3
  else
    let deviation :=
      Py.abs_ (amount - avg_expense_amount profile) / avg_expense_amount profile in
    Py.min_ 1 (deviation / 3).

Definition _calculate_new_user_risk (profile : UserProfile) : Q :=
  if (total_expenses profile <? 5)%Z then 0.4
  else if (total_expenses profile <? 20)%Z then 0.2
  else 0.1.

Definition _calculate_velocity_risk (profile : UserProfile) : Q :=
  if (100 <? total_expenses profile)%Z then 0.3 else 0.1.

Section WithDatetime.

Variable fromisoformat : string -> option Py.parsed_datetime.

(** The hour read inside the [try] blocks:
    [expense_data.get('timestamp', datetime.now().isoformat())] parsed
    back; [None] when parsing raises. *)
Definition expense_hour (expense_data : ExpenseData) (now : Py.datetime) : option Z :=
  match ed_timestamp expense_data with
  | None => Some (Py.hour now)
  | Some timestamp =>
      option_map (fun dt => Py.hour (Py.wall dt)) (fromisoformat (Py.replace_Z timestamp))
  end.

Definition _calculate_time_consistency (profile : UserProfile)
    (expense_data : ExpenseData) (now : Py.datetime) : Q :=
  match expense_hour expense_data now with
  | None => 0.3
  | Some hour =>
      match usual_times profile with
      | [] => 0.2
      | _ =>
          if existsb (fun usual_hour => (Z.abs (hour - usual_hour) <=? 2)%Z)
                     (usual_times profile)
          then 0.1 else 0.5
      end
  end.

(** [now k]: the [k]-th reading of [datetime.now()] during the call
    (profile creation stamps, then the timestamp default). *)
Definition analyze_expense (now : nat -> Py.datetime) (self : Analyzer)
    (expense_data : ExpenseData) : list (string * Q) * Analyzer :=
  let user_id := get (ed_user_id expense_data) "unknown"%string in
  let group_id := get (ed_group_id expense_data) "unknown"%string in
  let amount := get (ed_amount expense_data) 0 in
  let category := get (ed_category expense_data) "other"%string in
  (* Get or create user profile *)
  let '(user_profile, k) :=
    match user_profiles self !! user_id with
    | Some p => (p, 0%nat)
    | None => (UserProfile_new user_id (now 0%nat), 1%nat)
    end in
  (* Get or create group profile *)
  let '(group_profile, k) :=
    match group_profiles self !! group_id with
    | Some g => (g, k)
    | None => (GroupProfile_new group_id (now k), S k)
    end in
  let self :=
    mkAnalyzer (<[user_id := user_profile]> (user_profiles self))
               (<[group_id := group_profile]> (group_profiles self)) in
  let risk_scores :=
    [ ("user_amount_deviation", _calculate_amount_deviation user_profile amount);
      ("user_category_familiarity", _calculate_category_familiarity user_profile category);
      ("user_time_consistency", _calculate_time_consistency user_profile expense_data (now k));
      ("group_trust_score", 1 - trust_score group_profile);
      ("group_amount_deviation", _calculate_group_amount_deviation group_profile amount);
      ("new_user_risk", _calculate_new_user_risk user_profile);
      ("velocity_risk", _calculate_velocity_risk user_profile) ]%string in
  (risk_scores ++ [("behavioral_risk_score"%string, Py.mean (map snd risk_scores))], self).

(** [xs.append(x)] followed by [if len(xs) > n: xs = xs[-n:]]. *)
Definition append_bounded {A} (n : nat) (xs : list A) (x : A) : list A :=
  let xs := xs ++ [x] in
  if (n <? length xs)%nat then drop (length xs - n) xs else xs.

Definition update_user_profile (profile : UserProfile) (expense_data : ExpenseData)
    (is_fraud : bool) (now1 now2 : Py.datetime) : UserProfile :=
  let amount := get (ed_amount expense_data) 0 in
  let category := get (ed_category expense_data) "other"%string in
  let payment_method := get (ed_payment_method expense_data) "unknown"%string in
  let location := get (ed_location expense_data) "unknown"%string in
  (* Update expense count and average *)
  let total_expenses' := (total_expenses profile + 1)%Z in
  let avg_amount' :=
    ((avg_amount profile * inject_Z (total_expenses' - 1)) + amount)
    / inject_Z total_expenses' in
  (* Update favorite categories *)
  let favorite_categories' :=
    if negb (Py.mem category (favorite_categories profile))
    then append_bounded 5 (favorite_categories profile) category
    else favorite_categories profile in
  (* Update time patterns *)
  let usual_times' :=
    match expense_hour expense_data now1 with
    | Some hour => append_bounded 20 (usual_times profile) hour
    | None => usual_times profile
    end in
  (* Update other preferences *)
  let preferred_payment_methods' :=
    if negb (Py.mem payment_method (preferred_payment_methods profile))
    then preferred_payment_methods profile ++ [payment_method]
    else preferred_payment_methods profile in
  let frequent_locations' :=
    if negb (Py.mem location (frequent_locations profile))
    then append_bounded 10 (frequent_locations profile) location
    else frequent_locations profile in
  (* Update risk score based on fraud feedback *)
  let risk_score' :=
    if is_fraud then Py.min_ 1 (risk_score profile + 0.1)
    else Py.max_ 0 (risk_score profile - 0.01) in
  mkUserProfile (user_id profile) total_expenses' avg_amount' favorite_categories'
                usual_times' frequent_locations' preferred_payment_methods'
                (group_memberships profile) risk_score' now2.

Definition update_group_profile (group_profile : GroupProfile)
    (expense_data : ExpenseData) (is_fraud : bool) : GroupProfile :=
  let amount := get (ed_amount expense_data) 0 in
  let category := get (ed_category expense_data) "other"%string in
  (* Update average amount *)
  let total_expenses := getattr_total_expenses group_profile in
  let avg_expense_amount' :=
    ((avg_expense_amount group_profile * inject_Z total_expenses) + amount)
    / inject_Z (total_expenses + 1) in
  (* Update categories *)
  let common_categories' :=
    if negb (Py.mem category (common_categories group_profile))
    then append_bounded 5 (common_categories group_profile) category
    else common_categories group_profile in
  (* Update trust score *)
  let '(risk_incidents', trust_score') :=
    if is_fraud
    then ((risk_incidents group_profile + 1)%Z, Py.max_ 0 (trust_score group_profile - 0.05))
    else (risk_incidents group_profile, Py.min_ 1 (trust_score group_profile + 0.001)) in
  mkGroupProfile (group_id group_profile) (members group_profile) avg_expense_amount'
                 common_categories' (expense_frequency group_profile)
                 risk_incidents' trust_score' (created_at group_profile).

(** [update_profiles]: only profiles already present are updated; the
    profiles are then written to disk, which leaves the analyzer as is.
    [now 0] is the default of a missing timestamp, [now 1] the
    [last_updated] stamp. *)
Definition update_profiles (now : nat -> Py.datetime) (self : Analyzer)
    (expense_data : ExpenseData) (is_fraud : bool) : Analyzer :=
  let user_id := get (ed_user_id expense_data) "unknown"%string in
  let group_id := get (ed_group_id expense_data) "unknown"%string in
  let user_profiles' :=
    match user_profiles self !! user_id with
    | Some profile =>
        <[user_id := update_user_profile profile expense_data is_fraud
                       (now 0%nat) (now 1%nat)]> (user_profiles self)
    | None => user_profiles self
    end in
  let group_profiles' :=
    match group_profiles self !! group_id with
    | Some group_profile =>
        <[group_id := update_group_profile group_profile expense_data is_fraud]>
          (group_profiles self)
    | None => group_profiles self
    end in
  mkAnalyzer user_profiles' group_profiles'.

(** One full round for an event: analysis, which creates missing profiles,
    followed by the profile update, as the API performs them. *)
Definition record_event (now : nat -> Py.datetime) (self : Analyzer)
    (expense_data : ExpenseData) (is_fraud : bool) : Analyzer :=
  update_profiles now (snd (analyze_expense now self expense_data)) expense_data is_fraud.

(** The amounts observed in a sequence of events. *)
Definition observed_amounts (events : list ExpenseData) : list Q :=
  map (fun expense_data => get (ed_amount expense_data) 0) events.

(** The round repeated over a sequence of calls, each with its own clock
    and its own fraud feedback. *)
Definition record_events (self : Analyzer)
    (calls : list ((nat -> Py.datetime) * ExpenseData * bool)) : Analyzer :=
  fold_left (fun self call => record_event (fst (fst call)) self (snd (fst call)) (snd call))
            calls self.

End WithDatetime.

(** *** Notions used to state the properties of the profiles *)

(** The bounds the updates maintain on a user profile: the count and the
    average are not negative, the risk score is in the unit interval, and at
    most 5 categories, 20 hours and 10 locations are kept, the categories
    and locations without repetition. *)
Definition wf_user_profile (p : UserProfile) : Prop :=
  (0 <= total_expenses p)%Z /\ 0 <= avg_amount p /\ 0 <= risk_score p <= 1
  /\ (length (favorite_categories p) <= 5)%nat
  /\ (length (usual_times p) <= 20)%nat
  /\ (length (frequent_locations p) <= 10)%nat
  /\ NoDup (favorite_categories p)
  /\ NoDup (frequent_locations p)
  /\ NoDup (preferred_payment_methods p).

Definition wf_group_profile (g : GroupProfile) : Prop :=
  0 <= avg_expense_amount g /\ 0 <= trust_score g <= 1 /\ (0 <= risk_incidents g)%Z
  /\ (length (common_categories g) <= 5)%nat
  /\ NoDup (common_categories g).

Definition wf_analyzer (self : Analyzer) : Prop :=
  (forall k p, user_profiles self !! k = Some p -> wf_user_profile p)
  /\ (forall k g, group_profiles self !! k = Some g -> wf_group_profile g).

End Behavioral.

(** ** smart_notifications.py *)

Module Notifications.

Inductive AlertSeverity := CRITICAL | HIGH | MEDIUM | LOW | INFO.

Inductive NotificationChannel := EMAIL | WEBHOOK | SMS | IN_APP | SLACK | DISCORD.

(** The criteria of a rule condition: a dictionary with optional ['min'] and
    ['max'], a string, or anything else. *)
Inductive criteria :=
| Range (min max : option Q)
| Text (s : string)
| Opaque.

Record NotificationRule := mkRule {
  name : string;
  conditions : list (string * criteria);
  channels : list NotificationChannel;
  severity_threshold : AlertSeverity;
  cooldown_minutes : Z;
  enabled : bool;
  last_triggered : option Py.datetime
}.

(** [rule.last_triggered = t] *)
Definition set_last_triggered (rule : NotificationRule) (t : Py.datetime) : NotificationRule :=
  mkRule (name rule) (conditions rule) (channels rule) (severity_threshold rule)
         (cooldown_minutes rule) (enabled rule) (Some t).

(** The alert id [f"{risk_type}_{current_time:%Y%m%d_%H%M%S}_{user_id}"] is
    determined by the risk type, the time in whole seconds and the user. *)
Definition AlertId : Type := string * Z * string.

Record Alert := mkAlert {
  id : AlertId;
  timestamp : Py.datetime;
  severity : AlertSeverity;
  title : string;
  message : string;
  risk_type : string;                (* details['risk_type'] *)
  user_id : string;
  group_id : option string;
  expense_amount : Q;
  risk_score : Q;
  recommendations : list string;
  acknowledged : bool;
  resolved : bool
}.

(** The [expense_data] dictionary, restricted to the keys read here. *)
Record ExpenseData := mkExpenseData {
  ed_user_id : option string;
  ed_group_id : option string;
  ed_amount : option Q;
  ed_category : option string
}.

Definition get {A} (field : option A) (dflt : A) : A :=
  match field with Some v => v | None => dflt end.

(** [self.config['channels']] *)
Record Config := mkConfig {
  email_enabled : bool;
  email_recipients : list string;
  webhook_enabled : bool;
  webhook_urls : list string;
  slack_enabled : bool;
  slack_webhook_url : string
}.

Definition default_config : Config := mkConfig false [] true [] false EmptyString.

Record HistoryEntry := mkHistory {
  h_alert_id : AlertId;
  h_channel : NotificationChannel;
  h_timestamp : Py.datetime;
  h_rule : string;
  h_status : string;
  h_error : option Py.exn
}.

Record System := mkSystem {
  config : Config;
  active_alerts : gmap AlertId Alert;
  notification_history : list HistoryEntry;
  rules : list NotificationRule
}.

Definition default_rules : list NotificationRule :=
  [ mkRule "Critical Fraud Alert" [("risk_score", Range (Some 0.8) None)]
           [WEBHOOK; EMAIL] CRITICAL 15 true None;
    mkRule "High Risk Transaction" [("risk_score", Range (Some 0.6) None)]
           [WEBHOOK] HIGH 30 true None;
    mkRule "Velocity Alert" [("alert_type", Text "velocity_risk")]
           [WEBHOOK; IN_APP] MEDIUM 45 true None;
    mkRule "Group Coordination Alert" [("alert_type", Text "coordination_risk")]
           [WEBHOOK; EMAIL] HIGH 20 true None;
    mkRule "Large Amount Alert" [("expense_amount", Range (Some 5000) None)]
           [WEBHOOK] MEDIUM 60 true None ]%string.

(** [SmartNotificationSystem()] with no configuration file. *)
Definition __init__ : System := mkSystem default_config ∅ [] default_rules.

(** The program state together with the number of clock readings made so
    far: reading number [k] of [datetime.now()] returns [clock k]. *)
Record World := mkWorld {
  sys : System;
  ticks : nat
}.

Definition St (A : Type) : Type := World -> A * World.
Definition ret {A} (a : A) : St A := fun w => (a, w).
Definition bind {A B} (m : St A) (k : A -> St B) : St B :=
  fun w => let '(a, w') := m w in k a w'.

Declare Scope st_scope.
Notation "x <- m ;; k" := (bind m (fun x => k))
  (at level 100, m at next level, right associativity) : st_scope.
Notation "m ;;; k" := (bind m (fun _ => k))
  (at level 100, right associativity) : st_scope.
Local Open Scope st_scope.

Definition severity_level (s : AlertSeverity) : Z :=
  match s with
  | INFO => 0
  | LOW => 1
  | MEDIUM => 2
  | HIGH => 3
  | CRITICAL => 4
  end%Z.

Definition _matches_rule (alert : Alert) (rule : NotificationRule) : bool :=
  (* Check severity threshold *)
  if (severity_level (severity alert) <? severity_level (severity_threshold rule))%Z
  then false
  else
    (* Check specific conditions *)
    forallb
      (fun cond =>
         let '(condition, criteria) := cond in
         if String.eqb condition "risk_score" then
           match criteria with
           | Range min_score max_score =>
               Qle_bool (get min_score 0) (risk_score alert)
               && Qle_bool (risk_score alert) (get max_score 1)
           | _ => true
           end
         else if String.eqb condition "expense_amount" then
           match criteria with
           | Range min_amount max_amount =>
               Qle_bool (get min_amount 0) (expense_amount alert)
               && match max_amount with
                  | Some m => Qle_bool (expense_amount alert) m
                  | None => true      (* float('inf') *)
                  end
           | _ => true
           end
         else if String.eqb condition "alert_type" then
           match criteria with
           | Text s => String.eqb s (risk_type alert)
           | _ => false
           end
         else true)
      (conditions rule).

Section WithEnvironment.

(** The wall clock, the outcome of [requests.post(url, ...)] followed by
    [raise_for_status()] and of the SMTP session, both depending on when
    they are attempted ([true]: no exception), and the rendering of the
    title and message of an alert. *)
Variable clock : nat -> Py.datetime.
Variable requests_post : nat -> string -> bool.
Variable smtp_send : nat -> list string -> bool.
Variable _generate_alert_content : string -> Q -> ExpenseData -> string * string.

(** [datetime.now()] *)
Definition now : St Py.datetime :=
  fun w => (clock (ticks w), mkWorld (sys w) (S (ticks w))).

Definition get_sys : St System := fun w => (sys w, w).
Definition get_ticks : St nat := fun w => (ticks w, w).
Definition put_sys (s : System) : St unit := fun w => (tt, mkWorld s (ticks w)).

Definition _should_notify (rule : NotificationRule) : St bool :=
  match last_triggered rule with
  | None => ret true
  | Some last_triggered =>
      let cooldown := Py.minutes (cooldown_minutes rule) in
      t <- now ;;
      ret (cooldown <? t - last_triggered)%Z
  end.

(** [for url in urls: post; raise on the first failure] *)
Fixpoint post_all (k : nat) (urls : list string) : Py.result unit :=
  match urls with
  | [] => Py.ret tt
  | url :: rest =>
      if requests_post k url then post_all k rest
      else Py.raise (Py.RuntimeError "requests")
  end.

Definition _send_webhook (alert : Alert) : St (Py.result unit) :=
  s <- get_sys ;;
  if negb (webhook_enabled (config s)) then ret (Py.ret tt)
  else
    payload_timestamp <- now ;;
    k <- get_ticks ;;
    ret (post_all k (webhook_urls (config s))).

Definition _send_email (alert : Alert) : St (Py.result unit) :=
  s <- get_sys ;;
  if negb (email_enabled (config s)) then ret (Py.ret tt)
  else
    match email_recipients (config s) with
    | [] => ret (Py.ret tt)
    | recipients =>
        k <- get_ticks ;;
        ret (if smtp_send k recipients then Py.ret tt
             else Py.raise (Py.RuntimeError "smtplib"))
    end.

Definition _send_slack (alert : Alert) : St (Py.result unit) :=
  s <- get_sys ;;
  if negb (slack_enabled (config s)) then ret (Py.ret tt)
  else
    match slack_webhook_url (config s) with
    | EmptyString => ret (Py.ret tt)
    | webhook_url =>
        k <- get_ticks ;;
        ret (if requests_post k webhook_url then Py.ret tt
             else Py.raise (Py.RuntimeError "requests"))
    end.

Definition _store_in_app_notification (alert : Alert) : St (Py.result unit) :=
  ret (Py.ret tt).

Definition history_append (entry : HistoryEntry) : St unit :=
  s <- get_sys ;;
  put_sys (mkSystem (config s) (active_alerts s)
                    (notification_history s ++ [entry]) (rules s)).

Definition channel_value (channel : NotificationChannel) : string :=
  match channel with
  | EMAIL => "email"
  | WEBHOOK => "webhook"
  | SMS => "sms"
  | IN_APP => "in_app"
  | SLACK => "slack"
  | DISCORD => "discord"
  end.

(** One iteration of the loop of [_send_notifications]. *)
Definition send_on_channel (alert : Alert) (rule : NotificationRule)
    (channel : NotificationChannel) : St unit :=
  outcome <- match channel with
             | WEBHOOK => _send_webhook alert
             | EMAIL => _send_email alert
             | SLACK => _send_slack alert
             | IN_APP => _store_in_app_notification alert
             | SMS | DISCORD => ret (Py.ret tt)
             end ;;
  t <- now ;;
  match outcome with
  | inr _ => history_append (mkHistory (id alert) channel t (name rule) "sent" None)
  | inl e => history_append (mkHistory (id alert) channel t (name rule) "failed" (Some e))
  end.

Fixpoint send_on_channels (alert : Alert) (rule : NotificationRule)
    (chans : list NotificationChannel) : St unit :=
  match chans with
  | [] => ret tt
  | channel :: rest =>
      send_on_channel alert rule channel ;;; send_on_channels alert rule rest
  end.

Definition _send_notifications (alert : Alert) (rule : NotificationRule) : St unit :=
  send_on_channels alert rule (channels rule).

(** The body of the loop of [_process_alert] for one rule; the rule
    returned is the rule object after the iteration. *)
Definition _process_rule (alert : Alert) (rule : NotificationRule) : St NotificationRule :=
  if negb (enabled rule) then ret rule
  else if _matches_rule alert rule then
    notify <- _should_notify rule ;;
    if notify then
      _send_notifications alert rule ;;;
      t <- now ;;
      ret (set_last_triggered rule t)
    else ret rule
  else ret rule.

Fixpoint process_rules (alert : Alert) (rs : list NotificationRule)
    : St (list NotificationRule) :=
  match rs with
  | [] => ret []
  | rule :: rest =>
      rule' <- _process_rule alert rule ;;
      rest' <- process_rules alert rest ;;
      ret (rule' :: rest')
  end.

(** [_process_alert]: the rules are objects held in [self.rules]; the
    loop leaves in that list the rules as updated by their iteration. *)
Definition _process_alert (alert : Alert) : St unit :=
  s <- get_sys ;;
  rules' <- process_rules alert (rules s) ;;
  s <- get_sys ;;
  put_sys (mkSystem (config s) (active_alerts s) (notification_history s) rules').

Definition _create_alert (risk_type : string) (risk_score : Q)
    (expense_data : ExpenseData) (recommendations : list string)
    (current_time : Py.datetime) : St Alert :=
  let alert_id : AlertId :=
    (risk_type, (current_time / 1000000)%Z, get (ed_user_id expense_data) "unknown"%string) in
  (* Determine severity *)
  let severity :=
    if Qle_bool 0.8 risk_score then CRITICAL
    else if Qle_bool 0.6 risk_score then HIGH
    else if Qle_bool 0.4 risk_score then MEDIUM
    else LOW in
  let '(title, message) := _generate_alert_content risk_type risk_score expense_data in
  let alert :=
    mkAlert alert_id current_time severity title message risk_type
            (get (ed_user_id expense_data) "unknown"%string)
            (ed_group_id expense_data)
            (get (ed_amount expense_data) 0)
            risk_score recommendations false false in
  s <- get_sys ;;
  put_sys (mkSystem (config s) (<[alert_id := alert]> (active_alerts s))
                    (notification_history s) (rules s)) ;;;
  ret alert.

Fixpoint create_alerts (items : list (string * Q)) (expense_data : ExpenseData)
    (recommendations : list string) (current_time : Py.datetime) : St (list Alert) :=
  match items with
  | [] => ret []
  | (risk_type, risk_score) :: rest =>
      if Py.Qltb 0.6 risk_score then
        alert <- _create_alert risk_type risk_score expense_data recommendations
                               current_time ;;
        alerts <- create_alerts rest expense_data recommendations current_time ;;
        ret (alert :: alerts)
      else create_alerts rest expense_data recommendations current_time
  end.

Fixpoint process_alerts (alerts : list Alert) : St unit :=
  match alerts with
  | [] => ret tt
  | alert :: rest => _process_alert alert ;;; process_alerts rest
  end.

(** [process_risk_analysis]; [risk_analysis] is given by its
    ['risk_scores'] and ['recommendations'] entries. *)
Definition process_risk_analysis (risk_scores : list (string * Q))
    (recommendations : list string) (expense_data : ExpenseData) : St (list Alert) :=
  current_time <- now ;;
  (* Generate alerts based on risk types *)
  alerts <- create_alerts risk_scores expense_data recommendations current_time ;;
  (* Process each alert through notification rules *)
  process_alerts alerts ;;;
  ret alerts.

(** [alert.acknowledged = True], and
    [alert.resolved = True; alert.acknowledged = True]. *)
Definition set_acknowledged (alert : Alert) : Alert :=
  mkAlert (id alert) (timestamp alert) (severity alert) (title alert) (message alert)
          (risk_type alert) (user_id alert) (group_id alert) (expense_amount alert)
          (risk_score alert) (recommendations alert) true (resolved alert).

Definition set_resolved (alert : Alert) : Alert :=
  mkAlert (id alert) (timestamp alert) (severity alert) (title alert) (message alert)
          (risk_type alert) (user_id alert) (group_id alert) (expense_amount alert)
          (risk_score alert) (recommendations alert) true true.

Definition acknowledge_alert (alert_id : AlertId) : St bool :=
  s <- get_sys ;;
  match active_alerts s !! alert_id with
  | Some alert =>
      put_sys (mkSystem (config s) (<[alert_id := set_acknowledged alert]> (active_alerts s))
                        (notification_history s) (rules s)) ;;;
      ret true
  | None => ret false
  end.

Definition resolve_alert (alert_id : AlertId) : St bool :=
  s <- get_sys ;;
  match active_alerts s !! alert_id with
  | Some alert =>
      put_sys (mkSystem (config s) (<[alert_id := set_resolved alert]> (active_alerts s))
                        (notification_history s) (rules s)) ;;;
      ret true
  | None => ret false
  end.

(** [get_notification_stats], restricted to the five entries computed
    from the alerts, the history and the rules.  The sixth,
    [notification_channels], counts the enabled entries of
    [config['channels']], which a configuration file may extend beyond the
    three channels of [Config]; it is left out. *)
Record NotificationStats := mkNotificationStats {
  stats_active_alerts : nat;
  total_alerts_24h : nat;
  successful_notifications_24h : nat;
  failed_notifications_24h : nat;
  active_rules : nat
}.

Definition get_notification_stats : St NotificationStats :=
  current_time <- now ;;
  s <- get_sys ;;
  let last_24h := (current_time - Py.hours 24)%Z in
  let recent_notifications :=
    filter (fun n => (last_24h < h_timestamp n)%Z) (notification_history s) in
  ret (mkNotificationStats
         (size (filter (fun kv => resolved (snd kv) = false) (active_alerts s)))
         (length recent_notifications)
         (length (filter (fun n => h_status n = "sent"%string) recent_notifications))
         (length (filter (fun n => h_status n = "failed"%string) recent_notifications))
         (length (filter (fun r => enabled r = true) (rules s)))).

(** *** Notions used to state the properties of the dispatcher *)

(** The rule fires for the alert: the three guards around the body of the
    loop of [_process_alert] hold in the given world. *)
Definition fires (alert : Alert) (rule : NotificationRule) (w : World) : bool :=
  enabled rule && _matches_rule alert rule && fst (_should_notify rule w).

(** The notification history of a world. *)
Definition history (w : World) : list HistoryEntry := notification_history (sys w).

(** From [w] to [w'] the system only gained the history entries [entries]:
    its configuration, its active alerts and its rules are the same. *)
Definition extends_history_only (w w' : World) (entries : list HistoryEntry) : Prop :=
  config (sys w') = config (sys w)
  /\ active_alerts (sys w') = active_alerts (sys w)
  /\ rules (sys w') = rules (sys w)
  /\ history w' = history w ++ entries.

(** A history entry is marked sent without error, or failed with the
    exception caught. *)
Definition marked (h : HistoryEntry) : Prop :=
  (h_status h = "sent"%string /\ h_error h = None)
  \/ (h_status h = "failed"%string /\ h_error h <> None).

(** A history entry written for the alert under the rule. *)
Definition recorded_for (alert : Alert) (rule : NotificationRule) (h : HistoryEntry) : Prop :=
  h_alert_id h = id alert /\ h_rule h = name rule /\ marked h.

(** The rule is as it was, or differs by its [last_triggered] stamp only. *)
Definition restamped (rule rule' : NotificationRule) : Prop :=
  rule' = rule \/ exists t, rule' = set_last_triggered rule t.

(** The number of alerts stored and not resolved. *)
Definition unresolved (s : System) : nat :=
  size (filter (fun kv => resolved (snd kv) = false) (active_alerts s)).

End WithEnvironment.

End Notifications.

(** ** feature_engineering.py *)

Module FeatureEngineering.

(** [_encode_categorical(value, encoder)]: the code of the value and the
    encoder after the call; an unseen value is given the number of values
    seen so far. *)
Definition _encode_categorical (value : string) (encoder : gmap string nat)
    : nat * gmap string nat :=
  match encoder !! value with
  | Some code => (code, encoder)
  | None => (size encoder, <[value := size encoder]> encoder)
  end.

(** The encoder after encoding a sequence of values in turn. *)
Definition encode_all (values : list string) (encoder : gmap string nat)
    : gmap string nat :=
  fold_left (fun encoder value => snd (_encode_categorical value encoder)) values encoder.

(** The codes are below the number of values seen, and no two values share
    a code. *)
Definition dense_encoder (encoder : gmap string nat) : Prop :=
  (forall value code, encoder !! value = Some code -> (code < size encoder)%nat)
  /\ (forall value1 value2 code,
        encoder !! value1 = Some code -> encoder !! value2 = Some code -> value1 = value2).

End FeatureEngineering.

(** ** Concrete scenarios used to exercise the definitions *)

Module Scenarios.

Import RealTimeRisk.

(** A dinner of 100 between friends, scored by a fresh engine at three in
    the morning of the first day. *)
Definition dinner : ExpenseData :=
  mkExpenseData (Some "u1"%string) (Some "g1"%string) (Some 100)
                (Some "food"%string) None None.

Definition at_3am : nat -> Py.datetime := fun _ => Py.hours 3.
Definition at_noon : nat -> Py.datetime := fun _ => Py.hours 12.

(** A stand-in for [np.std] on inputs where it is not consulted. *)
Definition std_unused : list Q -> Q := fun _ => 0.

(** Three members of group [g1] each submit a food expense within two
    minutes, starting at noon, into a fresh engine. *)
Definition lunch (user : string) (amount : Q) : ExpenseData :=
  mkExpenseData (Some user) (Some "g1"%string) (Some amount) (Some "food"%string) None None.

Definition after_two_lunches : Engine :=
  snd (analyze_real_time_risk std_unused (fun _ => Py.hours 12 + Py.minutes 1)%Z
         (snd (analyze_real_time_risk std_unused at_noon (__init__ 60) (lunch "u1" 10.5)))
         (lunch "u2" 20.5)).

Definition third_lunch : Analysis :=
  fst (analyze_real_time_risk std_unused (fun _ => Py.hours 12 + Py.minutes 2)%Z
         after_two_lunches (lunch "u3" 30.5)).

(** An ensemble without ML model and the default rules; a parser of time
    stamps that rejects every string; a meal of 50 shared by two friends, one
    of whom pays. *)
Definition rules_only : Ensemble.t := Ensemble.__init__ None RuleEngine.__init__.

Definition no_timestamps : string -> option Py.parsed_datetime := fun _ => None.

Definition shared_meal : Schemas.ExpenseIn.t :=
  Schemas.ExpenseIn.mk "exp_001" "group_123" "user_456"
    [Schemas.ParticipantInfo.mk "user_456" 25; Schemas.ParticipantInfo.mk "user_789" 25]
    50 "USD" (Some "Restaurant ABC"%string) (Some "food"%string) "2023-12-01T18:30:00Z".

Definition shared_meal_verdict : Ensemble.Verdict :=
  Eval vm_compute in
    match Ensemble.predict_single_try no_timestamps rules_only (Py.hours 12) shared_meal
                                      ∅ [] None with
    | inr verdict => verdict
    | inl _ => []
    end.

(** An ensemble whose fitted ML model scores every expense 0.2 and explains
    it by the amount and the number of participants. *)
Definition steady_provider : Ensemble.t :=
  Ensemble.__init__
    (Some (Ensemble.mkMLModel true
             (fun _ => Py.ret [0.2])
             (fun _ _ => Py.ret [("amount"%string, 0.1); ("num_participants"%string, 0.05)])
             "1.0.0"))
    RuleEngine.__init__.

(** An ensemble whose fitted ML model raises on every prediction. *)
Definition failing_provider : Ensemble.t :=
  Ensemble.__init__
    (Some (Ensemble.mkMLModel true
             (fun _ => Py.raise (Py.RuntimeError "provider unavailable"))
             (fun _ _ => Py.ret [])
             "1.0.0"))
    RuleEngine.__init__.

(** Keyword arguments of an expense of 50 whose two shares of 20 sum to 40;
    a parser of time stamps that reads every string as 18:30 UTC. *)
Definition short_changed : Schemas.RawExpense :=
  Schemas.mkRawExpense (Some "test_123"%string) (Some "group_456"%string)
    (Some "user_789"%string)
    (Some [Schemas.mkRawParticipant (Some "user_789"%string) (Some 20);
           Schemas.mkRawParticipant (Some "user_101"%string) (Some 20)])
    (Some 50) (Some "USD"%string) (Some "Restaurant ABC"%string) (Some "food"%string)
    (Some "2023-12-01T18:30:00Z"%string).

Definition iso_evening : string -> option Py.parsed_datetime :=
  fun _ => Some (Py.mkParsed (Py.hours 18 + Py.minutes 30)%Z (Some 0%Z)).

(** A payment of 100 by user [alice] in group [flat], recorded by an
    analyzer that has no profile yet, followed by a payment of 200. *)
Definition payment (amount : Q) : Behavioral.ExpenseData :=
  Behavioral.mkExpenseData (Some "alice"%string) (Some "flat"%string) (Some amount)
                           (Some "rent"%string) None None None.

Definition after_first_payment : Behavioral.Analyzer :=
  Behavioral.record_event no_timestamps at_noon (Behavioral.mkAnalyzer ∅ ∅)
                          (payment 100) false.

Definition after_second_payment : Behavioral.Analyzer :=
  Behavioral.record_event no_timestamps at_noon after_first_payment (payment 200) false.

(** A clock that advances by one second at every reading, starting at noon;
    a network and a mail server that are down; the default rule for high-risk
    transactions and a system that holds only that rule; alerts of risk 0.7
    for two unrelated users of two unrelated groups. *)
Definition ticking_clock : nat -> Py.datetime :=
  fun k => (Py.hours 12 + Z.of_nat k * 1000000)%Z.

Definition network_down : nat -> string -> bool := fun _ _ => false.
Definition smtp_down : nat -> list string -> bool := fun _ _ => false.

Definition high_risk_rule : Notifications.NotificationRule :=
  Notifications.mkRule "High Risk Transaction"
    [("risk_score"%string, Notifications.Range (Some 0.6) None)]
    [Notifications.WEBHOOK] Notifications.HIGH 30 true None.

Definition high_risk_alert (user group : string) : Notifications.Alert :=
  Notifications.mkAlert ("overall_realtime_risk"%string, 43200%Z, user) (Py.hours 12)
    Notifications.HIGH "Fraud Risk Detected" "Fraud risk detected"
    "overall_realtime_risk" user (Some group) 250 0.7 [] false false.

Definition one_rule_world : Notifications.World :=
  Notifications.mkWorld
    (Notifications.mkSystem Notifications.default_config ∅ [] [high_risk_rule]) 0.

(** A system whose webhook has a URL configured, holding one rule that
    notifies by webhook and in the application, and the same system after it
    processed a high-risk alert while the network was down. *)
Definition paging_rule : Notifications.NotificationRule :=
  Notifications.mkRule "High Risk Transaction"
    [("risk_score"%string, Notifications.Range (Some 0.6) None)]
    [Notifications.WEBHOOK; Notifications.IN_APP] Notifications.HIGH 30 true None.

Definition paging_world : Notifications.World :=
  Notifications.mkWorld
    (Notifications.mkSystem
       (Notifications.mkConfig false [] true ["https://hooks.example/fraud"%string] false
                               EmptyString)
       ∅ [] [paging_rule]) 0.

Definition after_paging : Notifications.World :=
  snd (Notifications._process_alert ticking_clock network_down smtp_down
         (high_risk_alert "alice" "flat") paging_world).

(** An engine whose three buffers are full: 10000 stored events, 100
    transactions of user [u1] and 200 activities of group [g1], all at noon. *)
Definition full_engine : Engine :=
  mkEngine (Py.minutes 60)
    (replicate (100 * 100)
       (mkRiskEvent (Py.hours 12) "u1" "g1" "expense_analysis" 0.2 (dinner, [])))
    {["u1"%string := replicate 100 (Py.hours 12, 100)]}
    {["g1"%string := replicate 200 (Py.hours 12, dinner)]}.

(** Two hours after the two lunches, user [u1] submits an expense in a
    group of her own. *)
Definition at_2pm : nat -> Py.datetime := fun _ => Py.hours 14.

Definition solo_lunch (user : string) (amount : Q) : ExpenseData :=
  mkExpenseData (Some user) (Some "solo"%string) (Some amount) (Some "food"%string)
                None None.

Definition u1_returns : Engine :=
  snd (analyze_real_time_risk std_unused at_2pm after_two_lunches (solo_lunch "u1" 30.5)).

(** The local clock is set back by an hour between two expenses of 5000 by
    user [u1]: the first is scored at 13:59, the second at 13:00. *)
Definition before_clock_step_back : Engine :=
  snd (analyze_real_time_risk std_unused (fun _ => Py.hours 13 + Py.minutes 59)%Z
         (__init__ 60) (lunch "u1" 5000)).

Definition after_clock_step_back : Analysis :=
  fst (analyze_real_time_risk std_unused (fun _ => Py.hours 13)
         before_clock_step_back (lunch "u1" 5000)).

(** A refund booked as an expense of -20000 by user [u1] at noon, followed
    half an hour later by a lunch of 100 of the same user. *)
Definition after_refund : Engine :=
  snd (analyze_real_time_risk std_unused at_noon (__init__ 60) (lunch "u1" (-20000))).

Definition lunch_after_refund : Analysis :=
  fst (analyze_real_time_risk std_unused (fun _ => Py.hours 12 + Py.minutes 30)%Z
         after_refund (lunch "u1" 100)).

(** An analyzer that knows user [alice], who usually pays a rent of about
    150 around noon, and her group [flat]. *)
Definition settled_analyzer : Behavioral.Analyzer :=
  Behavioral.mkAnalyzer
    {["alice"%string :=
        Behavioral.mkUserProfile "alice" 4 150 ["rent"%string] [12%Z] [] [] [] 0.1
                                 (Py.hours 11)]}
    {["flat"%string :=
        Behavioral.mkGroupProfile "flat" [] 125 ["rent"%string] 0 0 0.9 (Py.hours 10)]}.

(** Two violations, and the explanation the rules-only ensemble builds from
    them alone. *)
Definition two_violations : list Schemas.RuleViolation.t :=
  [Schemas.RuleViolation.mk "unusual_time" "low" "Transaction at unusual hour" 0.4;
   Schemas.RuleViolation.mk "amount_mismatch" "high" "Participant amounts differ" 0.95].


End Scenarios.

(** * Properties *)

(** ** Facts about the Python primitives *)

Section PyFacts.

Lemma Qltb_true (a b : Q) : Py.Qltb a b = true <-> a < b.
Proof.
  unfold Py.Qltb. rewrite negb_true_iff, <- not_true_iff_false, Qle_bool_iff.
  split; [apply Qnot_le_lt | apply Qlt_not_le].
Qed.

Lemma Qltb_false (a b : Q) : Py.Qltb a b = false <-> b <= a.
Proof.
  unfold Py.Qltb. rewrite negb_false_iff. apply Qle_bool_iff.
Qed.

Lemma Qle_bool_false (a b : Q) : Qle_bool a b = false <-> b < a.
Proof.
  rewrite <- not_true_iff_false, Qle_bool_iff.
  split; [apply Qnot_le_lt | apply Qlt_not_le].
Qed.

Lemma min_le_l (a b : Q) : Py.min_ a b <= a.
Proof.
  unfold Py.min_. destruct (Py.Qltb b a) eqn:E.
  - apply Qltb_true in E. lra.
  - lra.
Qed.

Lemma min_glb (c a b : Q) : c <= a -> c <= b -> c <= Py.min_ a b.
Proof. intros Ha Hb. unfold Py.min_. destruct (Py.Qltb b a); assumption. Qed.

Lemma min_le_r (a b : Q) : Py.min_ a b <= b.
Proof.
  unfold Py.min_. destruct (Py.Qltb b a) eqn:E.
  - lra.
  - apply Qltb_false in E. lra.
Qed.

Lemma abs_nonneg (a : Q) : 0 <= Py.abs_ a.
Proof.
  unfold Py.abs_. destruct (Py.Qltb a 0) eqn:E.
  - apply Qltb_true in E. lra.
  - apply Qltb_false in E. lra.
Qed.

End PyFacts.

(** Turns the boolean tests of the embedding found in the context into
    order facts. *)
Ltac q_tests :=
  repeat match goal with
  | H : Py.Qltb _ _ = true |- _ => apply Qltb_true in H
  | H : Py.Qltb _ _ = false |- _ => apply Qltb_false in H
  | H : Qle_bool _ _ = true |- _ => apply Qle_bool_iff in H
  | H : Qle_bool _ _ = false |- _ => apply Qle_bool_false in H
  | H : Qeq_bool _ _ = true |- _ => apply Qeq_bool_iff in H
  | H : andb _ _ = true |- _ => apply andb_true_iff in H; destruct H
  end.

(** ** The real-time risk engine *)

Section RealTimeSignals.

Import RealTimeRisk.

(** The pattern signal is one of finitely many sums of indicator weights
    divided by four; the largest is (0.3 + 0.4 + 0.3 + 0.2) / 4. *)
Lemma _analyze_patterns_range (expense_data : ExpenseData) :
  0 <= _analyze_patterns expense_data <= 0.3.
Proof.
  unfold _analyze_patterns.
  destruct (existsb (Qeq_bool _) round_amounts);
  destruct (existsb _ common_fraud_categories);
  destruct (existsb _ high_risk_locations);
  destruct (existsb _ _);
  vm_compute; split; discriminate.
Qed.

Lemma _analyze_temporal_patterns_range (expense_data : ExpenseData) (t : Py.datetime) :
  0 <= _analyze_temporal_patterns expense_data t <= 1.
Proof.
  unfold _analyze_temporal_patterns.
  destruct (_ || _)%bool;
  destruct (_ && _ && _)%bool;
  destruct (5 <=? Py.weekday t)%Z;
  try destruct (existsb _ _);
  try destruct (Py.Qltb 1000 _);
  vm_compute; split; discriminate.
Qed.

Lemma _analyze_amount_suspicion_values (amount : Q) :
  In (_analyze_amount_suspicion amount) [0.1; 0.3; 0.4; 0.5; 0.6].
Proof.
  unfold _analyze_amount_suspicion.
  destruct (_ && _)%bool; [simpl; tauto|].
  destruct (existsb _ _); [simpl; tauto|].
  destruct (Py.Qltb 10000 amount); [simpl; tauto|].
  destruct (Py.Qltb 5000 amount); [simpl; tauto|].
  destruct (Qle_bool amount 1); simpl; tauto.
Qed.

Lemma _analyze_amount_suspicion_range (amount : Q) :
  0 <= _analyze_amount_suspicion amount <= 1.
Proof.
  pose proof (_analyze_amount_suspicion_values amount) as H. simpl in H.
  destruct H as [<-|[<-|[<-|[<-|[<-|[]]]]]]; split; discriminate.
Qed.

End RealTimeSignals.

(** ** Sliding windows and the invariant of the velocity buffers *)

Section Windows.

Import RealTimeRisk.

Lemma sum_from_nonneg (xs : list Q) (acc : Q) :
  0 <= acc -> Forall (fun x => 0 <= x) xs -> 0 <= fold_left Qplus xs acc.
Proof.
  revert acc. induction xs as [|x xs IH]; intros acc Hacc Hxs; simpl.
  - exact Hacc.
  - inversion Hxs; subst. apply IH; [lra | assumption].
Qed.

Lemma sum_nonneg (xs : list Q) : Forall (fun x => 0 <= x) xs -> 0 <= Py.sum xs.
Proof. intros H. unfold Py.sum. apply sum_from_nonneg; [lra | exact H]. Qed.

Lemma of_nat_nonneg (n : nat) : 0 <= Py.of_nat n.
Proof.
  unfold Py.of_nat. change 0 with (inject_Z 0). rewrite <- Zle_Qle. lia.
Qed.

Lemma Forall_drop_keep {A} (P : A -> Prop) (n : nat) (xs : list A) :
  Forall P xs -> Forall P (drop n xs).
Proof.
  revert n. induction xs as [|x xs IH]; intros [|n] H; simpl; auto.
  inversion H; subst. apply IH. assumption.
Qed.

Lemma Forall_deque_append {A} (P : A -> Prop) (maxlen : nat) (d : list A) (x : A) :
  Forall P d -> P x -> Forall P (deque_append maxlen d x).
Proof.
  intros Hd Hx. unfold deque_append. apply Forall_drop_keep.
  apply Forall_app. split; [assumption | constructor; [assumption | constructor]].
Qed.

Lemma Forall_popleft_while {A} (P : A -> Prop) (p : A -> bool) (d : list A) :
  Forall P d -> Forall P (popleft_while p d).
Proof.
  induction d as [|x d IH]; intros H; simpl; [constructor|].
  destruct (p x); [|assumption]. inversion H; subst. apply IH. assumption.
Qed.

Lemma window_ok_later (t t' : Py.datetime) txs :
  (t <= t')%Z -> window_ok t txs -> window_ok t' txs.
Proof.
  intros Hle H. unfold window_ok in *.
  eapply Forall_impl; [exact H|]. simpl. intros e [H1 H2]. split; [lia | assumption].
Qed.

Lemma wf_engine_later (t t' : Py.datetime) self :
  (t <= t')%Z -> wf_engine t self -> wf_engine t' self.
Proof. intros Hle H user txs Hl. eapply window_ok_later; eauto. Qed.

Lemma wf_engine_init (m : Z) (t : Py.datetime) : wf_engine t (__init__ m).
Proof. intros user txs Hl. simpl in Hl. rewrite lookup_empty in Hl. discriminate. Qed.

Lemma total_seconds_nonneg (d : Py.timedelta) : (0 <= d)%Z -> 0 <= Py.total_seconds d.
Proof.
  intros H. unfold Py.total_seconds. apply Qle_shift_div_l; [reflexivity|].
  ring_simplify. change 0 with (inject_Z 0). rewrite <- Zle_Qle. exact H.
Qed.

Lemma _analyze_velocity_spec (self : Engine) (user : string) (amount : Q)
    (now : Py.datetime) :
  wf_engine now self -> 0 <= amount ->
  0 <= fst (_analyze_velocity self user amount now) <= 1
  /\ wf_engine now (snd (_analyze_velocity self user amount now)).
Proof.
  intros Hwf Hamount. unfold _analyze_velocity.
  set (txs := popleft_while _ _).
  assert (Htxs : window_ok now txs).
  { unfold txs, window_ok. apply Forall_popleft_while, Forall_deque_append.
    - destruct (user_velocities self !! user) as [old|] eqn:E; simpl.
      + exact (Hwf _ _ E).
      + constructor.
    - simpl. split; [lia | assumption]. }
  assert (Hwf' : wf_engine now
                   (set_user_velocities self (<[user := txs]> (user_velocities self)))).
  { intros u l Hl. simpl in Hl.
    destruct (decide (user = u)) as [->|Hne].
    - rewrite lookup_insert_eq in Hl. injection Hl as <-. exact Htxs.
    - rewrite lookup_insert_ne in Hl by assumption. exact (Hwf _ _ Hl). }
  destruct txs as [|[t0 a0] [|e1 rest]] eqn:Etxs.
  - simpl. split; [split; discriminate | exact Hwf'].
  - simpl. split; [split; discriminate | exact Hwf'].
  - destruct (Qeq_bool _ 0) eqn:Espan.
    + simpl. split; [split; discriminate | exact Hwf'].
    + simpl fst. simpl snd. split; [|exact Hwf'].
      assert (Ht0 : (t0 <= now)%Z).
      { unfold window_ok in Htxs. inversion Htxs as [|? ? [H1 _] _]; subst. exact H1. }
      assert (Hspan : 0 < Py.total_seconds (now - t0)%Z / 3600).
      { pose proof (total_seconds_nonneg (now - t0)%Z ltac:(lia)) as Hs.
        assert (Hne : ~ Py.total_seconds (now - t0)%Z / 3600 == 0).
        { intros Heq. apply Qeq_bool_iff in Heq. congruence. }
        assert (0 <= Py.total_seconds (now - t0)%Z / 3600)
          by (apply Qle_shift_div_l; [reflexivity | lra]).
        apply Qle_lteq in H. destruct H as [H|H]; [exact H|]. symmetry in H. tauto. }
      assert (Hsum : 0 <= Py.sum (map snd ((t0, a0) :: e1 :: rest))).
      { apply sum_nonneg. apply Forall_map. unfold window_ok in Htxs.
        eapply Forall_impl; [exact Htxs|]. simpl. tauto. }
      simpl in Hsum.
      set (span := Py.total_seconds (now - t0)%Z / 3600) in *.
      set (total := Py.sum _) in *.
      set (f := Py.min_ 1 _). set (v := Py.min_ 1 _).
      assert (Hf : 0 <= f <= 1).
      { split; [|apply min_le_l]. apply min_glb; [lra|].
        apply Qle_shift_div_l; [reflexivity|]. ring_simplify. apply of_nat_nonneg. }
      assert (Hv : 0 <= v <= 1).
      { split; [|apply min_le_l]. apply min_glb; [lra|].
        apply Qle_shift_div_l; lra. }
      split; [apply Qle_shift_div_l | apply Qle_shift_div_r]; lra.
Qed.

End Windows.

Section GroupAndAnomalySignals.

Import RealTimeRisk.

Lemma _analyze_group_coordination_values (self : Engine) (group : string)
    (expense_data : ExpenseData) (now : Py.datetime) :
  In (fst (_analyze_group_coordination self group expense_data now))
     [0.1; 0.8; 0.6; 0.7; 0.2]
  /\ user_velocities (snd (_analyze_group_coordination self group expense_data now))
     = user_velocities self.
Proof.
  unfold _analyze_group_coordination.
  destruct (length _ <? 2)%nat; [simpl; tauto|].
  destruct (_ && _)%bool; [simpl; tauto|].
  destruct (_ && _)%bool; [simpl; tauto|].
  destruct (_ && _)%bool; simpl; tauto.
Qed.

Lemma _analyze_group_coordination_range (self : Engine) (group : string)
    (expense_data : ExpenseData) (now : Py.datetime) :
  0 <= fst (_analyze_group_coordination self group expense_data now) <= 1.
Proof.
  destruct (_analyze_group_coordination_values self group expense_data now) as [H _].
  simpl in H. destruct H as [<-|[<-|[<-|[<-|[<-|[]]]]]]; split; discriminate.
Qed.

Lemma of_nat_le (n m : nat) : (n <= m)%nat -> Py.of_nat n <= Py.of_nat m.
Proof. intros H. unfold Py.of_nat. rewrite <- Zle_Qle. lia. Qed.

Lemma of_nat_pos (n : nat) : (0 < n)%nat -> 0 < Py.of_nat n.
Proof.
  intros H. unfold Py.of_nat. change 0 with (inject_Z 0). rewrite <- Zlt_Qlt. lia.
Qed.

(** The anomaly signal lies in the unit interval whatever [np.std] returns:
    a deviation that is not positive is replaced by a zero z-score. *)
Lemma _detect_anomalies_range (np_std : list Q -> Q) (self : Engine) (user : string)
    (expense_data : ExpenseData) :
  0 <= _detect_anomalies np_std self user expense_data <= 1.
Proof.
  unfold _detect_anomalies.
  set (txs := last_n 20 _).
  destruct txs as [|tx txs'] eqn:E; [split; discriminate|].
  set (z := if Py.Qltb 0 _ then _ else 0).
  assert (Hz : 0 <= z).
  { unfold z. destruct (Py.Qltb 0 _) eqn:Hs; [|lra].
    apply Qltb_true in Hs. apply Qle_shift_div_l; [exact Hs|].
    ring_simplify. apply abs_nonneg. }
  set (a := Py.min_ 1 (z / 3)).
  assert (Ha : 0 <= a <= 1).
  { split; [|apply min_le_l]. apply min_glb; [lra|].
    apply Qle_shift_div_l; lra. }
  set (cats := map _ (tx :: txs')).
  set (cf := match cats with [] => 0 | _ => _ end).
  assert (Hcf : 0 <= cf <= 1).
  { unfold cf, cats. simpl map.
    set (l := _ :: _).
    assert (Hpos : 0 < Py.of_nat (length l)) by (apply of_nat_pos; simpl; lia).
    split.
    - apply Qle_shift_div_l; [exact Hpos|]. ring_simplify. apply of_nat_nonneg.
    - apply Qle_shift_div_r; [exact Hpos|]. ring_simplify.
      apply of_nat_le. apply length_filter. }
  split; [apply Qle_shift_div_l | apply Qle_shift_div_r]; lra.
Qed.

End GroupAndAnomalySignals.

Section Analysis.

Import RealTimeRisk.

Variable np_std : list Q -> Q.

Lemma _categorize_risk_documented (score : Q) :
  documented_level score (_categorize_risk score).
Proof.
  unfold documented_level, _categorize_risk.
  destruct (Qle_bool 0.8 score) eqn:E1;
  destruct (Qle_bool 0.6 score) eqn:E2;
  destruct (Qle_bool 0.4 score) eqn:E3;
  destruct (Qle_bool 0.2 score) eqn:E4;
  q_tests; repeat split; intros; try reflexivity; exfalso; lra.
Qed.

Lemma analyze_preserves_wf (clock : nat -> Py.datetime) (self : Engine)
    (expense_data : ExpenseData) :
  wf_engine (clock 0%nat) self ->
  0 <= get (ed_amount expense_data) 0 ->
  wf_engine (clock 0%nat) (snd (analyze_real_time_risk np_std clock self expense_data)).
Proof.
  intros Hwf Hamount. unfold analyze_real_time_risk.
  pose proof (_analyze_velocity_spec self (get (ed_user_id expense_data) "unknown"%string)
                _ (clock 0%nat) Hwf Hamount) as [_ Hwf1].
  destruct (_analyze_velocity _ _ _ _) as [v self1]. simpl in Hwf1.
  pose proof (_analyze_group_coordination_values self1
                (get (ed_group_id expense_data) "unknown"%string) expense_data
                (clock 0%nat)) as [_ Hsame].
  destruct (_analyze_group_coordination _ _ _ _) as [c self2]. simpl in Hsame.
  simpl. intros user txs Hl. simpl in Hl. rewrite Hsame in Hl. exact (Hwf1 _ _ Hl).
Qed.

Lemma reachable_wf (t : Py.datetime) (self : Engine) :
  reachable np_std t self -> wf_engine t self.
Proof.
  induction 1 as [m t|t self clock ed Hr IH Hvalid Hle].
  - apply wf_engine_init.
  - apply analyze_preserves_wf.
    + eapply wf_engine_later; eauto.
    + unfold valid_event in Hvalid. lra.
Qed.

(** The mean of six numbers of the unit interval. *)
Lemma mean_six (v p c a tm s : Q) :
  Py.mean [v; p; c; a; tm; s] == (v + p + c + a + tm + s) / 6.
Proof. unfold Py.mean, Py.sum, Py.of_nat. simpl. field. Qed.

End Analysis.

(** ** Claims about the real-time engine *)

Section RealTimeClaims.

Import RealTimeRisk.

Variable np_std : list Q -> Q.

(** The seven entries of [risk_scores], in insertion order. *)
Lemma analyze_risk_scores (clock : nat -> Py.datetime) (self : Engine)
    (expense_data : ExpenseData) :
  exists v c a,
    let p := _analyze_patterns expense_data in
    let tm := _analyze_temporal_patterns expense_data (clock 0%nat) in
    let s := _analyze_amount_suspicion (get (ed_amount expense_data) 0) in
    let scores :=
      [("velocity_risk", v); ("pattern_risk", p); ("coordination_risk", c);
       ("anomaly_risk", a); ("temporal_risk", tm); ("amount_suspicion", s);
       ("overall_realtime_risk", Py.mean [v; p; c; a; tm; s])]%string in
    let r := fst (analyze_real_time_risk np_std clock self expense_data) in
    risk_scores r = scores
    /\ risk_level r = _categorize_risk (Py.mean [v; p; c; a; tm; s])
    /\ alerts r = _generate_alerts (fun k => clock (S k)) scores expense_data
    /\ v = fst (_analyze_velocity self (get (ed_user_id expense_data) "unknown"%string)
                 (get (ed_amount expense_data) 0) (clock 0%nat))
    /\ 0 <= c <= 1 /\ 0 <= a <= 1.
Proof.
  unfold analyze_real_time_risk.
  destruct (_analyze_velocity _ _ _ _) as [v self1] eqn:Ev.
  pose proof (_analyze_group_coordination_range self1
                (get (ed_group_id expense_data) "unknown"%string) expense_data
                (clock 0%nat)) as Hc.
  destruct (_analyze_group_coordination _ _ _ _) as [c self2] eqn:Ec.
  exists v, c, (_detect_anomalies np_std self2
                  (get (ed_user_id expense_data) "unknown"%string) expense_data).
  simpl. repeat split; try reflexivity; try apply Hc; apply _detect_anomalies_range.
Qed.

(** What the code does meet: for every valid event scored in a state
    reached by scoring valid events under a clock that does not go
    backwards, the overall real-time risk is the arithmetic mean of the six
    signals (velocity, pattern, coordination, anomaly, temporal, amount
    suspicion), every signal and the overall score lie in [0,1], and the risk
    level follows the documented thresholds (Critical from 0.8, High from
    0.6, Medium from 0.4, Low from 0.2, Minimal below). *)
Lemma overall_risk_is_mean_in_unit_interval (t : Py.datetime) (self : Engine)
    (clock : nat -> Py.datetime) (expense_data : ExpenseData) :
  reachable np_std t self ->
  valid_event expense_data ->
  (t <= clock 0%nat)%Z ->
  let r := fst (analyze_real_time_risk np_std clock self expense_data) in
  exists v p c a tm s overall,
    risk_scores r =
      [("velocity_risk", v); ("pattern_risk", p); ("coordination_risk", c);
       ("anomaly_risk", a); ("temporal_risk", tm); ("amount_suspicion", s);
       ("overall_realtime_risk", overall)]%string
    /\ overall == (v + p + c + a + tm + s) / 6
    /\ Forall (fun x => 0 <= x <= 1) [v; p; c; a; tm; s; overall]
    /\ documented_level overall (risk_level r).
Proof.
  intros Hreach Hvalid Hclock r.
  destruct (analyze_risk_scores clock self expense_data)
    as (v & c & a & Hscores & Hlevel & _ & Hv & Hc & Ha).
  set (p := _analyze_patterns expense_data) in *.
  set (tm := _analyze_temporal_patterns expense_data (clock 0%nat)) in *.
  set (s := _analyze_amount_suspicion (get (ed_amount expense_data) 0)) in *.
  exists v, p, c, a, tm, s, (Py.mean [v; p; c; a; tm; s]).
  assert (Hwf : wf_engine (clock 0%nat) self).
  { eapply wf_engine_later; [exact Hclock|]. eapply reachable_wf; eauto. }
  assert (Hv' : 0 <= v <= 1).
  { rewrite Hv. apply _analyze_velocity_spec; [exact Hwf|].
    unfold valid_event in Hvalid. lra. }
  assert (Hp : 0 <= p <= 1).
  { pose proof (_analyze_patterns_range expense_data). fold p in H. lra. }
  pose proof (_analyze_temporal_patterns_range expense_data (clock 0%nat)) as Htm.
  fold tm in Htm.
  pose proof (_analyze_amount_suspicion_range (get (ed_amount expense_data) 0)) as Hs.
  fold s in Hs.
  pose proof (mean_six v p c a tm s) as Hmean.
  assert (Hoverall : 0 <= Py.mean [v; p; c; a; tm; s] <= 1).
  { rewrite Hmean. split; [apply Qle_shift_div_l | apply Qle_shift_div_r]; lra. }
  split; [exact Hscores|]. split; [exact Hmean|]. split.
  - repeat (constructor; [assumption|]). constructor.
  - unfold r. rewrite Hlevel. apply _categorize_risk_documented.
Qed.

End RealTimeClaims.

Section RealTimeWitnesses.

Import RealTimeRisk Scenarios.

(** The lemma at a dinner scored by a fresh engine at three in the morning. *)
Lemma overall_risk_is_mean_in_unit_interval_witness :
  let r := fst (analyze_real_time_risk std_unused at_3am (__init__ 60) dinner) in
  exists v p c a tm s overall,
    risk_scores r =
      [("velocity_risk", v); ("pattern_risk", p); ("coordination_risk", c);
       ("anomaly_risk", a); ("temporal_risk", tm); ("amount_suspicion", s);
       ("overall_realtime_risk", overall)]%string
    /\ overall == (v + p + c + a + tm + s) / 6
    /\ Forall (fun x => 0 <= x <= 1) [v; p; c; a; tm; s; overall]
    /\ documented_level overall (risk_level r).
Proof.
  apply (overall_risk_is_mean_in_unit_interval std_unused 0%Z (__init__ 60) at_3am dinner).
  - apply reachable_init.
  - reflexivity.
  - discriminate.
Defined.

(** C4, on the code: the velocity signal has an upper cap and no lower
    one.  User [u1] submits two valid expenses of 5000; the wall clock, which
    is naive local time, reads 13:59 at the first and 13:00 at the second.
    The first transaction is still in the window, the time span from it is
    negative, and the second call returns a velocity signal and an overall
    real-time risk below 0, outside [0,1], although the overall risk is the
    mean of the six signals and the level assigned to it is MINIMAL.  The
    same happens, under a clock that moves forward, to a valid lunch of 100
    scored half an hour after an entry of -20000 of the same user. *)
Theorem overall_risk_below_zero :
  valid_event (lunch "u1" 5000)
  /\ user_velocities before_clock_step_back !! "u1"%string
     = Some [((Py.hours 13 + Py.minutes 59)%Z, 5000)]
  /\ scores_get (risk_scores after_clock_step_back) "velocity_risk" < 0
  /\ scores_get (risk_scores after_clock_step_back) "overall_realtime_risk" < 0
  /\ ~ (0 <= scores_get (risk_scores after_clock_step_back) "overall_realtime_risk" <= 1)
  /\ scores_get (risk_scores after_clock_step_back) "overall_realtime_risk"
     == Py.mean (map snd (take 6 (risk_scores after_clock_step_back)))
  /\ risk_level after_clock_step_back = "MINIMAL"%string
  /\ valid_event (lunch "u1" 100)
  /\ scores_get (risk_scores lunch_after_refund) "overall_realtime_risk" < 0.
Proof.
  assert (Hneg : scores_get (risk_scores after_clock_step_back) "overall_realtime_risk" < 0)
    by (vm_compute; reflexivity).
  split; [vm_compute; reflexivity|]. split; [vm_compute; reflexivity|].
  split; [vm_compute; reflexivity|]. split; [exact Hneg|].
  split; [intros [H0 _]; lra|].
  split; [vm_compute; reflexivity|]. split; [vm_compute; reflexivity|].
  split; vm_compute; reflexivity.
Qed.

End RealTimeWitnesses.

Section AlertClaims.

Import RealTimeRisk Scenarios.

(** An emitted alert comes from an entry of [risk_scores] whose score
    reaches the threshold looked up under the entry's own key. *)
Lemma _generate_alerts_from_sound (now : nat -> Py.datetime) (items : list (string * Q))
    (expense_data : ExpenseData) (k : nat) (a : Alert) :
  In a (_generate_alerts_from now k items expense_data) ->
  In (alert_type a, alert_score a) items
  /\ default 0.6 (risk_thresholds !! alert_type a) <= alert_score a
  /\ alert_severity a = (if Qle_bool 0.8 (alert_score a) then "HIGH" else "MEDIUM")%string.
Proof.
  revert k. induction items as [|[risk_type score] rest IH]; intros k Hin; simpl in Hin.
  - contradiction.
  - destruct (Qle_bool _ score) eqn:E.
    + destruct Hin as [<-|Hin].
      * simpl. apply Qle_bool_iff in E. auto.
      * destruct (IH _ Hin) as (H1 & H2 & H3). simpl. auto.
    + destruct (IH _ Hin) as (H1 & H2 & H3). simpl. auto.
Qed.

(** C10. For every expense the pattern signal is at most 0.3, the four
    indicator weights 0.3 + 0.4 + 0.3 + 0.2 divided by the four indicators
    checked, and so no alert of type [pattern_risk] is ever emitted by a
    scoring call. *)
Theorem pattern_signal_never_alerts (np_std : list Q -> Q) (clock : nat -> Py.datetime)
    (self : Engine) (expense_data : ExpenseData) :
  _analyze_patterns expense_data <= (0.3 + 0.4 + 0.3 + 0.2) / 4
  /\ _analyze_patterns expense_data <= 0.3
  /\ let r := fst (analyze_real_time_risk np_std clock self expense_data) in
     scores_get (risk_scores r) "pattern_risk" = _analyze_patterns expense_data
     /\ forall a, In a (alerts r) -> alert_type a <> "pattern_risk"%string.
Proof.
  pose proof (_analyze_patterns_range expense_data) as [_ Hp].
  split; [|split; [exact Hp|]].
  - assert ((0.3 + 0.4 + 0.3 + 0.2) / 4 == 0.3) as -> by reflexivity. exact Hp.
  - destruct (analyze_risk_scores np_std clock self expense_data)
      as (v & c & a & Hscores & _ & Halerts & _).
    simpl. rewrite Hscores, Halerts. split; [reflexivity|].
    intros al Hin Htype.
    apply _generate_alerts_from_sound in Hin. destruct Hin as (Hin & Hth & _).
    rewrite Htype in Hin, Hth.
    assert (Hscore : alert_score al = _analyze_patterns expense_data).
    { simpl in Hin.
      repeat (destruct Hin as [Hin|Hin]; [congruence|]). contradiction. }
    rewrite Hscore in Hth.
    change (default 0.6 (risk_thresholds !! "pattern_risk"%string)) with 0.6 in Hth.
    lra.
Qed.

(** A velocity signal of 0.7, below the configured velocity threshold 0.8,
    yields an alert candidate of severity MEDIUM: the keys of
    [risk_thresholds] ([high_velocity], [suspicious_pattern], ...) are not the
    keys of [risk_scores] ([velocity_risk], [pattern_risk], ...), so the lookup
    falls back to 0.6 for every signal. *)
Lemma velocity_alert_below_configured_threshold :
  risk_thresholds !! "high_velocity"%string = Some 0.8
  /\ risk_thresholds !! "velocity_risk"%string = None
  /\ map untimed (_generate_alerts at_noon [("velocity_risk"%string, 0.7)] dinner)
     = [("velocity_risk", "MEDIUM", 0.7,
         ("High transaction velocity detected (score: {score:.2f})", 0.7),
         100, "u1")]%string.
Proof. repeat split. Qed.

(** The threshold applied to each of the seven entries of [risk_scores]. *)
Lemma every_signal_uses_default_threshold :
  Forall (fun key => default 0.6 (risk_thresholds !! key) = 0.6)
         ["velocity_risk"; "pattern_risk"; "coordination_risk"; "anomaly_risk";
          "temporal_risk"; "amount_suspicion"; "overall_realtime_risk"]%string.
Proof. repeat constructor. Qed.

(** C6, refuted as stated: 100 is scored 0.3 as a round amount while the
    larger amount 101 is scored 0.1. *)
Lemma amount_suspicion_not_monotone :
  100 < 101 /\ ~ (_analyze_amount_suspicion 100 <= _analyze_amount_suspicion 101).
Proof. split; [reflexivity|]. vm_compute. intros H. apply H. reflexivity. Qed.

Lemma _analyze_amount_suspicion_plain (amount : Q) :
  plain_amount amount ->
  _analyze_amount_suspicion amount =
  if Py.Qltb 10000 amount then 0.6 else if Py.Qltb 5000 amount then 0.4 else 0.1.
Proof.
  intros (Hround & Hband & Hbig). unfold _analyze_amount_suspicion.
  unfold round_hundred in Hround. unfold just_under_threshold in Hband.
  rewrite Hround, Hband.
  destruct (Py.Qltb 10000 amount); [reflexivity|].
  destruct (Py.Qltb 5000 amount); [reflexivity|].
  destruct (Qle_bool amount 1) eqn:E; [|reflexivity].
  apply Qle_bool_iff in E. lra.
Qed.

(** C6, amended. Between two amounts above 1 that are neither exact
    multiples of 100 (from 100 up) nor within 50 below a reporting threshold
    (999, 1999, 2999, 4999, 9999), the amount-suspicion signal is
    non-decreasing in the amount. *)
Theorem amount_suspicion_monotone_on_plain_amounts (a1 a2 : Q) :
  plain_amount a1 -> plain_amount a2 -> a1 < a2 ->
  _analyze_amount_suspicion a1 <= _analyze_amount_suspicion a2.
Proof.
  intros H1 H2 Hlt.
  rewrite (_analyze_amount_suspicion_plain a1 H1), (_analyze_amount_suspicion_plain a2 H2).
  destruct (Py.Qltb 10000 a1) eqn:E1; destruct (Py.Qltb 10000 a2) eqn:E2;
  destruct (Py.Qltb 5000 a1) eqn:E3; destruct (Py.Qltb 5000 a2) eqn:E4;
  q_tests; try discriminate; exfalso; lra.
Qed.

(** C6, amended, at the amounts 150 and 6001. *)
Lemma amount_suspicion_monotone_on_plain_amounts_witness :
  plain_amount 150 /\ plain_amount 6001 /\ 150 < 6001
  /\ _analyze_amount_suspicion 150 <= _analyze_amount_suspicion 6001.
Proof.
  assert (H1 : plain_amount 150) by (repeat split).
  assert (H2 : plain_amount 6001) by (repeat split).
  assert (H3 : 150 < 6001) by reflexivity.
  repeat split; try assumption.
  apply (amount_suspicion_monotone_on_plain_amounts 150 6001 H1 H2 H3).
Defined.

End AlertClaims.

Section ClockClaims.

Import RealTimeRisk Scenarios.

(** C5, on the code, end to end: three members of one group each submit a
    food expense within two minutes; the third call computes a coordination
    signal of 0.6, below the configured coordination threshold 0.75, and emits
    a coordination alert candidate. *)
Theorem coordination_alert_below_configured_threshold :
  risk_thresholds !! "group_coordination"%string = Some 0.75
  /\ scores_get (risk_scores third_lunch) "coordination_risk" = 0.6
  /\ map untimed (alerts third_lunch)
     = [("coordination_risk", "MEDIUM", 0.6,
         ("Potential coordinated group activity (score: {score:.2f})", 0.6),
         30.5, "u3")]%string.
Proof. repeat split; vm_compute; reflexivity. Qed.

(** C8, refuted as stated: the same event scored against the same (fresh)
    state at three in the morning and at noon gets different verdicts. *)
Lemma verdict_depends_on_wall_clock :
  fst (analyze_real_time_risk std_unused at_3am (__init__ 60) dinner)
  <> fst (analyze_real_time_risk std_unused at_noon (__init__ 60) dinner).
Proof.
  intros H. apply (f_equal (fun r => scores_get (risk_scores r) "temporal_risk")) in H.
  vm_compute in H. discriminate.
Qed.

Lemma _generate_alerts_from_ext (now1 now2 : nat -> Py.datetime)
    (items : list (string * Q)) (expense_data : ExpenseData) (k : nat) :
  (forall i, now1 i = now2 i) ->
  _generate_alerts_from now1 k items expense_data
  = _generate_alerts_from now2 k items expense_data.
Proof.
  intros Hext. revert k.
  induction items as [|[risk_type score] rest IH]; intros k; simpl; [reflexivity|].
  destruct (Qle_bool _ score); rewrite ?Hext, IH; reflexivity.
Qed.

Lemma _generate_alerts_from_untimed (now1 now2 : nat -> Py.datetime)
    (items : list (string * Q)) (expense_data : ExpenseData) (k1 k2 : nat) :
  map untimed (_generate_alerts_from now1 k1 items expense_data)
  = map untimed (_generate_alerts_from now2 k2 items expense_data).
Proof.
  revert k1 k2.
  induction items as [|[risk_type score] rest IH]; intros k1 k2; simpl; [reflexivity|].
  destruct (Qle_bool _ score); simpl; [f_equal|]; apply IH.
Qed.

(** C8, amended. Scoring is a deterministic function of the event, the
    stored state and the wall-clock readings of the call: two calls with the
    same event, state and readings return the same verdict and leave the same
    state; and when only the reading taken on entry is the same, the risk
    scores, the risk level, the recommendations, the alerts up to their time
    stamps and the state left behind are the same. *)
Theorem scoring_deterministic_given_clock (np_std : list Q -> Q)
    (clock1 clock2 : nat -> Py.datetime) (self : Engine) (expense_data : ExpenseData) :
  clock1 0%nat = clock2 0%nat ->
  let r1 := analyze_real_time_risk np_std clock1 self expense_data in
  let r2 := analyze_real_time_risk np_std clock2 self expense_data in
  risk_scores (fst r1) = risk_scores (fst r2)
  /\ risk_level (fst r1) = risk_level (fst r2)
  /\ recommendations (fst r1) = recommendations (fst r2)
  /\ map untimed (alerts (fst r1)) = map untimed (alerts (fst r2))
  /\ snd r1 = snd r2
  /\ ((forall k, clock1 k = clock2 k) -> r1 = r2).
Proof.
  intros H0. unfold analyze_real_time_risk. rewrite <- H0.
  destruct (_analyze_velocity _ _ _ _) as [v self1].
  destruct (_analyze_group_coordination _ _ _ _) as [c self2].
  simpl. repeat split.
  - apply _generate_alerts_from_untimed.
  - intros Hext. unfold _generate_alerts.
    rewrite (_generate_alerts_from_ext (fun k => clock1 (S k)) (fun k => clock2 (S k)))
      by (intros i; apply Hext).
    rewrite !Hext. reflexivity.
Qed.

(** C8, amended, at two clocks that agree on their first reading only. *)
Lemma scoring_deterministic_given_clock_witness :
  let r1 := analyze_real_time_risk std_unused at_3am (__init__ 60) dinner in
  let r2 := analyze_real_time_risk std_unused
              (fun k => match k with O => Py.hours 3 | _ => Py.hours 4 end)
              (__init__ 60) dinner in
  risk_scores (fst r1) = risk_scores (fst r2)
  /\ risk_level (fst r1) = risk_level (fst r2)
  /\ recommendations (fst r1) = recommendations (fst r2)
  /\ map untimed (alerts (fst r1)) = map untimed (alerts (fst r2))
  /\ snd r1 = snd r2
  /\ ((forall k, at_3am k = match k with O => Py.hours 3 | _ => Py.hours 4 end) -> r1 = r2).
Proof.
  apply (scoring_deterministic_given_clock std_unused at_3am
           (fun k => match k with O => Py.hours 3 | _ => Py.hours 4 end)
           (__init__ 60) dinner).
  reflexivity.
Defined.

End ClockClaims.

(** ** Claims about the ensemble scorer *)

Section EnsembleClaims.

Import Schemas Ensemble Scenarios.

Variable fromisoformat : string -> option Py.parsed_datetime.

Lemma min_is_Qmin (a b : Q) : Py.min_ a b == Qmin a b.
Proof.
  unfold Py.min_. destruct (Py.Qltb b a) eqn:E.
  - apply Qltb_true in E. rewrite Q.min_r; [reflexivity | lra].
  - apply Qltb_false in E. rewrite Q.min_l; [reflexivity | lra].
Qed.

(** The entries of a verdict produced by the [try] block. *)
Lemma predict_single_try_entries (self : Ensemble.t) (utcnow : Py.datetime)
    (expense : ExpenseIn.t) (features : gmap string Py.value) (feature_vector : list Q)
    (historical_data : option (list RuleEngine.Hist)) (verdict : Verdict) :
  predict_single_try fromisoformat self utcnow expense features feature_vector
                     historical_data = inr verdict ->
  exists ml_score explanation model_version,
    let rule_violations :=
      RuleEngine.check_rules fromisoformat (rule_engine self) utcnow expense features
                             historical_data in
    let rule_score := _calculate_rule_score rule_violations in
    let final_score := _combine_scores self ml_score rule_score in
    verdict =
      [ ("anomaly_score", VFloat final_score);
        ("is_suspicious", VBool (Qle_bool (suspicion_threshold self) final_score));
        ("ml_score", VFloat ml_score);
        ("rule_score", VFloat rule_score);
        ("rule_violations", VViolations rule_violations);
        ("explanation", VExplanation explanation);
        ("model_version", VStr model_version) ]%string.
Proof.
  unfold predict_single_try. intros H.
  destruct (match ml_model self with Some _ => _ | None => _ end) as [e|[ml_score ml_expl]];
    simpl in H; [discriminate|].
  destruct (_create_explanation _ _ _ _) as [e|explanation]; simpl in H; [discriminate|].
  injection H as <-. eauto.
Qed.

(** C3. The fused score is [ml_weight * ml_score + rule_weight * rule_score]
    (weights 0.7 and 0.3 by default); when both scores exceed 0.5 it is
    further multiplied by 1.1 and capped at 1; and the [is_suspicious] entry
    of a verdict is true exactly when its fused score is at least the
    suspicion threshold (0.6 by default). *)
Theorem fused_score_and_suspicion (self : Ensemble.t) (ml_score rule_score : Q) :
  let combined := ml_weight self * ml_score + rule_weight self * rule_score in
  (0.5 < ml_score /\ 0.5 < rule_score ->
     _combine_scores self ml_score rule_score == Qmin 1 (combined * 1.1))
  /\ (~ (0.5 < ml_score /\ 0.5 < rule_score) ->
     _combine_scores self ml_score rule_score == combined)
  /\ (forall m r, ml_weight (__init__ m r) = 0.7 /\ rule_weight (__init__ m r) = 0.3
                  /\ suspicion_threshold (__init__ m r) = 0.6)
  /\ (forall utcnow expense features feature_vector historical_data verdict,
        predict_single_try fromisoformat self utcnow expense features feature_vector
                           historical_data = inr verdict ->
        exists ml rule (b : bool),
          lookup_key verdict "ml_score" = Some (VFloat ml)
          /\ lookup_key verdict "rule_score" = Some (VFloat rule)
          /\ lookup_key verdict "anomaly_score" = Some (VFloat (_combine_scores self ml rule))
          /\ lookup_key verdict "is_suspicious" = Some (VBool b)
          /\ (b = true <-> suspicion_threshold self <= _combine_scores self ml rule)).
Proof.
  simpl. repeat split.
  - intros [Hml Hrule]. unfold _combine_scores.
    apply Qltb_true in Hml. apply Qltb_true in Hrule. rewrite Hml, Hrule. simpl.
    apply min_is_Qmin.
  - intros Hnot. unfold _combine_scores.
    destruct (Py.Qltb 0.5 ml_score) eqn:E1; destruct (Py.Qltb 0.5 rule_score) eqn:E2;
      simpl; try reflexivity.
    q_tests. tauto.
  - intros utcnow expense features feature_vector historical_data verdict Etry.
    apply predict_single_try_entries in Etry.
    destruct Etry as (ml & expl & ver & ->).
    eexists ml, _, _. repeat split; try reflexivity.
    + intros Hb. apply Qle_bool_iff. exact Hb.
    + intros Hle. apply Qle_bool_iff. exact Hle.
Qed.

(** C2, amended. For every expense and every behaviour of the ML provider,
    [predict_single] returns a verdict and raises nothing; when its
    computation fails partway the verdict is the safe default (score 0, not
    suspicious, no violations, model version [error]); and [check_rules]
    likewise answers a failure of a rule check with an empty list.  No verdict
    carries a [degraded] or a [warnings] entry. *)
Theorem predict_single_always_returns (self : Ensemble.t) (utcnow : Py.datetime)
    (expense : ExpenseIn.t) (features : gmap string Py.value) (feature_vector : list Q)
    (historical_data : option (list RuleEngine.Hist)) :
  exists verdict,
    predict_single fromisoformat self utcnow expense features feature_vector
                   historical_data = inr verdict
    /\ (forall e,
          predict_single_try fromisoformat self utcnow expense features feature_vector
                             historical_data = inl e ->
          verdict = safe_default)
    /\ (forall e,
          RuleEngine._check_excessive_amount (rule_engine self) expense features = inl e ->
          RuleEngine.check_rules fromisoformat (rule_engine self) utcnow expense features
                                 historical_data = [])
    /\ lookup_key verdict "degraded" = None
    /\ lookup_key verdict "warnings" = None.
Proof.
  unfold predict_single.
  destruct (predict_single_try _ _ _ _ _ _ _) as [e|v] eqn:Etry.
  - exists safe_default. repeat split.
    intros e' He'. unfold RuleEngine.check_rules. rewrite He'. reflexivity.
  - exists v. split; [reflexivity|]. split; [discriminate|]. split.
    + intros e' He'. unfold RuleEngine.check_rules. rewrite He'. reflexivity.
    + apply predict_single_try_entries in Etry.
      destruct Etry as (ml & expl & ver & ->). split; reflexivity.
Qed.

End EnsembleClaims.

Section EnsembleWitnesses.

Import Schemas Ensemble Scenarios.

(** C3 at the scores (0.8, 0.9) and (0.8, 0.2) and at the verdict of a shared meal. *)
Lemma fused_score_and_suspicion_witness :
  _combine_scores rules_only 0.8 0.9 == Qmin 1 ((0.7 * 0.8 + 0.3 * 0.9) * 1.1)
  /\ _combine_scores rules_only 0.8 0.2 == 0.7 * 0.8 + 0.3 * 0.2
  /\ exists ml rule (b : bool),
       lookup_key shared_meal_verdict "ml_score" = Some (VFloat ml)
       /\ lookup_key shared_meal_verdict "rule_score" = Some (VFloat rule)
       /\ lookup_key shared_meal_verdict "anomaly_score"
          = Some (VFloat (_combine_scores rules_only ml rule))
       /\ lookup_key shared_meal_verdict "is_suspicious" = Some (VBool b)
       /\ (b = true <-> suspicion_threshold rules_only <= _combine_scores rules_only ml rule).
Proof.
  split; [|split].
  - apply (fused_score_and_suspicion no_timestamps rules_only 0.8 0.9).
    split; reflexivity.
  - apply (fused_score_and_suspicion no_timestamps rules_only 0.8 0.2).
    intros [_ H]. vm_compute in H. discriminate.
  - apply (fused_score_and_suspicion no_timestamps rules_only 0 0)
      with (utcnow := Py.hours 12) (expense := shared_meal) (features := ∅)
           (feature_vector := []) (historical_data := None).
    reflexivity.
Defined.

(** C2, refuted as stated: an ML provider that raises makes the computation
    fail partway; the verdict returned is the safe default, which has neither
    a [degraded] flag nor a [warnings] list. *)
Lemma failure_is_not_flagged_degraded :
  predict_single_try no_timestamps failing_provider (Py.hours 12) shared_meal ∅ [] None
  = inl (Py.RuntimeError "provider unavailable")
  /\ exists verdict,
       predict_single no_timestamps failing_provider (Py.hours 12) shared_meal ∅ [] None
       = inr verdict
       /\ lookup_key verdict "degraded" = None
       /\ lookup_key verdict "warnings" = None
       /\ lookup_key verdict "model_version" = Some (VStr "error").
Proof. split; [reflexivity|]. eexists. repeat split. Qed.

End EnsembleWitnesses.

(** ** Claims about the schema and the rule engine *)

Section SchemaClaims.

Import Schemas.

Variable fromisoformat : string -> option Py.parsed_datetime.

Lemma ParticipantInfo_list_valid (raws : list RawParticipant) :
  Forall valid_participant raws ->
  exists ps,
    ParticipantInfo_list raws = inr ps
    /\ map ParticipantInfo.amount ps = map (fun r => default 0 (raw_p_amount r)) raws
    /\ length ps = length raws.
Proof.
  induction 1 as [|r raws (u & a & Hu & Ha & Hpos) _ (ps & Hps & Hmap & Hlen)].
  - exists []. repeat split.
  - exists (ParticipantInfo.mk u a :: ps). simpl.
    unfold ParticipantInfo_new. rewrite Hu, Ha.
    apply Qltb_true in Hpos. rewrite Hpos. simpl. rewrite Hps. simpl.
    rewrite Hmap, Hlen. repeat split.
Qed.

(** When the participants are validated, [amount], declared after them, is
    not yet among the validated fields: the sum check is skipped. *)
Lemma validate_participants_amount_skipped (ps : list ParticipantInfo.t)
    (expense_id group_id payer_id : field_value) :
  validate_participants_amount ps
    (<["payer_id"%string := payer_id]>
       (<["group_id"%string := group_id]>
          (<["expense_id"%string := expense_id]> ∅)))
  = inr ps.
Proof.
  unfold validate_participants_amount.
  rewrite !lookup_insert_ne by discriminate. rewrite lookup_empty. reflexivity.
Qed.

Lemma ExpenseIn_new_accepts (raw : RawExpense) :
  structurally_valid fromisoformat raw ->
  exists expense,
    ExpenseIn_new fromisoformat raw = inr expense
    /\ raw_amount raw = Some (ExpenseIn.amount expense)
    /\ map ParticipantInfo.amount (ExpenseIn.participants expense)
       = raw_participant_amounts raw.
Proof.
  intros ([eid Heid] & [gid Hgid] & [pid Hpid] & (raws & Hraws & Hne & Hvalid)
          & (a & Ha & Hpos & Hmax) & (c & Hc & Hlen & Hupper) & (t & Ht & [dt Hdt])).
  destruct (ParticipantInfo_list_valid raws Hvalid) as (ps & Hps & Hamounts & Hlenps).
  exists (ExpenseIn.mk eid gid pid ps a c (raw_merchant raw) (raw_category raw) t).
  split; [|split; [exact Ha|]].
  - unfold ExpenseIn_new, ExpenseIn_fields.
    rewrite Heid, Hgid, Hpid, Hraws, Ha, Hc, Ht.
    cbn [validate_fields required_str Py.ret Py.bind].
    rewrite Hps. cbn [Py.bind].
    assert (Hlen1 : (length ps <? 1)%nat = false).
    { apply Nat.ltb_ge. rewrite Hlenps. destruct raws; [congruence | simpl; lia]. }
    rewrite Hlen1, validate_participants_amount_skipped. cbn [Py.bind Py.ret].
    apply Qltb_true in Hpos. apply Qle_bool_iff in Hmax. rewrite Hpos, Hmax.
    cbn [andb]. rewrite Hlen. cbn [Nat.eqb].
    unfold validate_currency. rewrite Hupper. cbn [negb Py.bind Py.ret].
    unfold validate_timestamp. rewrite Hdt. cbn [Py.bind Py.ret].
    simplify_map_eq. reflexivity.
  - simpl. unfold raw_participant_amounts. rewrite Hraws. exact Hamounts.
Qed.

End SchemaClaims.

Section RuleClaims.

Import Schemas RuleEngine.

Variable fromisoformat : string -> option Py.parsed_datetime.

(** With a positive multiplier threshold and a numeric feature, the
    excessive-amount check raises nothing. *)
Lemma _check_excessive_amount_returns (self : RuleEngine.t) (expense : ExpenseIn.t)
    (features : gmap string Py.value) :
  0 < amount_multiplier_threshold self ->
  numeric_features features ->
  exists violations, _check_excessive_amount self expense features = inr violations.
Proof.
  intros Hth Hnum. unfold _check_excessive_amount.
  assert (Hn : exists q, Py.as_number (default (Py.Num 1)
                           (features !! "amount_vs_group_mean"%string)) = inr q).
  { unfold numeric_features in Hnum.
    destruct (features !! "amount_vs_group_mean"%string) as [[q|s|b|]|]; simpl;
      try contradiction; eauto. }
  destruct Hn as [q ->]. simpl.
  destruct (Py.Qltb _ q) eqn:Ebig; [|eauto].
  apply Qltb_true in Ebig.
  unfold Py.div_.
  destruct (Qeq_bool _ 0) eqn:Ez; [apply Qeq_bool_iff in Ez; lra|].
  simpl. unfold RuleViolation.new.
  set (ratio := q / _).
  assert (Hratio : 0 <= ratio).
  { unfold ratio. apply Qle_shift_div_l; lra. }
  assert (H0 : Qle_bool 0 (Py.min_ 0.9 ratio) = true).
  { apply Qle_bool_iff. apply min_glb; lra. }
  assert (H1 : Qle_bool (Py.min_ 0.9 ratio) 1 = true).
  { apply Qle_bool_iff. pose proof (min_le_l 0.9 ratio). lra. }
  rewrite H0, H1. simpl. eauto.
Qed.

Lemma _check_participant_mismatch_reports (expense : ExpenseIn.t) :
  0.01 < Py.abs_ (Py.sum (map ParticipantInfo.amount (ExpenseIn.participants expense))
                  - ExpenseIn.amount expense) ->
  In (RuleViolation.mk "amount_mismatch" "high"
        "Participant amounts ({participant_total}) don't match total ({expense.amount})"
        0.95)
     (_check_participant_mismatch expense).
Proof.
  intros H. apply Qltb_true in H. unfold _check_participant_mismatch. rewrite H.
  destruct (negb _); [apply in_or_app|]; simpl; auto.
Qed.

(** An expense whose participant amounts sum to a value differing from
    the total by more than 0.01 is accepted by the schema (the sum check of
    the [participants] validator runs before [amount] is validated and is
    skipped), and the rules run on it, when the first rule does not raise,
    report an [amount_mismatch] violation of severity high and confidence
    0.95. *)
Lemma mismatch_reported_by_check_rules (raw : RawExpense) :
  structurally_valid fromisoformat raw ->
  amount_mismatch raw ->
  exists expense,
    ExpenseIn_new fromisoformat raw = inr expense
    /\ forall (self : RuleEngine.t) (utcnow : Py.datetime)
              (features : gmap string Py.value) (historical_data : option (list Hist)),
         0 < amount_multiplier_threshold self ->
         numeric_features features ->
         exists violation,
           In violation (check_rules fromisoformat self utcnow expense features
                                     historical_data)
           /\ RuleViolation.rule_name violation = "amount_mismatch"%string
           /\ RuleViolation.severity violation = "high"%string
           /\ RuleViolation.confidence violation = 0.95.
Proof.
  intros Hvalid Hmis.
  destruct (ExpenseIn_new_accepts fromisoformat raw Hvalid) as (expense & Hnew & Ha & Hps).
  exists expense. split; [exact Hnew|].
  intros self utcnow features historical_data Hth Hnum.
  exists (RuleViolation.mk "amount_mismatch" "high"
            "Participant amounts ({participant_total}) don't match total ({expense.amount})"
            0.95).
  split; [|split; [|split]]; [| reflexivity | reflexivity | reflexivity].
  unfold check_rules.
  destruct (_check_excessive_amount_returns self expense features Hth Hnum) as [vs ->].
  simpl.
  assert (Hreported : In (RuleViolation.mk "amount_mismatch" "high"
            "Participant amounts ({participant_total}) don't match total ({expense.amount})"
            0.95) (_check_participant_mismatch expense)); [|
    destruct historical_data as [[|hist rest]|];
    rewrite !in_app_iff; tauto ].
  apply _check_participant_mismatch_reports.
  unfold amount_mismatch in Hmis. rewrite Hps. rewrite Ha in Hmis. exact Hmis.
Qed.

End RuleClaims.

Section ScoringClaims.

Import Schemas Scenarios.

Variable fromisoformat : string -> option Py.parsed_datetime.

Lemma ml_contributions_returns (ml_explanation : list (string * Q))
    (features : gmap string Py.value) :
  Forall (fun kv => features !! fst kv <> Some Py.NoneV) ml_explanation ->
  exists contributions,
    Ensemble.ml_contributions ml_explanation features = inr contributions.
Proof.
  induction ml_explanation as [|[feature_name contribution] rest IH]; intros Hall.
  - simpl. eauto.
  - apply Forall_cons in Hall. destruct Hall as [Hhead Hrest]. cbn [fst] in Hhead.
    destruct (IH Hrest) as [cs Hcs]. cbn [Ensemble.ml_contributions]. rewrite Hcs.
    unfold FeatureContribution.new.
    destruct (features !! feature_name) as [[q|str|b|]|]; simpl; eauto.
    congruence.
Qed.

(** When the provider succeeds, the [try] block of [predict_single] returns
    a verdict whose violations are those of [check_rules]. *)
Lemma predict_single_reports_check_rules (self : Ensemble.t) (utcnow : Py.datetime)
    (expense : ExpenseIn.t) (features : gmap string Py.value) (feature_vector : list Q)
    (historical_data : option (list RuleEngine.Hist)) :
  Ensemble.provider_succeeds self feature_vector features ->
  exists verdict,
    Ensemble.predict_single fromisoformat self utcnow expense features feature_vector
                            historical_data = inr verdict
    /\ Ensemble.lookup_key verdict "rule_violations"
       = Some (Ensemble.VViolations
                 (RuleEngine.check_rules fromisoformat (Ensemble.rule_engine self) utcnow
                                         expense features historical_data)).
Proof.
  intros Hprov. unfold Ensemble.predict_single, Ensemble.predict_single_try.
  unfold Ensemble.provider_succeeds in Hprov.
  destruct (Ensemble.ml_model self) as [model|].
  - destruct (Ensemble.is_fitted model).
    + destruct (Hprov eq_refl) as (proba & expl & Hp & He & Hall).
      rewrite Hp. cbn [Py.bind]. rewrite He. cbn [Py.bind Py.ret].
      unfold Ensemble._create_explanation.
      destruct (ml_contributions_returns _ _ Hall) as [cs Hcs]. rewrite Hcs.
      cbn [Py.bind Py.ret]. eexists. split; reflexivity.
    + cbn [Py.bind Py.ret]. unfold Ensemble._create_explanation.
      cbn [take Ensemble.ml_contributions Py.bind Py.ret]. eexists. split; reflexivity.
  - cbn [Py.bind Py.ret]. unfold Ensemble._create_explanation.
    cbn [take Ensemble.ml_contributions Py.bind Py.ret]. eexists. split; reflexivity.
Qed.

(** C1, amended. An expense whose participant amounts sum to a value
    differing from the total by more than 0.01 is accepted by the schema (the
    sum check of the [participants] validator runs before [amount] is
    validated and is skipped) and scoring it always returns a verdict.  When
    no step of the scoring fails (the rule engine has a positive multiplier
    threshold, the group-mean ratio is numeric, and the ML provider, if
    fitted, succeeds) the [rule_violations] of the verdict contain an
    [amount_mismatch] violation of severity high and confidence 0.95, hence
    at least 0.9. *)
Theorem mismatch_is_violation_not_rejection (raw : RawExpense) :
  structurally_valid fromisoformat raw ->
  amount_mismatch raw ->
  exists expense,
    ExpenseIn_new fromisoformat raw = inr expense
    /\ forall (self : Ensemble.t) (utcnow : Py.datetime)
              (features : gmap string Py.value) (feature_vector : list Q)
              (historical_data : option (list RuleEngine.Hist)),
         (exists verdict,
            Ensemble.predict_single fromisoformat self utcnow expense features
                                    feature_vector historical_data = inr verdict)
         /\ (0 < RuleEngine.amount_multiplier_threshold (Ensemble.rule_engine self) ->
             RuleEngine.numeric_features features ->
             Ensemble.provider_succeeds self feature_vector features ->
             exists verdict violations violation,
               Ensemble.predict_single fromisoformat self utcnow expense features
                                       feature_vector historical_data = inr verdict
               /\ Ensemble.lookup_key verdict "rule_violations"
                  = Some (Ensemble.VViolations violations)
               /\ In violation violations
               /\ RuleViolation.rule_name violation = "amount_mismatch"%string
               /\ RuleViolation.severity violation = "high"%string
               /\ RuleViolation.confidence violation = 0.95
               /\ 0.9 <= RuleViolation.confidence violation).
Proof.
  intros Hvalid Hmis.
  destruct (mismatch_reported_by_check_rules fromisoformat raw Hvalid Hmis)
    as (expense & Hnew & Hrules).
  exists expense. split; [exact Hnew|].
  intros self utcnow features feature_vector historical_data. split.
  - unfold Ensemble.predict_single.
    destruct (Ensemble.predict_single_try _ _ _ _ _ _ _); eexists; reflexivity.
  - intros Hth Hnum Hprov.
    destruct (predict_single_reports_check_rules self utcnow expense features
                feature_vector historical_data Hprov) as (verdict & Hverdict & Hlookup).
    destruct (Hrules (Ensemble.rule_engine self) utcnow features historical_data Hth Hnum)
      as (violation & Hin & Hname & Hsev & Hconf).
    exists verdict.
    eexists. exists violation.
    split; [exact Hverdict|]. split; [exact Hlookup|]. split; [exact Hin|].
    split; [exact Hname|]. split; [exact Hsev|]. split; [exact Hconf|].
    rewrite Hconf. discriminate.
Qed.

End ScoringClaims.

Section ScoringWitnesses.

Import Schemas Scenarios.

Lemma short_changed_is_valid : structurally_valid iso_evening short_changed.
Proof.
  unfold structurally_valid, short_changed; simpl.
  split; [eauto|]. split; [eauto|]. split; [eauto|].
  split.
  { eexists. split; [reflexivity|]. split; [discriminate|].
    repeat constructor; eexists _, _; repeat split. }
  split.
  { exists 50. split; [reflexivity|]. split; [reflexivity | discriminate]. }
  split.
  { exists "USD"%string. repeat split. }
  eexists. split; [reflexivity|]. eauto.
Qed.

(** C1 at an expense of 50 whose shares sum to 40, scored by the default
    rules next to a fitted provider that answers. *)
Lemma mismatch_is_violation_not_rejection_witness :
  structurally_valid iso_evening short_changed
  /\ amount_mismatch short_changed
  /\ 0 < RuleEngine.amount_multiplier_threshold (Ensemble.rule_engine steady_provider)
  /\ RuleEngine.numeric_features ∅
  /\ Ensemble.provider_succeeds steady_provider [] ∅
  /\ exists expense,
       ExpenseIn_new iso_evening short_changed = inr expense
       /\ exists verdict violations violation,
            Ensemble.predict_single iso_evening steady_provider (Py.hours 12) expense ∅ []
                                    None = inr verdict
            /\ Ensemble.lookup_key verdict "rule_violations"
               = Some (Ensemble.VViolations violations)
            /\ In violation violations
            /\ RuleViolation.rule_name violation = "amount_mismatch"%string
            /\ RuleViolation.severity violation = "high"%string
            /\ RuleViolation.confidence violation = 0.95
            /\ 0.9 <= RuleViolation.confidence violation.
Proof.
  pose proof short_changed_is_valid as H1.
  assert (H2 : amount_mismatch short_changed) by reflexivity.
  assert (H3 : 0 < RuleEngine.amount_multiplier_threshold
                     (Ensemble.rule_engine steady_provider)) by reflexivity.
  assert (H4 : RuleEngine.numeric_features ∅) by exact I.
  assert (H5 : Ensemble.provider_succeeds steady_provider [] ∅).
  { intros _. eexists _, _. split; [reflexivity|]. split; [reflexivity|].
    repeat constructor; simpl; rewrite lookup_empty; discriminate. }
  split; [exact H1|]. split; [exact H2|]. split; [exact H3|]. split; [exact H4|].
  split; [exact H5|].
  destruct (mismatch_is_violation_not_rejection iso_evening short_changed H1 H2)
    as (expense & Hnew & Hscore).
  exists expense. split; [exact Hnew|].
  destruct (Hscore steady_provider (Py.hours 12) ∅ [] None) as [_ Hreport].
  exact (Hreport H3 H4 H5).
Defined.

(** C1, refuted as stated: the same expense is accepted, but when the ML
    provider raises, the verdict returned for it is the safe default, whose
    [rule_violations] are empty: the mismatch is not reported. *)
Lemma mismatch_lost_when_provider_fails :
  amount_mismatch short_changed
  /\ exists expense,
       ExpenseIn_new iso_evening short_changed = inr expense
       /\ exists verdict,
            Ensemble.predict_single iso_evening failing_provider (Py.hours 12) expense ∅ []
                                    None = inr verdict
            /\ Ensemble.lookup_key verdict "rule_violations"
               = Some (Ensemble.VViolations []).
Proof.
  split; [reflexivity|].
  destruct (ExpenseIn_new_accepts iso_evening short_changed short_changed_is_valid)
    as (expense & Hnew & _).
  exists expense. split; [exact Hnew|].
  eexists. split; reflexivity.
Qed.

End ScoringWitnesses.

(** ** Claims about the behavioral profiles *)

Section ProfileClaims.

Import Behavioral Scenarios.

Variable fromisoformat : string -> option Py.parsed_datetime.

Lemma sum_snoc (xs : list Q) (a : Q) : Py.sum (xs ++ [a]) = Py.sum xs + a.
Proof. unfold Py.sum. rewrite fold_left_app. reflexivity. Qed.

(** The user profile keeps the exact running mean: after the updates for a
    sequence of events, the count is the number of events and the stored
    average times the count is the sum of the observed amounts. *)
Lemma user_profile_running_mean (events : list ExpenseData) (user : string)
    (t0 t1 t2 : Py.datetime) (is_fraud : bool) :
  let profile :=
    fold_left (fun p e => update_user_profile fromisoformat p e is_fraud t1 t2)
              events (UserProfile_new user t0) in
  total_expenses profile = Z.of_nat (length events)
  /\ avg_amount profile * Py.of_nat (length events) == Py.sum (observed_amounts events).
Proof.
  induction events as [|e events IH] using rev_ind; cbv zeta in *.
  - split; reflexivity.
  - rewrite fold_left_app. cbn [fold_left].
    set (p := fold_left _ events _) in *. destruct IH as [Hn Havg].
    unfold observed_amounts in *. rewrite map_app, length_app. cbn [map length].
    rewrite sum_snoc. unfold update_user_profile. cbn [total_expenses avg_amount].
    rewrite Hn. split; [lia|].
    rewrite <- Havg. unfold Py.of_nat.
    replace (Z.of_nat (length events + 1)) with (Z.of_nat (length events) + 1)%Z by lia.
    replace (Z.of_nat (length events) + 1 - 1)%Z with (Z.of_nat (length events)) by lia.
    assert (Hpos : ~ inject_Z (Z.of_nat (length events) + 1) == 0).
    { intros H. unfold Qeq in H. simpl in H. lia. }
    field. exact Hpos.
Qed.

Lemma user_profile_average_is_mean (events : list ExpenseData) (user : string)
    (t0 t1 t2 : Py.datetime) (is_fraud : bool) :
  events <> [] ->
  avg_amount (fold_left (fun p e => update_user_profile fromisoformat p e is_fraud t1 t2)
                        events (UserProfile_new user t0))
  == Py.mean (observed_amounts events).
Proof.
  intros Hne.
  destruct (user_profile_running_mean events user t0 t1 t2 is_fraud) as [_ H].
  unfold Py.mean. unfold observed_amounts at 2. rewrite length_map, <- H.
  assert (Hpos : 0 < Py.of_nat (length events)).
  { apply of_nat_pos. destruct events; [congruence | simpl; lia]. }
  field. lra.
Qed.

(** The group profile replaces its average by the half-sum of the stored
    average and the new amount, whatever the number of events recorded. *)
Lemma group_profile_half_sum (group_profile : GroupProfile) (expense_data : ExpenseData)
    (is_fraud : bool) :
  avg_expense_amount (update_group_profile group_profile expense_data is_fraud)
  == (avg_expense_amount group_profile + get (ed_amount expense_data) 0) / 2.
Proof.
  unfold update_group_profile, getattr_total_expenses.
  destruct is_fraud; cbn [avg_expense_amount];
    change (inject_Z 1) with 1; change (inject_Z (1 + 1)) with 2; field.
Qed.

(** C9, on the code: after the first recorded event, of amount 100, the
    group profile stores the average 50 and the user profile 100; after a
    second event of 200 the group profile stores 125 and the user profile
    150, the mean of the two amounts. *)
Theorem group_average_is_not_the_mean :
  (avg_expense_amount <$> group_profiles after_first_payment !! "flat"%string) = Some (100 # 2)
  /\ (avg_amount <$> user_profiles after_first_payment !! "alice"%string) = Some 100
  /\ ~ (100 # 2) == Py.mean [100]
  /\ (avg_expense_amount <$> group_profiles after_second_payment !! "flat"%string)
     = Some (500 # 4)
  /\ (avg_amount <$> user_profiles after_second_payment !! "alice"%string) = Some (300 # 2)
  /\ (300 # 2) == Py.mean [100; 200]
  /\ ~ (500 # 4) == Py.mean [100; 200].
Proof.
  repeat split; try (vm_compute; reflexivity); vm_compute; discriminate.
Qed.

End ProfileClaims.

(** ** Claims about the alert dispatcher *)

Section DispatcherClaims.

Import Notifications.

Variable clock : nat -> Py.datetime.
Variable requests_post : nat -> string -> bool.
Variable smtp_send : nat -> list string -> bool.

(** The gate of [_should_notify]: never triggered, or the reading of the
    clock exceeds the last trigger by more than the cooldown. *)
Lemma _should_notify_spec (rule : NotificationRule) (w : World) :
  fst (_should_notify clock rule w) = true <->
  last_triggered rule = None
  \/ exists last, last_triggered rule = Some last
                  /\ (Py.minutes (cooldown_minutes rule) < clock (ticks w) - last)%Z.
Proof.
  unfold _should_notify. destruct (last_triggered rule) as [last|]; simpl.
  - rewrite Z.ltb_lt. split.
    + intros H. right. exists last. auto.
    + intros [H|(l & Hl & H)]; [discriminate|]. injection Hl as ->. exact H.
  - split; auto.
Qed.


(** What one iteration of the loop does, by whether the rule fires. *)
Lemma process_rule_fires (alert : Alert) (rule : NotificationRule) (w : World) :
  fires clock alert rule w = true ->
  let w1 := snd (_send_notifications clock requests_post smtp_send alert rule (snd (_should_notify clock rule w))) in
  _process_rule clock requests_post smtp_send alert rule w
  = (set_last_triggered rule (clock (ticks w1)), mkWorld (sys w1) (S (ticks w1))).
Proof.
  unfold fires, _process_rule. intros H.
  apply andb_true_iff in H. destruct H as [H Hnotify].
  apply andb_true_iff in H. destruct H as [Hen Hmatch].
  rewrite Hen, Hmatch. simpl. unfold bind.
  destruct (_should_notify clock rule w) as [notify w0]. simpl in *. subst notify.
  destruct (_send_notifications _ _ _ _ _ _) as [[] w1]. reflexivity.
Qed.



End DispatcherClaims.

Section DispatcherWitnesses.

Import Notifications Scenarios.


End DispatcherWitnesses.
Section DispatcherClock.

Import Notifications.

Variable clock : nat -> Py.datetime.
Variable requests_post : nat -> string -> bool.
Variable smtp_send : nat -> list string -> bool.

Lemma send_on_channel_ticks (alert : Alert) (rule : NotificationRule)
    (channel : NotificationChannel) (w : World) :
  (ticks w <= ticks (snd (send_on_channel clock requests_post smtp_send alert rule channel w)))%nat.
Proof.
  unfold send_on_channel, bind.
  destruct channel; simpl;
    unfold _send_webhook, _send_email, _send_slack, _store_in_app_notification,
           bind, get_sys, get_ticks, now, ret, history_append, put_sys; simpl;
    repeat match goal with
           | |- context [if ?b then _ else _] => destruct b; simpl
           | |- context [match ?l with [] => _ | _ :: _ => _ end] => destruct l; simpl
           | |- context [match ?s with EmptyString => _ | String _ _ => _ end] =>
               destruct s; simpl
           | |- context [match ?o with inl _ => _ | inr _ => _ end] => destruct o; simpl
           end; lia.
Qed.

Lemma send_on_channels_ticks (alert : Alert) (rule : NotificationRule)
    (chans : list NotificationChannel) (w : World) :
  (ticks w <= ticks (snd (send_on_channels clock requests_post smtp_send alert rule chans w)))%nat.
Proof.
  revert w. induction chans as [|channel rest IH]; intros w; simpl; [lia|].
  unfold bind.
  pose proof (send_on_channel_ticks alert rule channel w) as H1.
  destruct (send_on_channel _ _ _ _ _ _ w) as [[] w1]. simpl in H1.
  specialize (IH w1). lia.
Qed.

(** Under a clock that does not go backwards, the stamp left by a firing is
    not earlier than the reading at which the firing was decided; the rule is
    therefore silent, for every alert, until the cooldown after that reading
    has passed. *)
Lemma no_refire_within_cooldown_of_decision (alert alert' : Alert)
    (rule : NotificationRule) (w w' : World) :
  (forall i j, (i <= j)%nat -> (clock i <= clock j)%Z) ->
  fires clock alert rule w = true ->
  (clock (ticks w') <= clock (ticks w) + Py.minutes (cooldown_minutes rule))%Z ->
  fires clock alert'
        (fst (_process_rule clock requests_post smtp_send alert rule w)) w' = false.
Proof.
  intros Hmono Hfires Hearly.
  rewrite (process_rule_fires clock requests_post smtp_send alert rule w Hfires). simpl.
  unfold fires. apply andb_false_iff. right.
  apply not_true_iff_false. rewrite _should_notify_spec. simpl.
  intros [Hnone|(last & Hlast & Hlate)]; [discriminate|].
  injection Hlast as <-.
  assert (Hticks : (ticks w <= ticks (snd (_send_notifications clock requests_post smtp_send
                                             alert rule (snd (_should_notify clock rule w)))))%nat).
  { pose proof (send_on_channels_ticks alert rule (channels rule)
                  (snd (_should_notify clock rule w))) as H1.
    unfold _send_notifications.
    assert (ticks w <= ticks (snd (_should_notify clock rule w)))%nat.
    { unfold _should_notify. destruct (last_triggered rule); simpl; lia. }
    lia. }
  specialize (Hmono _ _ Hticks). lia.
Qed.

End DispatcherClock.

(** * Further properties of the code *)

(** ** The rule engine and the ensemble *)

Section RuleEngineFacts.

Import Schemas RuleEngine.

Variable fromisoformat : string -> option Py.parsed_datetime.

Lemma _check_excessive_amount_well_formed (self : RuleEngine.t) (expense : ExpenseIn.t)
    (features : gmap string Py.value) (violations : list RuleViolation.t) :
  _check_excessive_amount self expense features = inr violations ->
  Forall well_formed_violation violations.
Proof.
  unfold _check_excessive_amount. intros H.
  destruct (Py.as_number _) as [e|q]; simpl in H; [discriminate|].
  destruct (Py.Qltb _ q); [|injection H as <-; constructor].
  destruct (Py.div_ _ _) as [e|ratio]; simpl in H; [discriminate|].
  unfold RuleViolation.new in H.
  destruct (Qle_bool 0 _ && Qle_bool _ 1)%bool eqn:Erange; simpl in H; [|discriminate].
  injection H as <-. apply andb_true_iff in Erange. destruct Erange as [H0 H1].
  apply Qle_bool_iff in H0. apply Qle_bool_iff in H1.
  constructor; [|constructor]. split; [split; assumption|].
  simpl. destruct (Py.Qltb _ q); auto.
Qed.

Ltac literal_violations :=
  repeat match goal with
         | |- Forall _ (if ?b then _ else _) => destruct b
         | |- Forall _ (match ?x with inl _ => _ | inr _ => _ end) => destruct x
         | |- Forall _ (_ ++ _) => apply Forall_app; split
         | |- Forall _ [] => constructor
         | |- Forall _ (_ :: _) => constructor
         | |- well_formed_violation _ =>
             split; [split; discriminate | simpl; auto]
         end.

Lemma _check_participant_mismatch_well_formed (expense : ExpenseIn.t) :
  Forall well_formed_violation (_check_participant_mismatch expense).
Proof. unfold _check_participant_mismatch. literal_violations. Qed.

Lemma _check_blacklisted_entities_well_formed (self : RuleEngine.t) (expense : ExpenseIn.t) :
  Forall well_formed_violation (_check_blacklisted_entities self expense).
Proof. unfold _check_blacklisted_entities. literal_violations. Qed.

Lemma _check_rapid_expenses_well_formed (self : RuleEngine.t) (expense : ExpenseIn.t)
    (historical_data : list Hist) :
  Forall well_formed_violation
         (_check_rapid_expenses fromisoformat self expense historical_data).
Proof.
  unfold _check_rapid_expenses.
  unfold Py.bind, Py.ret.
  destruct (parse_timestamp _ _) as [e|expense_time]; [constructor|].
  destruct (count_rapid _ _ _ _ _ _) as [e|n]; [constructor|].
  destruct (3 <=? n)%nat; [literal_violations|].
  destruct (2 <=? n)%nat; literal_violations.
Qed.

Lemma _check_time_patterns_well_formed (utcnow : Py.datetime) (expense : ExpenseIn.t) :
  Forall well_formed_violation (_check_time_patterns fromisoformat utcnow expense).
Proof.
  unfold _check_time_patterns.
  destruct (parse_timestamp _ _) as [e|expense_time]; [constructor|].
  destruct (Py.dt_gt _ _) as [e|[|]]; literal_violations.
Qed.

Lemma _check_participant_count_well_formed (self : RuleEngine.t) (expense : ExpenseIn.t) :
  Forall well_formed_violation (_check_participant_count self expense).
Proof. unfold _check_participant_count. literal_violations. Qed.

Lemma _check_payer_participation_well_formed (expense : ExpenseIn.t) :
  Forall well_formed_violation (_check_payer_participation expense).
Proof. unfold _check_payer_participation. literal_violations. Qed.

Lemma _check_amount_precision_well_formed (expense : ExpenseIn.t) :
  Forall well_formed_violation (_check_amount_precision expense).
Proof. unfold _check_amount_precision. literal_violations. Qed.

(** X1. Whatever the expense, the features, the history and the
    configuration, every violation returned by [check_rules] has a confidence
    within [0, 1] and a severity among low, medium and high. *)
Theorem check_rules_well_formed (self : RuleEngine.t) (utcnow : Py.datetime)
    (expense : ExpenseIn.t) (features : gmap string Py.value)
    (historical_data : option (list Hist)) :
  Forall well_formed_violation
         (check_rules fromisoformat self utcnow expense features historical_data).
Proof.
  unfold check_rules.
  destruct (_check_excessive_amount self expense features) as [e|excessive] eqn:Eexc;
    simpl; [constructor|].
  apply _check_excessive_amount_well_formed in Eexc.
  repeat (apply Forall_app; split);
    auto using _check_participant_mismatch_well_formed,
               _check_blacklisted_entities_well_formed,
               _check_time_patterns_well_formed,
               _check_participant_count_well_formed,
               _check_payer_participation_well_formed,
               _check_amount_precision_well_formed.
  destruct historical_data as [[|hist rest]|];
    repeat (apply Forall_app; split);
    auto using _check_participant_mismatch_well_formed,
               _check_blacklisted_entities_well_formed,
               _check_rapid_expenses_well_formed.
Qed.

End RuleEngineFacts.

Section EnsembleFacts.

Import Schemas Ensemble Scenarios.

Variable fromisoformat : string -> option Py.parsed_datetime.

Lemma severity_weights_get_pos (severity : string) : 0 < severity_weights_get severity.
Proof.
  unfold severity_weights_get.
  destruct (String.eqb severity "low"); [reflexivity|].
  destruct (String.eqb severity "medium"); [reflexivity|].
  destruct (String.eqb severity "high"); reflexivity.
Qed.

(** The two running sums of [_calculate_rule_score]: the weighted score
    stays between 0 and the sum of the weights. *)
Lemma rule_score_sums (violations : list RuleViolation.t) (acc : Q * Q) :
  Forall (fun v => 0 <= RuleViolation.confidence v <= 1) violations ->
  0 <= fst acc <= snd acc ->
  let sums :=
    fold_left
      (fun acc violation =>
         let severity_weight := severity_weights_get (RuleViolation.severity violation) in
         let violation_score := severity_weight * RuleViolation.confidence violation in
         (fst acc + violation_score, snd acc + severity_weight))
      violations acc in
  0 <= fst sums <= snd sums.
Proof.
  intros Hconf. revert acc.
  induction Hconf as [|v vs [Hlo Hhi] _ IH]; intros acc Hacc; simpl; [exact Hacc|].
  apply IH. simpl.
  pose proof (severity_weights_get_pos (RuleViolation.severity v)) as Hw.
  set (w := severity_weights_get _) in *. set (c := RuleViolation.confidence v) in *.
  assert (0 <= w * c) by (apply Qmult_le_0_compat; lra).
  assert (w * c <= w) by (rewrite <- (Qmult_1_r w) at 2; apply Qmult_le_l; lra).
  lra.
Qed.

(** X2. The aggregate rule score lies in [0, 1] when every confidence does;
    it is 0 when there is no violation. *)
Theorem _calculate_rule_score_range (violations : list RuleViolation.t) :
  Forall (fun v => 0 <= RuleViolation.confidence v <= 1) violations ->
  0 <= _calculate_rule_score violations <= 1
  /\ (violations = [] -> _calculate_rule_score violations = 0).
Proof.
  intros Hconf. split; [|intros ->; reflexivity].
  unfold _calculate_rule_score. destruct violations as [|v vs]; [split; discriminate|].
  pose proof (rule_score_sums (v :: vs) (0, 0) Hconf ltac:(simpl; lra)) as Hsums.
  cbv zeta in Hsums.
  destruct (fold_left _ (v :: vs) (0, 0)) as [total_score max_possible_score].
  simpl in Hsums.
  destruct (Py.Qltb 0 max_possible_score) eqn:Epos; [|split; discriminate].
  apply Qltb_true in Epos. split.
  - apply min_glb; [lra|]. apply Qle_shift_div_l; lra.
  - apply min_le_l.
Qed.

Lemma _calculate_rule_score_le_1 (violations : list RuleViolation.t) :
  _calculate_rule_score violations <= 1.
Proof.
  unfold _calculate_rule_score. destruct violations as [|v vs]; [discriminate|].
  destruct (fold_left _ (v :: vs) (0, 0)) as [total_score max_possible_score].
  destruct (Py.Qltb 0 max_possible_score); [apply min_le_l | discriminate].
Qed.

(** X3. With non-negative weights that sum to at most 1, the fused score of
    two scores of the unit interval lies in the unit interval. *)
Theorem _combine_scores_range (self : Ensemble.t) (ml_score rule_score : Q) :
  0 <= ml_weight self -> 0 <= rule_weight self ->
  ml_weight self + rule_weight self <= 1 ->
  0 <= ml_score <= 1 -> 0 <= rule_score <= 1 ->
  0 <= _combine_scores self ml_score rule_score <= 1.
Proof.
  intros Hml Hrule Hsum [Hm0 Hm1] [Hr0 Hr1]. unfold _combine_scores.
  set (a := ml_weight self) in *. set (b := rule_weight self) in *.
  assert (0 <= a * ml_score) by (apply Qmult_le_0_compat; lra).
  assert (0 <= b * rule_score) by (apply Qmult_le_0_compat; lra).
  assert (a * ml_score <= a) by nra.
  assert (b * rule_score <= b) by nra.
  destruct (_ && _)%bool.
  - split; [|apply min_le_l]. apply min_glb; lra.
  - lra.
Qed.

End EnsembleFacts.

Section EnsembleFactsWitnesses.

Import Schemas Ensemble Scenarios.

(** X2 at a low and a high violation. *)
Lemma _calculate_rule_score_range_witness :
  Forall (fun v => 0 <= RuleViolation.confidence v <= 1) two_violations
  /\ 0 <= _calculate_rule_score two_violations <= 1.
Proof.
  assert (H : Forall (fun v => 0 <= RuleViolation.confidence v <= 1) two_violations).
  { repeat constructor; discriminate. }
  split; [exact H|]. apply (_calculate_rule_score_range two_violations H).
Defined.

(** X3 at the default weights and the scores 0.8 and 0.9. *)
Lemma _combine_scores_range_witness :
  0 <= _combine_scores rules_only 0.8 0.9 <= 1.
Proof.
  apply (_combine_scores_range rules_only 0.8 0.9);
    try discriminate; split; discriminate.
Defined.

End EnsembleFactsWitnesses.

Section EnsembleVerdictFacts.

Import Schemas Ensemble Scenarios.

Variable fromisoformat : string -> option Py.parsed_datetime.

(** X4. Without a fitted ML model, and with a rule weight that is
    non-negative and below the suspicion threshold (0.3 and 0.6 by default),
    [predict_single] reports an ML score of 0 and never flags an expense as
    suspicious, whatever the rules find. *)
Theorem never_suspicious_without_fitted_model (self : Ensemble.t) (utcnow : Py.datetime)
    (expense : ExpenseIn.t) (features : gmap string Py.value) (feature_vector : list Q)
    (historical_data : option (list RuleEngine.Hist)) :
  without_fitted_model self ->
  0 <= rule_weight self ->
  rule_weight self < suspicion_threshold self ->
  exists verdict,
    predict_single fromisoformat self utcnow expense features feature_vector
                   historical_data = inr verdict
    /\ lookup_key verdict "ml_score" = Some (VFloat 0)
    /\ lookup_key verdict "is_suspicious" = Some (VBool false).
Proof.
  intros Hmodel Hw Hthr. unfold predict_single, predict_single_try.
  assert (Hml : match ml_model self with
                | Some model =>
                    if is_fitted model
                    then Py.bind (predict_proba model feature_vector)
                           (fun ml_proba =>
                              Py.bind (explain_prediction model feature_vector 0)
                                (fun ml_explanation =>
                                   Py.ret (match ml_proba with p :: _ => p | [] => 0 end,
                                           ml_explanation)))
                    else Py.ret (0, [])
                | None => Py.ret (0, [])
                end = inr (0, [])).
  { unfold without_fitted_model in Hmodel.
    destruct (ml_model self) as [model|]; [rewrite Hmodel|]; reflexivity. }
  rewrite Hml. simpl.
  eexists. split; [reflexivity|]. split; [reflexivity|].
  unfold lookup_key. simpl. do 2 f_equal.
  apply Qle_bool_false. unfold _combine_scores. simpl.
  pose proof (_calculate_rule_score_le_1
                (RuleEngine.check_rules fromisoformat (rule_engine self) utcnow expense
                                        features historical_data)) as Hrs.
  set (rs := _calculate_rule_score _) in *.
  assert (rule_weight self * rs <= rule_weight self) by nra.
  lra.
Qed.








End EnsembleVerdictFacts.

Section EnsembleVerdictWitnesses.

Import Schemas Ensemble Scenarios.

(** X4 at the rules-only ensemble and a shared meal. *)
Lemma never_suspicious_without_fitted_model_witness :
  without_fitted_model rules_only
  /\ exists verdict,
       predict_single no_timestamps rules_only (Py.hours 12) shared_meal ∅ [] None
       = inr verdict
       /\ lookup_key verdict "ml_score" = Some (VFloat 0)
       /\ lookup_key verdict "is_suspicious" = Some (VBool false).
Proof.
  split; [exact I|].
  apply (never_suspicious_without_fitted_model no_timestamps rules_only (Py.hours 12)
           shared_meal ∅ [] None); [exact I | discriminate | reflexivity].
Defined.


End EnsembleVerdictWitnesses.

Section RuleChecksFacts.

Import Schemas RuleEngine Scenarios.

Variable fromisoformat : string -> option Py.parsed_datetime.

Lemma existsb_eqb_In (x : string) (xs : list string) :
  existsb (String.eqb x) xs = true <-> In x xs.
Proof.
  rewrite existsb_exists. split.
  - intros (y & Hin & Heq). apply String.eqb_eq in Heq. subst. exact Hin.
  - intros Hin. exists x. split; [exact Hin | apply String.eqb_refl].
Qed.

Lemma set_size_le_length (xs : list string) :
  (Py.set_size String.eqb xs <= length xs)%nat.
Proof.
  induction xs as [|x xs IH]; simpl; [lia|].
  destruct (existsb _ xs); lia.
Qed.

(** [len(set(xs)) == len(xs)] exactly when [xs] has no repetition. *)
Lemma set_size_NoDup (xs : list string) :
  Py.set_size String.eqb xs = length xs <-> List.NoDup xs.
Proof.
  induction xs as [|x xs IH]; simpl.
  - split; [constructor | reflexivity].
  - destruct (existsb _ xs) eqn:E.
    + split.
      * pose proof (set_size_le_length xs). lia.
      * intros H. inversion H; subst. apply existsb_eqb_In in E. contradiction.
    + split.
      * intros H. constructor.
        -- intros Hin. apply existsb_eqb_In in Hin. congruence.
        -- apply IH. lia.
      * intros H. inversion H; subst. f_equal. apply IH. assumption.
Qed.

Lemma In_if_singleton (b : bool) (x y : string) :
  In x (if b then [y] else []) <-> b = true /\ y = x.
Proof. destruct b; simpl; split; intros H; try tauto; destruct H; discriminate. Qed.

Lemma _check_participant_mismatch_names (expense : ExpenseIn.t) :
  map RuleViolation.rule_name (_check_participant_mismatch expense)
  = (if Py.Qltb 0.01
          (Py.abs_ (Py.sum (map ParticipantInfo.amount (ExpenseIn.participants expense))
                    - ExpenseIn.amount expense))
     then ["amount_mismatch"%string] else [])
    ++ (if negb (length (map ParticipantInfo.user_id (ExpenseIn.participants expense))
                 =? Py.set_size String.eqb
                      (map ParticipantInfo.user_id (ExpenseIn.participants expense)))%nat
        then ["duplicate_participants"%string] else []).
Proof.
  unfold _check_participant_mismatch.
  destruct (Py.Qltb 0.01 _); destruct (negb _); reflexivity.
Qed.

(** X6. [_check_participant_mismatch] reports [duplicate_participants]
    exactly when some user id occurs more than once among the participants,
    and [amount_mismatch] exactly when the shares differ from the total by
    more than 0.01. *)
Theorem _check_participant_mismatch_exact (expense : ExpenseIn.t) :
  let names := map RuleViolation.rule_name (_check_participant_mismatch expense) in
  (In "duplicate_participants"%string names
   <-> ~ List.NoDup (map ParticipantInfo.user_id (ExpenseIn.participants expense)))
  /\ (In "amount_mismatch"%string names
      <-> 0.01 < Py.abs_ (Py.sum (map ParticipantInfo.amount (ExpenseIn.participants expense))
                          - ExpenseIn.amount expense)).
Proof.
  cbv zeta. rewrite _check_participant_mismatch_names.
  set (ids := map ParticipantInfo.user_id _).
  set (gap := Py.abs_ _).
  pose proof (set_size_NoDup ids) as Hdup.
  rewrite !in_app_iff, !In_if_singleton, negb_true_iff, Nat.eqb_neq, Qltb_true.
  split; split.
  - intros [[_ H]|[H _]]; [discriminate|]. intros Hnodup. apply Hdup in Hnodup. congruence.
  - intros H. right. split; [|reflexivity]. intros Heq. apply H, Hdup. congruence.
  - intros [[H _]|[_ H]]; [exact H | discriminate].
  - intros H. left. split; [exact H | reflexivity].
Qed.

Lemma _check_time_patterns_names (utcnow : Py.datetime) (expense : ExpenseIn.t)
    (expense_time : Py.parsed_datetime) :
  fromisoformat (Py.replace_Z (ExpenseIn.timestamp expense)) = Some expense_time ->
  map RuleViolation.rule_name (_check_time_patterns fromisoformat utcnow expense)
  = (if ((2 <=? Py.hour (Py.wall expense_time)) && (Py.hour (Py.wall expense_time) <=? 5))%Z
     then ["unusual_time"%string] else [])
    ++ (if match Py.utcoffset expense_time with
           | None => (utcnow + Py.hours 1 <? Py.wall expense_time)%Z
           | Some _ => false
           end
        then ["future_timestamp"%string] else []).
Proof.
  intros Hparse. unfold _check_time_patterns, parse_timestamp. rewrite Hparse.
  unfold Py.ret, Py.dt_gt, Py.naive, Py.raise.
  destruct expense_time as [wall [off|]]; simpl Py.utcoffset; simpl Py.wall;
    destruct (_ && _)%bool; try destruct (_ <? _)%Z; reflexivity.
Qed.

(** X7. [_check_time_patterns] compares the expense time with the naive
    reading of [utcnow]: for a time stamp that carries a UTC offset (such as
    one ending in Z) the comparison fails and [future_timestamp] is never
    reported, however far ahead the time stamp lies; for a naive time stamp it
    is reported exactly when the stamp is more than one hour ahead.  The
    [unusual_time] violation is reported exactly for the hours 2 to 5. *)
Theorem _check_time_patterns_exact (utcnow : Py.datetime) (expense : ExpenseIn.t)
    (expense_time : Py.parsed_datetime) :
  fromisoformat (Py.replace_Z (ExpenseIn.timestamp expense)) = Some expense_time ->
  let names :=
    map RuleViolation.rule_name (_check_time_patterns fromisoformat utcnow expense) in
  (is_Some (Py.utcoffset expense_time) -> ~ In "future_timestamp"%string names)
  /\ (Py.utcoffset expense_time = None ->
      (In "future_timestamp"%string names
       <-> (utcnow + Py.hours 1 < Py.wall expense_time)%Z))
  /\ (In "unusual_time"%string names
      <-> (2 <= Py.hour (Py.wall expense_time) <= 5)%Z).
Proof.
  intros Hparse. cbv zeta. rewrite (_check_time_patterns_names utcnow expense _ Hparse).
  rewrite !in_app_iff, !In_if_singleton, andb_true_iff, !Z.leb_le.
  split; [|split].
  - intros [off Hoff]. rewrite Hoff. intros [[_ H]|[H _]]; discriminate.
  - intros Hnaive. rewrite Hnaive, Z.ltb_lt. split.
    + intros [[_ H]|[H _]]; [discriminate | exact H].
    + intros H. right. split; [exact H | reflexivity].
  - split.
    + intros [[H _]|[_ H]]; [exact H | discriminate].
    + intros H. left. split; [exact H | reflexivity].
Qed.

End RuleChecksFacts.

Section RuleChecksWitnesses.

Import Schemas RuleEngine Scenarios.

(** X7 at a shared meal stamped 18:30 UTC, checked at noon. *)
Lemma _check_time_patterns_exact_witness :
  ~ In "future_timestamp"%string
       (map RuleViolation.rule_name (_check_time_patterns iso_evening (Py.hours 12) shared_meal))
  /\ ~ In "unusual_time"%string
         (map RuleViolation.rule_name (_check_time_patterns iso_evening (Py.hours 12) shared_meal)).
Proof.
  destruct (_check_time_patterns_exact iso_evening (Py.hours 12) shared_meal
              (Py.mkParsed (Py.hours 18 + Py.minutes 30)%Z (Some 0%Z)) eq_refl)
    as (Haware & _ & Hhour).
  split.
  - apply Haware. simpl. eauto.
  - intros H. apply Hhour in H. vm_compute in H. destruct H as [_ H]. apply H. reflexivity.
Defined.

End RuleChecksWitnesses.

(** ** The schema *)

Section SchemaFacts.

Import Schemas Scenarios.

Variable fromisoformat : string -> option Py.parsed_datetime.

(** Once a field has failed, the construction fails. *)
Lemma validate_fields_keeps_errors (fields : list field_check)
    (values : gmap string field_value) (errors : list (string * Py.exn)) :
  errors <> [] -> snd (validate_fields fields values errors) <> [].
Proof.
  revert values errors.
  induction fields as [|[name check] rest IH]; intros values errors Hne; simpl; [exact Hne|].
  destruct (check values); apply IH; [|exact Hne].
  destruct errors; [congruence | discriminate].
Qed.

Lemma ParticipantInfo_list_inv (raws : list RawParticipant) (ps : list ParticipantInfo.t) :
  ParticipantInfo_list raws = inr ps ->
  Forall valid_participant raws /\ length ps = length raws.
Proof.
  revert ps. induction raws as [|r raws IH]; intros ps H; simpl in H.
  - injection H as <-. split; [constructor | reflexivity].
  - unfold ParticipantInfo_new in H.
    destruct (raw_user_id r) as [u|] eqn:Eu; [|discriminate].
    destruct (raw_p_amount r) as [a|] eqn:Ea; [|discriminate].
    destruct (Py.Qltb 0 a) eqn:Epos; simpl in H; [|discriminate].
    destruct (ParticipantInfo_list raws) as [e|ps'] eqn:Eps; simpl in H; [discriminate|].
    injection H as <-. destruct (IH ps' eq_refl) as [Hall Hlen].
    split; [|simpl; congruence].
    constructor; [|exact Hall]. exists u, a. apply Qltb_true in Epos. auto.
Qed.

Lemma validate_fields_cons (name : string)
    (check : gmap string field_value -> Py.result field_value) (rest : list field_check)
    (values : gmap string field_value) (errors : list (string * Py.exn)) :
  validate_fields ((name, check) :: rest) values errors
  = match check values with
    | inr v => validate_fields rest (<[name := v]> values) errors
    | inl e => validate_fields rest values (errors ++ [(name, e)])
    end.
Proof. reflexivity. Qed.

Ltac field_failed H :=
  exfalso;
  match type of H with
  | context [validate_fields ?fs ?vs ?es] =>
      let Hkeep := fresh "Hkeep" in
      assert (Hkeep : snd (validate_fields fs vs es) <> [])
        by (apply validate_fields_keeps_errors; simpl; discriminate);
      destruct (validate_fields fs vs es) as [? [|? ?]];
      [simpl in Hkeep; congruence | discriminate H]
  end.

Ltac next_field H := rewrite validate_fields_cons in H; cbv beta in H.

(** X8. The constructor of [ExpenseIn] accepts its arguments exactly when
    they are structurally valid: ids, currency and time stamp present and
    well-formed, an amount in (0, 1000000], and a non-empty list of
    participants with ids and positive amounts; the sum of the participant
    amounts plays no part. *)
Theorem ExpenseIn_new_accepts_exactly (raw : RawExpense) :
  (exists expense, ExpenseIn_new fromisoformat raw = inr expense)
  <-> structurally_valid fromisoformat raw.
Proof.
  split; [|intros H; destruct (ExpenseIn_new_accepts fromisoformat raw H) as (e & He & _); eauto].
  intros [expense H]. unfold ExpenseIn_new, ExpenseIn_fields in H.
  unfold structurally_valid. unfold required_str, Py.ret, Py.raise in H.
  next_field H. destruct (raw_expense_id raw) as [eid|]; [|field_failed H].
  next_field H. destruct (raw_group_id raw) as [gid|]; [|field_failed H].
  next_field H. destruct (raw_payer_id raw) as [pid|]; [|field_failed H].
  next_field H. destruct (raw_participants raw) as [raws|]; [|field_failed H].
  destruct (ParticipantInfo_list raws) as [e|ps] eqn:Eps; cbn [Py.bind] in H;
    [field_failed H|].
  destruct (length ps <? 1)%nat eqn:Elen; [field_failed H|].
  rewrite validate_participants_amount_skipped in H. cbn [Py.bind] in H.
  next_field H. destruct (raw_amount raw) as [a|]; [|field_failed H].
  destruct (Py.Qltb 0 a && Qle_bool a 1000000)%bool eqn:Eamount; [|field_failed H].
  next_field H. destruct (raw_currency raw) as [c|]; [|field_failed H].
  destruct (String.length c =? 3)%nat eqn:Eclen; [|field_failed H].
  unfold validate_currency, Py.ret, Py.raise in H.
  destruct (Py.isupper c) eqn:Eupper; cbn [negb Py.bind] in H; [|field_failed H].
  next_field H. next_field H.
  next_field H. destruct (raw_timestamp raw) as [t|]; [|field_failed H].
  unfold validate_timestamp, Py.ret, Py.raise in H.
  destruct (fromisoformat (Py.replace_Z t)) as [dt|] eqn:Edt;
    cbn [Py.bind] in H; [|field_failed H].
  apply ParticipantInfo_list_inv in Eps. destruct Eps as [Hvalid Hlenps].
  apply Nat.ltb_ge in Elen. apply andb_true_iff in Eamount. destruct Eamount as [Hpos Hmax].
  apply Qltb_true in Hpos. apply Qle_bool_iff in Hmax. apply Nat.eqb_eq in Eclen.
  repeat split; eauto.
  exists raws. repeat split; [|exact Hvalid]. intros ->. simpl in Hlenps. lia.
Qed.

End SchemaFacts.

(** ** The real-time engine: buffers, windows, alerts and statistics *)

Section EngineBuffers.

Import RealTimeRisk Scenarios.

Variable np_std : list Q -> Q.

Lemma deque_append_bounded {A} (maxlen : nat) (d : list A) (x : A) :
  (0 < maxlen)%nat -> (length (deque_append maxlen d x) <= maxlen)%nat.
Proof.
  intros Hpos. unfold deque_append. rewrite length_drop, length_app. simpl. lia.
Qed.

Lemma popleft_while_length {A} (p : A -> bool) (d : list A) :
  (length (popleft_while p d) <= length d)%nat.
Proof.
  induction d as [|x d IH]; simpl; [lia|]. destruct (p x); simpl; lia.
Qed.

(** The state left by the velocity and the coordination analyses. *)
Lemma _analyze_velocity_state (self : Engine) (user : string) (amount : Q)
    (now : Py.datetime) :
  snd (_analyze_velocity self user amount now)
  = set_user_velocities self
      (<[user := popleft_while (fun e => (fst e <? now - monitoring_window self)%Z)
                   (deque_append 100 (default [] (user_velocities self !! user))
                                 (now, amount))]>
         (user_velocities self)).
Proof.
  unfold _analyze_velocity.
  destruct (popleft_while _ _) as [|[t0 a0] [|e rest]]; try reflexivity.
  destruct (Qeq_bool _ 0); reflexivity.
Qed.

Lemma _analyze_group_coordination_state (self : Engine) (group : string)
    (expense_data : ExpenseData) (now : Py.datetime) :
  snd (_analyze_group_coordination self group expense_data now)
  = set_group_activities self
      (<[group := popleft_while (fun e => (fst e <? now - monitoring_window self)%Z)
                    (deque_append 200 (default [] (group_activities self !! group))
                                  (now, expense_data))]>
         (group_activities self)).
Proof.
  unfold _analyze_group_coordination.
  destruct (length _ <? 2)%nat; [reflexivity|].
  destruct (_ && _)%bool; [reflexivity|].
  destruct (_ && _)%bool; [reflexivity|].
  destruct (_ && _)%bool; reflexivity.
Qed.

(** The state left by a scoring call. *)
Lemma analyze_real_time_risk_state (clock : nat -> Py.datetime) (self : Engine)
    (expense_data : ExpenseData) :
  let now := clock 0%nat in
  let user := get (ed_user_id expense_data) "unknown"%string in
  let group := get (ed_group_id expense_data) "unknown"%string in
  let self' := snd (analyze_real_time_risk np_std clock self expense_data) in
  monitoring_window self' = monitoring_window self
  /\ user_velocities self'
     = <[user := popleft_while (fun e => (fst e <? now - monitoring_window self)%Z)
                   (deque_append 100 (default [] (user_velocities self !! user))
                                 (now, get (ed_amount expense_data) 0))]>
         (user_velocities self)
  /\ group_activities self'
     = <[group := popleft_while (fun e => (fst e <? now - monitoring_window self)%Z)
                    (deque_append 200 (default [] (group_activities self !! group))
                                  (now, expense_data))]>
         (group_activities self)
  /\ exists event,
       recent_events self' = deque_append (100 * 100) (recent_events self) event
       /\ RealTimeRisk.user_id event = user /\ RealTimeRisk.group_id event = group
       /\ timestamp event = now.
Proof.
  cbv zeta. unfold analyze_real_time_risk.
  pose proof (_analyze_velocity_state self (get (ed_user_id expense_data) "unknown"%string)
                (get (ed_amount expense_data) 0) (clock 0%nat)) as Hv.
  destruct (_analyze_velocity _ _ _ _) as [v self1]. simpl in Hv. subst self1.
  match goal with
  | |- context [_analyze_group_coordination ?s ?g ?e ?t] =>
      pose proof (_analyze_group_coordination_state s g e t) as Hc;
      destruct (_analyze_group_coordination s g e t) as [c self2]
  end.
  simpl in Hc. subst self2. simpl.
  split; [reflexivity|]. split; [reflexivity|]. split; [reflexivity|].
  eexists. split; [reflexivity|]. simpl. auto.
Qed.

(** X9. The buffers never outgrow their capacities: a fresh engine is
    within them, and a scoring call leaves at most 10000 recent events, at
    most 100 transactions per user and at most 200 activities per group when
    it found the engine so. *)
Theorem buffers_stay_bounded (clock : nat -> Py.datetime) (self : Engine)
    (expense_data : ExpenseData) :
  (forall m, bounded_engine (__init__ m))
  /\ (bounded_engine self ->
      bounded_engine (snd (analyze_real_time_risk np_std clock self expense_data))).
Proof.
  split.
  - intros m. unfold bounded_engine. simpl. split; [lia|].
    split; intros k l H; rewrite lookup_empty in H; discriminate.
  - intros (Hev & Huser & Hgroup).
    destruct (analyze_real_time_risk_state clock self expense_data)
      as (_ & Hu & Hg & event & He & _).
    unfold bounded_engine. rewrite Hu, Hg, He. split; [|split].
    + apply deque_append_bounded. lia.
    + intros user txs Hl.
      destruct (decide (get (ed_user_id expense_data) "unknown"%string = user)) as [<-|Hne].
      * rewrite lookup_insert_eq in Hl. injection Hl as <-.
        etransitivity; [apply popleft_while_length|]. apply deque_append_bounded. lia.
      * rewrite lookup_insert_ne in Hl by assumption. eauto.
    + intros group acts Hl.
      destruct (decide (get (ed_group_id expense_data) "unknown"%string = group)) as [<-|Hne].
      * rewrite lookup_insert_eq in Hl. injection Hl as <-.
        etransitivity; [apply popleft_while_length|]. apply deque_append_bounded. lia.
      * rewrite lookup_insert_ne in Hl by assumption. eauto.
Qed.

End EngineBuffers.

Section EngineBuffersWitnesses.

Import RealTimeRisk Scenarios.

(** X9 at an engine whose three buffers are full: after one more dinner of
    user [u1] in group [g1] they hold 10000, 100 and 200 entries still, the
    oldest entry of each having made room for the new one. *)
Lemma buffers_stay_bounded_witness :
  bounded_engine full_engine
  /\ bounded_engine (snd (analyze_real_time_risk std_unused at_noon full_engine dinner))
  /\ length (recent_events full_engine) = (100 * 100)%nat
  /\ (length <$> user_velocities full_engine !! "u1"%string) = Some 100%nat
  /\ (length <$> group_activities full_engine !! "g1"%string) = Some 200%nat
  /\ (length <$> user_velocities
                   (snd (analyze_real_time_risk std_unused at_noon full_engine dinner))
                 !! "u1"%string) = Some 100%nat
  /\ (length <$> group_activities
                   (snd (analyze_real_time_risk std_unused at_noon full_engine dinner))
                 !! "g1"%string) = Some 200%nat.
Proof.
  assert (Hfull : bounded_engine full_engine).
  { unfold bounded_engine, full_engine. cbn [recent_events user_velocities group_activities].
    split; [rewrite length_replicate; lia|]. split.
    - intros user txs Hl. apply lookup_singleton_Some in Hl. destruct Hl as [_ <-].
      rewrite length_replicate. lia.
    - intros group acts Hl. apply lookup_singleton_Some in Hl. destruct Hl as [_ <-].
      rewrite length_replicate. lia. }
  split; [exact Hfull|]. split.
  - destruct (buffers_stay_bounded std_unused at_noon full_engine dinner) as [_ Hstep].
    apply Hstep, Hfull.
  - destruct (analyze_real_time_risk_state std_unused at_noon full_engine dinner)
      as (_ & -> & -> & _).
    rewrite !lookup_insert_eq.
    unfold full_engine. cbn [recent_events user_velocities group_activities].
    rewrite length_replicate, !lookup_singleton_eq. cbn [fmap option_fmap option_map].
    rewrite !length_replicate. repeat split; vm_compute; reflexivity.
Defined.

End EngineBuffersWitnesses.

Section EngineWindows.

Import RealTimeRisk Scenarios.

Variable np_std : list Q -> Q.

Lemma nondecreasing_tail (a : Py.datetime) (ts : list Py.datetime) :
  nondecreasing (a :: ts) -> nondecreasing ts.
Proof. destruct ts; simpl; tauto. Qed.

Lemma nondecreasing_from_head (a : Py.datetime) (ts : list Py.datetime) :
  nondecreasing (a :: ts) -> Forall (fun t => (a <= t)%Z) ts.
Proof.
  revert a. induction ts as [|b ts IH]; intros a H; [constructor|].
  destruct H as [Hab Hrest]. constructor; [exact Hab|].
  eapply Forall_impl; [apply IH, Hrest|]. simpl. intros t Ht. lia.
Qed.

Lemma nondecreasing_snoc (ts : list Py.datetime) (now : Py.datetime) :
  ordered_upto now ts -> nondecreasing (ts ++ [now]).
Proof.
  intros [Hnd Hle]. induction ts as [|a ts IH]; [exact I|].
  inversion Hle as [|? ? Ha Hts]; subst.
  destruct ts as [|b ts]; [simpl; split; [exact Ha | exact I]|].
  destruct Hnd as [Hab Hrest]. simpl. split; [exact Hab|]. apply IH; assumption.
Qed.

Lemma nondecreasing_drop (n : nat) (ts : list Py.datetime) :
  nondecreasing ts -> nondecreasing (drop n ts).
Proof.
  revert ts. induction n as [|n IH]; intros ts H; [rewrite drop_0; exact H|].
  destruct ts as [|a ts]; [exact I|]. simpl. apply IH. eapply nondecreasing_tail, H.
Qed.

Lemma ordered_upto_refresh {A} (maxlen : nat) (cutoff now : Py.datetime)
    (d : list (Py.datetime * A)) (x : A) :
  ordered_upto now (map fst d) ->
  let d' := popleft_while (fun e => (fst e <? cutoff)%Z) (deque_append maxlen d (now, x)) in
  ordered_upto now (map fst d')
  /\ Forall (fun t => (cutoff <= t <= now)%Z) (map fst d').
Proof.
  intros Hord. cbv zeta.
  assert (Happ : ordered_upto now (map fst (deque_append maxlen d (now, x)))).
  { unfold deque_append. rewrite <- skipn_map, map_app. simpl. split.
    - apply nondecreasing_drop, nondecreasing_snoc, Hord.
    - apply Forall_drop_keep, Forall_app. split; [apply Hord|].
      constructor; [lia | constructor]. }
  generalize dependent (deque_append maxlen d (now, x)). clear Hord d.
  intros d Hord. induction d as [|[t a] d IH]; simpl.
  - split; [exact Hord | constructor].
  - destruct (t <? cutoff)%Z eqn:E.
    + apply IH. destruct Hord as [Hnd Hle]. split.
      * eapply nondecreasing_tail, Hnd.
      * inversion Hle; assumption.
    + split; [exact Hord|]. apply Z.ltb_ge in E. destruct Hord as [Hnd Hle].
      simpl in *. inversion Hle as [|? ? Ht Hrest]; subst.
      constructor; [lia|].
      pose proof (nondecreasing_from_head t (map fst d) Hnd) as Hfrom.
      apply Forall_and; split; [|exact Hrest].
      eapply Forall_impl; [exact Hfrom|]. simpl. intros; lia.
Qed.

Lemma ordered_upto_later (t t' : Py.datetime) (ts : list Py.datetime) :
  (t <= t')%Z -> ordered_upto t ts -> ordered_upto t' ts.
Proof.
  intros Hle [Hnd Hall]. split; [exact Hnd|].
  eapply Forall_impl; [exact Hall|]. simpl. intros; lia.
Qed.

(** X10. Eviction on access: when the buffers are in arrival order and hold
    nothing stamped later than the clock reading, a scoring call leaves them
    so, and the buffers of the user and of the group of the scored event then
    hold only entries of the monitoring window that ends at that reading.
    The buffers of every other user and group are left exactly as they were,
    stale entries included.  The order survives any later reading of the
    clock. *)
Theorem windows_are_evicted_on_access (clock : nat -> Py.datetime) (self : Engine)
    (expense_data : ExpenseData) :
  ordered_engine (clock 0%nat) self ->
  let now := clock 0%nat in
  let self' := snd (analyze_real_time_risk np_std clock self expense_data) in
  ordered_engine now self'
  /\ (forall later, (now <= later)%Z -> ordered_engine later self')
  /\ (exists txs,
        user_velocities self' !! get (ed_user_id expense_data) "unknown"%string = Some txs
        /\ within_window self now (map fst txs))
  /\ (exists acts,
        group_activities self' !! get (ed_group_id expense_data) "unknown"%string = Some acts
        /\ within_window self now (map fst acts))
  /\ (forall other, other <> get (ed_user_id expense_data) "unknown"%string ->
        user_velocities self' !! other = user_velocities self !! other)
  /\ (forall other, other <> get (ed_group_id expense_data) "unknown"%string ->
        group_activities self' !! other = group_activities self !! other).
Proof.
  intros [Huser Hgroup]. cbv zeta.
  destruct (analyze_real_time_risk_state np_std clock self expense_data)
    as (_ & Hu & Hg & _).
  set (user := get (ed_user_id expense_data) "unknown"%string) in *.
  set (group := get (ed_group_id expense_data) "unknown"%string) in *.
  assert (Hu0 : ordered_upto (clock 0%nat)
                  (map fst (default [] (user_velocities self !! user)))).
  { destruct (user_velocities self !! user) as [txs|] eqn:E; simpl.
    - eapply Huser, E.
    - split; [exact I | constructor]. }
  assert (Hg0 : ordered_upto (clock 0%nat)
                  (map fst (default [] (group_activities self !! group)))).
  { destruct (group_activities self !! group) as [acts|] eqn:E; simpl.
    - eapply Hgroup, E.
    - split; [exact I | constructor]. }
  pose proof (ordered_upto_refresh 100 (clock 0%nat - monitoring_window self)%Z (clock 0%nat)
                _ (get (ed_amount expense_data) 0) Hu0) as [Hu1 Hu2].
  pose proof (ordered_upto_refresh 200 (clock 0%nat - monitoring_window self)%Z (clock 0%nat)
                _ expense_data Hg0) as [Hg1 Hg2].
  assert (Hord : ordered_engine (clock 0%nat)
                   (snd (analyze_real_time_risk np_std clock self expense_data))).
  { split.
    - intros u txs Hl. rewrite Hu in Hl.
      destruct (decide (user = u)) as [<-|Hne].
      + rewrite lookup_insert_eq in Hl. injection Hl as <-. exact Hu1.
      + rewrite lookup_insert_ne in Hl by assumption. eauto.
    - intros g acts Hl. rewrite Hg in Hl.
      destruct (decide (group = g)) as [<-|Hne].
      + rewrite lookup_insert_eq in Hl. injection Hl as <-. exact Hg1.
      + rewrite lookup_insert_ne in Hl by assumption. eauto. }
  split; [exact Hord|]. split; [|split; [|split; [|split]]].
  - intros later Hlater. destruct Hord as [H1 H2].
    split; intros k l Hl; eapply ordered_upto_later; eauto.
  - eexists. rewrite Hu, lookup_insert_eq. split; [reflexivity | exact Hu2].
  - eexists. rewrite Hg, lookup_insert_eq. split; [reflexivity | exact Hg2].
  - intros other Hne. rewrite Hu. apply lookup_insert_ne. congruence.
  - intros other Hne. rewrite Hg. apply lookup_insert_ne. congruence.
Qed.

End EngineWindows.

Section EngineWindowsWitnesses.

Import RealTimeRisk Scenarios.

(** X10 two hours after the two lunches, when user [u1] submits another
    expense in a group of her own: her noon transaction is evicted and
    her buffer holds the new one only, within the window ending at 14:00;
    the buffer of user [u2] and the one of group [g1] are not touched and
    keep their entries of 12:01 and noon, by then outside the window. *)
Lemma windows_are_evicted_on_access_witness :
  ordered_engine (Py.hours 14) after_two_lunches
  /\ ordered_engine (Py.hours 14) u1_returns
  /\ user_velocities after_two_lunches !! "u1"%string = Some [(Py.hours 12, 10.5)]
  /\ (exists txs,
        user_velocities u1_returns !! "u1"%string = Some txs
        /\ within_window after_two_lunches (Py.hours 14) (map fst txs))
  /\ user_velocities u1_returns !! "u1"%string = Some [(Py.hours 14, 30.5)]
  /\ user_velocities u1_returns !! "u2"%string
     = user_velocities after_two_lunches !! "u2"%string
  /\ user_velocities after_two_lunches !! "u2"%string
     = Some [((Py.hours 12 + Py.minutes 1)%Z, 20.5)]
  /\ group_activities u1_returns !! "g1"%string
     = group_activities after_two_lunches !! "g1"%string.
Proof.
  assert (H0 : ordered_engine (at_noon 0%nat) (__init__ 60)).
  { split; intros k l Hl; simpl in Hl; rewrite lookup_empty in Hl; discriminate. }
  destruct (windows_are_evicted_on_access std_unused at_noon (__init__ 60)
              (lunch "u1" 10.5) H0) as (_ & Hlater1 & _).
  assert (H1 : ordered_engine (Py.hours 12 + Py.minutes 1)%Z
                 (snd (analyze_real_time_risk std_unused at_noon (__init__ 60)
                         (lunch "u1" 10.5)))).
  { apply Hlater1. vm_compute. discriminate. }
  destruct (windows_are_evicted_on_access std_unused
              (fun _ => Py.hours 12 + Py.minutes 1)%Z _ (lunch "u2" 20.5) H1)
    as (_ & Hlater2 & _).
  assert (H2 : ordered_engine (Py.hours 14) after_two_lunches).
  { apply Hlater2. vm_compute. discriminate. }
  destruct (windows_are_evicted_on_access std_unused at_2pm after_two_lunches
              (solo_lunch "u1" 30.5) H2) as (Hord & _ & Hu & _ & Hother_u & Hother_g).
  split; [exact H2|]. split; [exact Hord|].
  split; [vm_compute; reflexivity|]. split; [exact Hu|].
  split; [vm_compute; reflexivity|].
  split; [apply Hother_u; discriminate|].
  split; [vm_compute; reflexivity|].
  apply Hother_g. discriminate.
Defined.

End EngineWindowsWitnesses.

Section EngineStatistics.

Import RealTimeRisk Scenarios.

Lemma set_size_pos (xs : list string) :
  xs <> [] -> (1 <= Py.set_size String.eqb xs)%nat.
Proof.
  induction xs as [|x xs IH]; [congruence|]. intros _. simpl.
  destruct (existsb _ xs) eqn:E; [|lia].
  apply IH. intros ->. discriminate.
Qed.

(** The three bands of [get_real_time_stats] split any list of events. *)
Lemma risk_bands_partition (events : list RiskEvent) :
  length events
  = (length (filter (fun e => Py.Qltb 0.7 (risk_score e) = true) events)
     + length (filter (fun e => Qle_bool 0.4 (risk_score e)
                                && Qle_bool (risk_score e) 0.7 = true) events)
     + length (filter (fun e => Py.Qltb (risk_score e) 0.4 = true) events))%nat.
Proof.
  induction events as [|e events IH]; [reflexivity|].
  rewrite !filter_cons.
  destruct (Py.Qltb 0.7 (risk_score e)) eqn:Eh;
    destruct (Qle_bool 0.4 (risk_score e)) eqn:Em1;
    destruct (Qle_bool (risk_score e) 0.7) eqn:Em2;
    destruct (Py.Qltb (risk_score e) 0.4) eqn:El;
    q_tests; try lra;
    repeat (destruct (decide _) as [?|?]; try congruence; try (exfalso; auto; fail));
    simpl; lia.
Qed.

(** X11. The statistics of the monitoring window: either no stored event is
    recent, every counter is zero and the keys of the medium and low bands
    and of the window length are absent; or the high (above 0.7), medium
    (0.4 to 0.7) and low (below 0.4) bands add up to the number of recent
    events, and between one and that many users and groups are active. *)
Theorem real_time_stats_partition (self : Engine) (current_time : Py.datetime) :
  let stats := get_real_time_stats self current_time in
  match medium_risk_events stats, low_risk_events stats with
  | Some medium, Some low =>
      total_events stats = (stats_high_risk_events stats + medium + low)%nat
      /\ (1 <= active_users stats <= total_events stats)%nat
      /\ (1 <= active_groups stats <= total_events stats)%nat
      /\ (total_events stats <= length (recent_events self))%nat
      /\ stats_monitoring_window_minutes stats <> None
  | None, None =>
      total_events stats = 0%nat /\ stats_high_risk_events stats = 0%nat
      /\ active_users stats = 0%nat /\ active_groups stats = 0%nat
      /\ avg_risk_score stats = 0
      /\ stats_monitoring_window_minutes stats = None
      /\ Forall (fun e => (timestamp e <= current_time - monitoring_window self)%Z)
                (recent_events self)
  | _, _ => False
  end.
Proof.
  cbv zeta. unfold get_real_time_stats.
  set (recent := filter _ (recent_events self)).
  destruct recent as [|e recent'] eqn:E.
  - simpl. repeat split.
    apply Forall_forall. intros ev Hin.
    destruct (decide (current_time - monitoring_window self < timestamp ev)%Z) as [Hlt|]; [|lia].
    assert (Hin' : ev ∈ filter (fun e => (current_time - monitoring_window self < timestamp e)%Z)
                               (recent_events self)).
    { apply list_elem_of_filter. split; [exact Hlt | exact Hin]. }
    fold recent in Hin'. rewrite E in Hin'. inversion Hin'.
  - rewrite <- E. cbn [medium_risk_events low_risk_events total_events
                       stats_high_risk_events active_users active_groups
                       stats_monitoring_window_minutes].
    assert (Hne : recent <> []) by (rewrite E; discriminate).
    split; [apply risk_bands_partition|].
    split; [split|split; [split|split]].
    + apply set_size_pos. destruct recent; [congruence | discriminate].
    + etransitivity; [apply set_size_le_length | rewrite length_map; reflexivity].
    + apply set_size_pos. destruct recent; [congruence | discriminate].
    + etransitivity; [apply set_size_le_length | rewrite length_map; reflexivity].
    + apply length_filter.
    + discriminate.
Qed.

End EngineStatistics.

Section EngineAlerts.

Import RealTimeRisk Scenarios.

Variable np_std : list Q -> Q.

(** When no key of the scores is a key of [risk_thresholds], the alerts are
    the scores from 0.6 up, in order, stamped by consecutive clock readings. *)
Lemma _generate_alerts_from_complete (now : nat -> Py.datetime) (k : nat)
    (items : list (string * Q)) (expense_data : ExpenseData) :
  Forall (fun kv => risk_thresholds !! fst kv = None) items ->
  let alerts := _generate_alerts_from now k items expense_data in
  map (fun a => (alert_type a, alert_score a)) alerts
  = List.filter (fun kv => Qle_bool 0.6 (snd kv)) items
  /\ map alert_timestamp alerts = map now (seq k (length alerts)).
Proof.
  cbv zeta. revert k. induction items as [|[risk_type score] rest IH]; intros k Hkeys.
  - split; reflexivity.
  - inversion Hkeys as [|? ? Hkey Hrest]; subst. simpl in Hkey.
    cbn [_generate_alerts_from List.filter snd]. rewrite Hkey. cbn [default].
    destruct (Qle_bool 0.6 score) eqn:E.
    + destruct (IH (S k) Hrest) as [H1 H2]. cbn [map length seq alert_type alert_score
                                                  alert_timestamp].
      rewrite H1, H2. split; reflexivity.
    + apply IH, Hrest.
Qed.

(** X12. The alerts of a scoring call are exactly the entries of its
    [risk_scores], the overall risk included, whose score is at least 0.6, in
    the order of the scores; the severity is HIGH from 0.8 and MEDIUM below;
    the i-th alert is stamped by the i-th clock reading after the one taken
    on entry. The thresholds of [risk_thresholds] play no part. *)
Theorem alerts_are_the_scores_from_0_6 (clock : nat -> Py.datetime) (self : Engine)
    (expense_data : ExpenseData) :
  let r := fst (analyze_real_time_risk np_std clock self expense_data) in
  map (fun a => (alert_type a, alert_score a)) (alerts r)
  = List.filter (fun kv => Qle_bool 0.6 (snd kv)) (risk_scores r)
  /\ map alert_timestamp (alerts r) = map clock (seq 1 (length (alerts r)))
  /\ Forall (fun a =>
               alert_severity a
               = (if Qle_bool 0.8 (alert_score a) then "HIGH" else "MEDIUM")%string)
            (alerts r).
Proof.
  cbv zeta.
  destruct (analyze_risk_scores np_std clock self expense_data)
    as (v & c & a & Hscores & _ & Halerts & _).
  cbv zeta in Hscores, Halerts. rewrite Hscores, Halerts. unfold _generate_alerts.
  match goal with
  | |- context [_generate_alerts_from ?now 0 ?items expense_data] =>
      destruct (_generate_alerts_from_complete now 0 items expense_data) as [H1 H2];
        [repeat constructor|]
  end.
  split; [exact H1|]. split.
  - rewrite H2. rewrite <- seq_shift, map_map. reflexivity.
  - apply Forall_forall. intros al Hin.
    apply list_elem_of_In, _generate_alerts_from_sound in Hin. apply Hin.
Qed.

Lemma analyze_recommendations (clock : nat -> Py.datetime) (self : Engine)
    (expense_data : ExpenseData) :
  let r := fst (analyze_real_time_risk np_std clock self expense_data) in
  recommendations r = _generate_recommendations (risk_scores r).
Proof.
  cbv zeta. unfold analyze_real_time_risk.
  destruct (_analyze_velocity _ _ _ _) as [v self1].
  destruct (_analyze_group_coordination _ _ _ _) as [c self2].
  reflexivity.
Qed.

(** X13. A scoring call always gives at least one recommendation, and never
    either of the two recommendations attached to the pattern signal: that
    signal is at most 0.3 and the advice asks for more than 0.6. *)
Theorem pattern_advice_is_never_given (clock : nat -> Py.datetime) (self : Engine)
    (expense_data : ExpenseData) :
  let r := fst (analyze_real_time_risk np_std clock self expense_data) in
  recommendations r <> []
  /\ ~ In "Flag for manual review due to suspicious patterns"%string (recommendations r)
  /\ ~ In "Verify transaction authenticity with user"%string (recommendations r).
Proof.
  cbv zeta. rewrite analyze_recommendations.
  destruct (analyze_risk_scores np_std clock self expense_data)
    as (v & c & a & Hscores & _).
  cbv zeta in Hscores. rewrite Hscores. unfold _generate_recommendations.
  change (scores_get _ "pattern_risk") with (_analyze_patterns expense_data).
  pose proof (_analyze_patterns_range expense_data) as [_ Hp].
  assert (Hpat : Py.Qltb 0.6 (_analyze_patterns expense_data) = false).
  { apply Qltb_false. lra. }
  rewrite Hpat.
  destruct (Py.Qltb 0.6 (scores_get _ "velocity_risk"));
    destruct (Py.Qltb 0.7 (scores_get _ "coordination_risk"));
    destruct (Py.Qltb 0.6 (scores_get _ "anomaly_risk"));
    (split; [discriminate|]); split; simpl; intuition discriminate.
Qed.

(** X14. The first event of a user and of a group: with no buffered
    transaction of the user, no buffered activity of the group and no stored
    event of the user, the velocity and coordination signals are 0.1 and the
    anomaly signal is 0.3, so the overall risk is at most 0.4 and the level
    is neither HIGH nor CRITICAL. *)
Theorem first_sighting_baseline (clock : nat -> Py.datetime) (self : Engine)
    (expense_data : ExpenseData) :
  let user := get (ed_user_id expense_data) "unknown"%string in
  let group := get (ed_group_id expense_data) "unknown"%string in
  user_velocities self !! user = None ->
  group_activities self !! group = None ->
  Forall (fun e => RealTimeRisk.user_id e <> user) (recent_events self) ->
  let r := fst (analyze_real_time_risk np_std clock self expense_data) in
  scores_get (risk_scores r) "velocity_risk" = 0.1
  /\ scores_get (risk_scores r) "coordination_risk" = 0.1
  /\ scores_get (risk_scores r) "anomaly_risk" = 0.3
  /\ scores_get (risk_scores r) "overall_realtime_risk" <= 0.4
  /\ risk_level r <> "HIGH"%string /\ risk_level r <> "CRITICAL"%string.
Proof.
  cbv zeta. intros Hu Hg Hev.
  pose proof (_analyze_patterns_range expense_data) as [_ Hp].
  pose proof (_analyze_temporal_patterns_range expense_data (clock 0%nat)) as [_ Ht].
  pose proof (_analyze_amount_suspicion_values (get (ed_amount expense_data) 0)) as Hs.
  assert (Hs' : _analyze_amount_suspicion (get (ed_amount expense_data) 0) <= 0.6).
  { simpl in Hs. destruct Hs as [<-|[<-|[<-|[<-|[<-|[]]]]]]; discriminate. }
  clear Hs.
  unfold analyze_real_time_risk.
  assert (Hv : fst (_analyze_velocity self (get (ed_user_id expense_data) "unknown"%string)
                      (get (ed_amount expense_data) 0) (clock 0%nat)) = 0.1).
  { unfold _analyze_velocity. rewrite Hu. cbn [default deque_append app length Nat.sub drop].
    cbn [popleft_while fst]. destruct (_ <? _)%Z; reflexivity. }
  pose proof (_analyze_velocity_state self (get (ed_user_id expense_data) "unknown"%string)
                (get (ed_amount expense_data) 0) (clock 0%nat)) as Hself1.
  destruct (_analyze_velocity _ _ _ _) as [v self1]. simpl in Hv, Hself1. subst v.
  assert (Hre1 : recent_events self1 = recent_events self) by (rewrite Hself1; reflexivity).
  assert (Hga1 : group_activities self1 = group_activities self)
    by (rewrite Hself1; reflexivity).
  clear Hself1.
  assert (Hc : fst (_analyze_group_coordination self1
                      (get (ed_group_id expense_data) "unknown"%string) expense_data
                      (clock 0%nat)) = 0.1).
  { unfold _analyze_group_coordination. rewrite Hga1, Hg.
    cbn [default deque_append app length Nat.sub drop].
    cbn [popleft_while fst]. destruct (_ <? _)%Z; reflexivity. }
  pose proof (_analyze_group_coordination_state self1
                (get (ed_group_id expense_data) "unknown"%string) expense_data
                (clock 0%nat)) as Hself2.
  destruct (_analyze_group_coordination _ _ _ _) as [c self2]. simpl in Hc, Hself2. subst c.
  assert (Hre2 : recent_events self2 = recent_events self1) by (rewrite Hself2; reflexivity).
  clear Hself2.
  assert (Ha : _detect_anomalies np_std self2
                 (get (ed_user_id expense_data) "unknown"%string) expense_data = 0.3).
  { unfold _detect_anomalies. rewrite Hre2, Hre1.
    assert (Hnone : filter (fun event => RealTimeRisk.user_id event
                                         = get (ed_user_id expense_data) "unknown"%string)
                           (recent_events self) = []).
    { clear -Hev. induction (recent_events self) as [|e es IH]; [reflexivity|].
      inversion Hev; subst. rewrite filter_cons. destruct (decide _); [contradiction|].
      apply IH. assumption. }
    rewrite Hnone. reflexivity. }
  cbn [fst risk_scores risk_level]. rewrite Ha.
  set (p := _analyze_patterns expense_data) in *.
  set (tm := _analyze_temporal_patterns expense_data (clock 0%nat)) in *.
  set (s := _analyze_amount_suspicion (get (ed_amount expense_data) 0)) in *.
  assert (Hmean : Py.mean [0.1; p; 0.1; 0.3; tm; s] <= 0.4).
  { rewrite mean_six. apply Qle_shift_div_r; [reflexivity|]. lra. }
  split; [reflexivity|]. split; [reflexivity|]. split; [reflexivity|].
  split; [exact Hmean|].
  cbn [map snd]. unfold _categorize_risk.
  destruct (Qle_bool 0.8 _) eqn:E1; [q_tests; lra|].
  destruct (Qle_bool 0.6 _) eqn:E2; [q_tests; lra|].
  destruct (Qle_bool 0.4 _); [split; discriminate|].
  destruct (Qle_bool 0.2 _); split; discriminate.
Qed.

End EngineAlerts.

Section EngineAlertsWitnesses.

Import RealTimeRisk Scenarios.

(** X14 at a dinner scored by a fresh engine. *)
Lemma first_sighting_baseline_witness :
  scores_get (risk_scores (fst (analyze_real_time_risk std_unused at_noon (__init__ 60) dinner)))
             "overall_realtime_risk" <= 0.4.
Proof.
  assert (Hfresh : Forall (fun e => RealTimeRisk.user_id e <> "u1"%string)
                          (recent_events (__init__ 60))) by constructor.
  destruct (first_sighting_baseline std_unused at_noon (__init__ 60) dinner
              eq_refl eq_refl Hfresh) as (_ & _ & _ & Hoverall & _).
  exact Hoverall.
Defined.

End EngineAlertsWitnesses.

Section ProfileFacts.

Import Behavioral Scenarios.

Variable fromisoformat : string -> option Py.parsed_datetime.

Lemma max_ge_l (a b : Q) : a <= Py.max_ a b.
Proof. unfold Py.max_. destruct (Py.Qltb a b) eqn:E; q_tests; lra. Qed.

Lemma max_ge_r (a b : Q) : b <= Py.max_ a b.
Proof. unfold Py.max_. destruct (Py.Qltb a b) eqn:E; q_tests; lra. Qed.

Lemma max_lub (c a b : Q) : a <= c -> b <= c -> Py.max_ a b <= c.
Proof. intros Ha Hb. unfold Py.max_. destruct (Py.Qltb a b); assumption. Qed.

Lemma mem_In (x : string) (xs : list string) : Py.mem x xs = true <-> In x xs.
Proof.
  unfold Py.mem. rewrite existsb_exists. split.
  - intros (y & Hin & Heq). apply String.eqb_eq in Heq. subst. exact Hin.
  - intros Hin. exists x. split; [exact Hin | apply String.eqb_refl].
Qed.

Lemma append_bounded_length {A} (n : nat) (xs : list A) (x : A) :
  (length xs <= n)%nat -> (length (append_bounded n xs x) <= n)%nat.
Proof.
  intros H. unfold append_bounded.
  destruct (n <? length (xs ++ [x]))%nat eqn:E.
  - rewrite length_drop. lia.
  - apply Nat.ltb_ge in E. exact E.
Qed.

Lemma append_bounded_NoDup (n : nat) (xs : list string) (x : string) :
  NoDup xs -> Py.mem x xs = false -> NoDup (append_bounded n xs x).
Proof.
  intros Hnd Hmem.
  assert (Happ : NoDup (xs ++ [x])).
  { apply NoDup_app. split; [exact Hnd|]. split.
    - intros y Hy Hx. apply list_elem_of_singleton in Hx. subst y.
      apply list_elem_of_In, mem_In in Hy. congruence.
    - apply NoDup_singleton. }
  unfold append_bounded. destruct (n <? _)%nat; [|exact Happ].
  eapply sublist_NoDup; [exact Happ | apply sublist_drop].
Qed.

Lemma append_if_new_NoDup (n : nat) (xs : list string) (x : string) :
  NoDup xs ->
  NoDup (if negb (Py.mem x xs) then append_bounded n xs x else xs).
Proof.
  intros Hnd. destruct (Py.mem x xs) eqn:E; [exact Hnd|].
  apply append_bounded_NoDup; assumption.
Qed.

Lemma append_if_new_length (n : nat) (xs : list string) (x : string) :
  (length xs <= n)%nat ->
  (length (if negb (Py.mem x xs) then append_bounded n xs x else xs) <= n)%nat.
Proof.
  intros H. destruct (Py.mem x xs); [exact H|]. apply append_bounded_length, H.
Qed.

Lemma wf_UserProfile_new (user : string) (now : Py.datetime) :
  wf_user_profile (UserProfile_new user now).
Proof.
  unfold wf_user_profile. simpl.
  repeat split; try lia; try lra; try discriminate; constructor.
Qed.

Lemma wf_GroupProfile_new (group : string) (now : Py.datetime) :
  wf_group_profile (GroupProfile_new group now).
Proof.
  unfold wf_group_profile. simpl.
  repeat split; try lia; try lra; try discriminate; constructor.
Qed.

Lemma update_user_profile_wf (p : UserProfile) (expense_data : ExpenseData)
    (is_fraud : bool) (now1 now2 : Py.datetime) :
  0 <= get (ed_amount expense_data) 0 ->
  wf_user_profile p ->
  wf_user_profile (update_user_profile fromisoformat p expense_data is_fraud now1 now2).
Proof.
  intros Hamount (Hn & Havg & [Hr0 Hr1] & Hfav & Htimes & Hloc & Hnd1 & Hnd2 & Hnd3).
  unfold wf_user_profile, update_user_profile.
  cbn [total_expenses avg_amount risk_score favorite_categories usual_times
       frequent_locations preferred_payment_methods].
  split; [lia|]. split; [|split; [|split; [|split; [|split; [|split; [|split]]]]]].
  - replace (total_expenses p + 1 - 1)%Z with (total_expenses p) by lia.
    assert (H0 : 0 <= inject_Z (total_expenses p)).
    { change 0 with (inject_Z 0). rewrite <- Zle_Qle. exact Hn. }
    assert (H1 : 0 < inject_Z (total_expenses p + 1)).
    { change 0 with (inject_Z 0). rewrite <- Zlt_Qlt. lia. }
    apply Qle_shift_div_l; [exact H1|]. nra.
  - destruct is_fraud.
    + split; [apply min_glb; lra | apply min_le_l].
    + split; [apply max_ge_l | apply max_lub; lra].
  - apply append_if_new_length, Hfav.
  - destruct (expense_hour _ _ _); [apply append_bounded_length|]; exact Htimes.
  - apply append_if_new_length, Hloc.
  - apply append_if_new_NoDup, Hnd1.
  - apply append_if_new_NoDup, Hnd2.
  - destruct (Py.mem _ (preferred_payment_methods p)) eqn:E; [exact Hnd3|].
    cbn [negb]. apply NoDup_app. split; [exact Hnd3|]. split.
    + intros y Hy Hx. apply list_elem_of_singleton in Hx. subst y.
      apply list_elem_of_In, mem_In in Hy. congruence.
    + apply NoDup_singleton.
Qed.

Lemma update_group_profile_wf (g : GroupProfile) (expense_data : ExpenseData)
    (is_fraud : bool) :
  0 <= get (ed_amount expense_data) 0 ->
  wf_group_profile g ->
  wf_group_profile (update_group_profile g expense_data is_fraud).
Proof.
  intros Hamount (Havg & [Ht0 Ht1] & Hinc & Hcat & Hnd).
  unfold wf_group_profile.
  pose proof (group_profile_half_sum g expense_data is_fraud) as Hhalf.
  split; [rewrite Hhalf; apply Qle_shift_div_l; [reflexivity | lra]|].
  unfold update_group_profile.
  destruct is_fraud; cbn [trust_score risk_incidents common_categories].
  - split; [split; [apply max_ge_l | apply max_lub; lra]|].
    split; [lia|]. split; [apply append_if_new_length, Hcat | apply append_if_new_NoDup, Hnd].
  - split; [split; [apply min_glb; lra | apply min_le_l]|].
    split; [lia|]. split; [apply append_if_new_length, Hcat | apply append_if_new_NoDup, Hnd].
Qed.

(** The profiles an analysis works with, and the state it leaves. *)
Lemma analyze_expense_state (now : nat -> Py.datetime) (self : Analyzer)
    (expense_data : ExpenseData) :
  let user := get (ed_user_id expense_data) "unknown"%string in
  let group := get (ed_group_id expense_data) "unknown"%string in
  exists (t t' : Py.datetime),
    snd (analyze_expense fromisoformat now self expense_data)
    = mkAnalyzer
        (<[user := default (UserProfile_new user t) (user_profiles self !! user)]>
           (user_profiles self))
        (<[group := default (GroupProfile_new group t') (group_profiles self !! group)]>
           (group_profiles self)).
Proof.
  cbv zeta. unfold analyze_expense.
  destruct (user_profiles self !! _) as [p|];
    destruct (group_profiles self !! _) as [g|]; simpl;
    first [ exists (now 0%nat), (now 0%nat); reflexivity
          | exists (now 0%nat), (now 1%nat); reflexivity ].
Qed.

(** X15. The round of the API keeps every profile within its bounds: when
    the amount of the event is not negative and every stored profile has a
    count and an average that are not negative, a risk or trust score in the
    unit interval, and at most 5 categories, 20 hours and 10 locations without
    repeated category or location, the same holds after the analysis, which
    creates the missing profiles, and after the update that follows it. *)
Theorem record_event_keeps_profiles_bounded (now : nat -> Py.datetime) (self : Analyzer)
    (expense_data : ExpenseData) (is_fraud : bool) :
  0 <= get (ed_amount expense_data) 0 ->
  wf_analyzer self ->
  wf_analyzer (snd (analyze_expense fromisoformat now self expense_data))
  /\ wf_analyzer (update_profiles fromisoformat now self expense_data is_fraud)
  /\ wf_analyzer (record_event fromisoformat now self expense_data is_fraud).
Proof.
  intros Hamount Hwf.
  assert (Hanalyze : wf_analyzer (snd (analyze_expense fromisoformat now self expense_data))).
  { destruct Hwf as [Hu Hg].
    destruct (analyze_expense_state now self expense_data) as (t & t' & ->).
    split; cbn [user_profiles group_profiles]; intros k p Hl.
    - destruct (decide (get (ed_user_id expense_data) "unknown"%string = k)) as [<-|Hne].
      + rewrite lookup_insert_eq in Hl. injection Hl as <-.
        destruct (user_profiles self !! _) eqn:E; simpl; [eauto | apply wf_UserProfile_new].
      + rewrite lookup_insert_ne in Hl by assumption. eauto.
    - destruct (decide (get (ed_group_id expense_data) "unknown"%string = k)) as [<-|Hne].
      + rewrite lookup_insert_eq in Hl. injection Hl as <-.
        destruct (group_profiles self !! _) eqn:E; simpl; [eauto | apply wf_GroupProfile_new].
      + rewrite lookup_insert_ne in Hl by assumption. eauto. }
  assert (Hupdate : forall self0, wf_analyzer self0 ->
            wf_analyzer (update_profiles fromisoformat now self0 expense_data is_fraud)).
  { clear Hwf Hanalyze self. intros self [Hu Hg]. unfold update_profiles.
    split; cbn [user_profiles group_profiles]; intros k p Hl.
    - destruct (user_profiles self !! get (ed_user_id expense_data) "unknown"%string)
        as [p0|] eqn:E; [|eauto].
      destruct (decide (get (ed_user_id expense_data) "unknown"%string = k)) as [<-|Hne].
      + rewrite lookup_insert_eq in Hl. injection Hl as <-.
        apply update_user_profile_wf; eauto.
      + rewrite lookup_insert_ne in Hl by assumption. eauto.
    - destruct (group_profiles self !! get (ed_group_id expense_data) "unknown"%string)
        as [g0|] eqn:E; [|eauto].
      destruct (decide (get (ed_group_id expense_data) "unknown"%string = k)) as [<-|Hne].
      + rewrite lookup_insert_eq in Hl. injection Hl as <-.
        apply update_group_profile_wf; eauto.
      + rewrite lookup_insert_ne in Hl by assumption. eauto. }
  split; [exact Hanalyze|]. split; [apply Hupdate, Hwf|].
  unfold record_event. apply Hupdate, Hanalyze.
Qed.

Lemma sum_unit_bounds (xs : list Q) :
  Forall (fun x => 0 <= x <= 1) xs -> 0 <= Py.sum xs <= Py.of_nat (length xs).
Proof.
  induction xs as [|a xs IH] using rev_ind; intros H.
  - split; discriminate.
  - apply Forall_app in H. destruct H as [Hxs Ha]. inversion Ha as [|? ? Ha' _]; subst.
    rewrite sum_snoc, length_app. cbn [length]. unfold Py.of_nat in *.
    rewrite Nat2Z.inj_add, inject_Z_plus. change (inject_Z (Z.of_nat 1)) with 1.
    specialize (IH Hxs). lra.
Qed.

Lemma mean_unit_bounds (xs : list Q) :
  xs <> [] -> Forall (fun x => 0 <= x <= 1) xs -> 0 <= Py.mean xs <= 1.
Proof.
  intros Hne H. pose proof (sum_unit_bounds xs H) as [H0 H1].
  assert (Hpos : 0 < Py.of_nat (length xs)).
  { apply of_nat_pos. destruct xs; [congruence | simpl; lia]. }
  unfold Py.mean. split.
  - apply Qle_shift_div_l; [exact Hpos | lra].
  - apply Qle_shift_div_r; [exact Hpos | lra].
Qed.

Lemma relative_deviation_range (amount avg k : Q) :
  0 <= avg -> Qeq_bool avg 0 = false -> 0 < k ->
  0 <= Py.min_ 1 (Py.abs_ (amount - avg) / avg / k) <= 1.
Proof.
  intros Havg Hne Hk.
  assert (Hpos : 0 < avg).
  { destruct (Qlt_le_dec 0 avg) as [|Hle]; [assumption|].
    assert (Heq : avg == 0) by lra. apply Qeq_bool_iff in Heq. congruence. }
  split; [|apply min_le_l].
  apply min_glb; [discriminate|].
  apply Qle_shift_div_l; [exact Hk|]. apply Qle_shift_div_l; [exact Hpos|].
  pose proof (abs_nonneg (amount - avg)). lra.
Qed.

(** X16. Scored against profiles within their bounds, an analysis returns
    seven behavioural signals followed by the behavioural risk score, which
    is their mean, and each of the eight lies in the unit interval, whatever
    the amount of the event. *)
Theorem behavioral_scores_in_unit_interval (now : nat -> Py.datetime) (self : Analyzer)
    (expense_data : ExpenseData) :
  wf_analyzer self ->
  let scores := fst (analyze_expense fromisoformat now self expense_data) in
  map fst scores
  = ["user_amount_deviation"; "user_category_familiarity"; "user_time_consistency";
     "group_trust_score"; "group_amount_deviation"; "new_user_risk"; "velocity_risk";
     "behavioral_risk_score"]%string
  /\ Forall (fun kv => 0 <= snd kv <= 1) scores
  /\ exists signals,
       scores = signals ++ [("behavioral_risk_score"%string, Py.mean (map snd signals))]
       /\ length signals = 7%nat.
Proof.
  intros [Hu Hg]. cbv zeta. unfold analyze_expense.
  set (user := get (ed_user_id expense_data) "unknown"%string).
  set (group := get (ed_group_id expense_data) "unknown"%string).
  assert (Hp : exists p k, wf_user_profile p
            /\ match user_profiles self !! user with
               | Some p => (p, 0%nat)
               | None => (UserProfile_new user (now 0%nat), 1%nat)
               end = (p, k)).
  { destruct (user_profiles self !! user) eqn:E; eexists _, _; split; try reflexivity;
      [eauto | apply wf_UserProfile_new]. }
  destruct Hp as (p & k & Hwp & ->).
  assert (Hgp : exists g k', wf_group_profile g
            /\ match group_profiles self !! group with
               | Some g => (g, k)
               | None => (GroupProfile_new group (now k), S k)
               end = (g, k')).
  { destruct (group_profiles self !! group) eqn:E; eexists _, _; split; try reflexivity;
      [eauto | apply wf_GroupProfile_new]. }
  destruct Hgp as (g & k' & Hwg & ->).
  cbn [fst]. split; [reflexivity|].
  destruct Hwp as (Hn & Havg & _). destruct Hwg as (Hgavg & [Ht0 Ht1] & _).
  assert (Hseven : Forall (fun x => 0 <= x <= 1)
            [_calculate_amount_deviation p (get (ed_amount expense_data) 0);
             _calculate_category_familiarity p (get (ed_category expense_data) "other"%string);
             _calculate_time_consistency fromisoformat p expense_data (now k');
             1 - trust_score g;
             _calculate_group_amount_deviation g (get (ed_amount expense_data) 0);
             _calculate_new_user_risk p;
             _calculate_velocity_risk p]).
  { repeat match goal with
           | |- Forall _ (_ :: _) => apply List.Forall_cons
           | |- Forall _ [] => apply List.Forall_nil
           end.
    - unfold _calculate_amount_deviation.
      destruct (_ <? 3)%Z; [split; discriminate|].
      destruct (Qeq_bool (avg_amount p) 0) eqn:E; [split; discriminate|].
      apply relative_deviation_range; [assumption | assumption | reflexivity].
    - unfold _calculate_category_familiarity.
      destruct (favorite_categories p); [split; discriminate|].
      destruct (Py.mem _ _); split; discriminate.
    - unfold _calculate_time_consistency.
      destruct (expense_hour _ _ _); [|split; discriminate].
      destruct (usual_times p); [split; discriminate|].
      destruct (existsb _ _); split; discriminate.
    - lra.
    - unfold _calculate_group_amount_deviation.
      destruct (Qeq_bool (avg_expense_amount g) 0) eqn:E; [split; discriminate|].
      apply relative_deviation_range; [assumption | assumption | reflexivity].
    - unfold _calculate_new_user_risk.
      destruct (_ <? 5)%Z; [split; discriminate|].
      destruct (_ <? 20)%Z; split; discriminate.
    - unfold _calculate_velocity_risk. destruct (100 <? _)%Z; split; discriminate. }
  split; [|eexists; split; reflexivity].
  apply Forall_app. split.
  - repeat match goal with
           | H : Forall _ (_ :: _) |- _ => apply Forall_cons in H; destruct H
           end.
    repeat (apply List.Forall_cons; [assumption|]). apply List.Forall_nil.
  - constructor; [|constructor]. cbn [snd map].
    apply mean_unit_bounds; [discriminate | exact Hseven].
Qed.

(** X17. An analysis only adds profiles: every user and group profile
    stored before is stored unchanged after it, the user and the group of the
    event have a profile after it, and analysing the same event again,
    under any clock, leaves the state as the first analysis left it. *)
Theorem analyze_expense_only_adds_profiles (now now' : nat -> Py.datetime)
    (self : Analyzer) (expense_data : ExpenseData) :
  let self' := snd (analyze_expense fromisoformat now self expense_data) in
  (forall k p, user_profiles self !! k = Some p -> user_profiles self' !! k = Some p)
  /\ (forall k g, group_profiles self !! k = Some g -> group_profiles self' !! k = Some g)
  /\ is_Some (user_profiles self' !! get (ed_user_id expense_data) "unknown"%string)
  /\ is_Some (group_profiles self' !! get (ed_group_id expense_data) "unknown"%string)
  /\ snd (analyze_expense fromisoformat now' self' expense_data) = self'.
Proof.
  cbv zeta.
  destruct (analyze_expense_state now self expense_data) as (t & t' & Hstate).
  rewrite Hstate. cbn [user_profiles group_profiles].
  split; [|split; [|split; [|split]]].
  - intros k p Hl.
    destruct (decide (get (ed_user_id expense_data) "unknown"%string = k)) as [<-|Hne].
    + rewrite lookup_insert_eq, Hl. reflexivity.
    + rewrite lookup_insert_ne by assumption. exact Hl.
  - intros k g Hl.
    destruct (decide (get (ed_group_id expense_data) "unknown"%string = k)) as [<-|Hne].
    + rewrite lookup_insert_eq, Hl. reflexivity.
    + rewrite lookup_insert_ne by assumption. exact Hl.
  - rewrite lookup_insert_eq. eexists. reflexivity.
  - rewrite lookup_insert_eq. eexists. reflexivity.
  - match goal with
    | |- snd (analyze_expense _ _ ?s _) = _ =>
        destruct (analyze_expense_state now' s expense_data) as (u & u' & ->)
    end.
    cbn [user_profiles group_profiles]. rewrite !lookup_insert_eq. cbn [default].
    rewrite !insert_insert_eq. reflexivity.
Qed.

(** X18. An update never creates a profile and touches only the profiles
    of the user and of the group of the event: the stored ids are the same
    before and after, every other profile is unchanged, and a stored profile
    of the user has its count raised by one and keeps its id and its group
    memberships. *)
Theorem update_profiles_touches_only_the_event (now : nat -> Py.datetime)
    (self : Analyzer) (expense_data : ExpenseData) (is_fraud : bool) :
  let user := get (ed_user_id expense_data) "unknown"%string in
  let group := get (ed_group_id expense_data) "unknown"%string in
  let self' := update_profiles fromisoformat now self expense_data is_fraud in
  (forall k, user_profiles self' !! k = None <-> user_profiles self !! k = None)
  /\ (forall k, group_profiles self' !! k = None <-> group_profiles self !! k = None)
  /\ (forall k, k <> user -> user_profiles self' !! k = user_profiles self !! k)
  /\ (forall k, k <> group -> group_profiles self' !! k = group_profiles self !! k)
  /\ (forall p, user_profiles self !! user = Some p ->
        exists p', user_profiles self' !! user = Some p'
                   /\ total_expenses p' = (total_expenses p + 1)%Z
                   /\ user_id p' = user_id p
                   /\ group_memberships p' = group_memberships p
                   /\ last_updated p' = now 1%nat).
Proof.
  cbv zeta. unfold update_profiles. cbn [user_profiles group_profiles].
  split; [|split; [|split; [|split]]].
  - intros k. destruct (user_profiles self !! get (ed_user_id expense_data) _) eqn:E;
      [|reflexivity].
    destruct (decide (get (ed_user_id expense_data) "unknown"%string = k)) as [<-|Hne].
    + rewrite lookup_insert_eq, E. split; discriminate.
    + rewrite lookup_insert_ne by assumption. reflexivity.
  - intros k. destruct (group_profiles self !! get (ed_group_id expense_data) _) eqn:E;
      [|reflexivity].
    destruct (decide (get (ed_group_id expense_data) "unknown"%string = k)) as [<-|Hne].
    + rewrite lookup_insert_eq, E. split; discriminate.
    + rewrite lookup_insert_ne by assumption. reflexivity.
  - intros k Hne. destruct (user_profiles self !! get (ed_user_id expense_data) _);
      [|reflexivity].
    rewrite lookup_insert_ne by congruence. reflexivity.
  - intros k Hne. destruct (group_profiles self !! get (ed_group_id expense_data) _);
      [|reflexivity].
    rewrite lookup_insert_ne by congruence. reflexivity.
  - intros p ->. eexists. rewrite lookup_insert_eq. split; [reflexivity|].
    repeat split.
Qed.

(** The profile of the user of an event after the round of the API. *)
Lemma record_event_user (now : nat -> Py.datetime) (self : Analyzer)
    (expense_data : ExpenseData) (is_fraud : bool) :
  let user := get (ed_user_id expense_data) "unknown"%string in
  exists t,
    user_profiles (record_event fromisoformat now self expense_data is_fraud) !! user
    = Some (update_user_profile fromisoformat
              (default (UserProfile_new user t) (user_profiles self !! user))
              expense_data is_fraud (now 0%nat) (now 1%nat)).
Proof.
  cbv zeta. unfold record_event.
  destruct (analyze_expense_state now self expense_data) as (t & t' & ->).
  exists t. unfold update_profiles. cbn [user_profiles group_profiles].
  rewrite lookup_insert_eq. rewrite lookup_insert_eq. reflexivity.
Qed.

Lemma running_mean_step (p : UserProfile) (expense_data : ExpenseData) (is_fraud : bool)
    (t1 t2 : Py.datetime) (n : nat) (total : Q) :
  total_expenses p = Z.of_nat n ->
  avg_amount p * Py.of_nat n == total ->
  let p' := update_user_profile fromisoformat p expense_data is_fraud t1 t2 in
  total_expenses p' = Z.of_nat (n + 1)
  /\ avg_amount p' * Py.of_nat (n + 1) == total + get (ed_amount expense_data) 0.
Proof.
  intros Hn Havg. cbv zeta. unfold update_user_profile. cbn [total_expenses avg_amount].
  rewrite Hn. split; [lia|].
  rewrite <- Havg. unfold Py.of_nat.
  replace (Z.of_nat (n + 1)) with (Z.of_nat n + 1)%Z by lia.
  replace (Z.of_nat n + 1 - 1)%Z with (Z.of_nat n) by lia.
  assert (Hpos : ~ inject_Z (Z.of_nat n + 1) == 0).
  { intros H. unfold Qeq in H. simpl in H. lia. }
  field. exact Hpos.
Qed.

(** X19. The user profile keeps the exact running mean through the rounds
    of the API: starting from an analyzer without profile for a user, after
    any non-empty sequence of rounds for events of that user, each under its
    own clock and fraud feedback, the profile of the user counts the events
    and its average amount is the mean of their amounts. *)
Theorem user_average_is_the_mean_of_the_rounds (self : Analyzer) (user : string)
    (calls : list ((nat -> Py.datetime) * ExpenseData * bool)) :
  user_profiles self !! user = None ->
  Forall (fun call => get (ed_user_id (snd (fst call))) "unknown"%string = user) calls ->
  calls <> [] ->
  exists p,
    user_profiles (record_events fromisoformat self calls) !! user = Some p
    /\ total_expenses p = Z.of_nat (length calls)
    /\ avg_amount p == Py.mean (observed_amounts (map (fun call => snd (fst call)) calls)).
Proof.
  intros Hnone Hcalls Hne.
  assert (Hinv : match calls with
                 | [] => user_profiles (record_events fromisoformat self calls) !! user = None
                 | _ => exists p,
                     user_profiles (record_events fromisoformat self calls) !! user = Some p
                     /\ total_expenses p = Z.of_nat (length calls)
                     /\ avg_amount p * Py.of_nat (length calls)
                        == Py.sum (observed_amounts (map (fun call => snd (fst call)) calls))
                 end).
  { clear Hne. induction calls as [|[[now e] f] calls IH] using rev_ind; [exact Hnone|].
    apply Forall_app in Hcalls. destruct Hcalls as [Hcalls Hlast].
    apply Forall_cons in Hlast. destruct Hlast as [Huser _]. cbn [fst snd] in Huser.
    specialize (IH Hcalls).
    assert (Hgoal : exists p,
              user_profiles (record_events fromisoformat self (calls ++ [(now, e, f)])) !! user
              = Some p
              /\ total_expenses p = Z.of_nat (length (calls ++ [(now, e, f)]))
              /\ avg_amount p * Py.of_nat (length (calls ++ [(now, e, f)]))
                 == Py.sum (observed_amounts
                              (map (fun call => snd (fst call)) (calls ++ [(now, e, f)])))).
    { unfold record_events in *. rewrite fold_left_app. cbn [fold_left fst snd].
      set (self1 := fold_left _ calls self) in *.
      destruct (record_event_user now self1 e f) as (t & Hrec). cbv zeta in Hrec.
      rewrite Huser in Hrec. rewrite Hrec. eexists. split; [reflexivity|].
      unfold observed_amounts in *. rewrite !map_app, length_app. cbn [map length fst snd].
      rewrite sum_snoc.
      destruct calls as [|c cs].
      - rewrite IH. cbn [default app length map].
        apply (running_mean_step (UserProfile_new user t) e f (now 0%nat) (now 1%nat) 0 0);
          reflexivity.
      - destruct IH as (p & -> & Hn & Havg). cbn [default].
        apply running_mean_step; assumption. }
    destruct calls; exact Hgoal. }
  destruct calls as [|c cs]; [congruence|].
  destruct Hinv as (p & Hl & Hn & Havg). exists p. split; [exact Hl|]. split; [exact Hn|].
  unfold Py.mean. unfold observed_amounts at 2. rewrite !length_map, <- Havg.
  assert (Hpos : 0 < Py.of_nat (length (c :: cs))).
  { apply of_nat_pos. simpl. lia. }
  field. lra.
Qed.

End ProfileFacts.

Section ProfileFactsWitnesses.

Import Behavioral Scenarios.

(** X15 at the second payment of [alice], recorded by the analyzer that
    holds her profile and that of her group since the first payment. *)
Lemma record_event_keeps_profiles_bounded_witness :
  wf_analyzer after_first_payment
  /\ (total_expenses <$> user_profiles after_first_payment !! "alice"%string) = Some 1%Z
  /\ is_Some (group_profiles after_first_payment !! "flat"%string)
  /\ wf_analyzer after_second_payment
  /\ (total_expenses <$> user_profiles after_second_payment !! "alice"%string) = Some 2%Z.
Proof.
  assert (Hempty : wf_analyzer (mkAnalyzer ∅ ∅)).
  { split; intros k p Hl; simpl in Hl; rewrite lookup_empty in Hl; discriminate. }
  assert (Hfirst : 0 <= get (ed_amount (payment 100)) 0) by (simpl; lra).
  assert (Hsecond : 0 <= get (ed_amount (payment 200)) 0) by (simpl; lra).
  destruct (record_event_keeps_profiles_bounded no_timestamps at_noon (mkAnalyzer ∅ ∅)
              (payment 100) false Hfirst Hempty) as (_ & _ & H1).
  destruct (record_event_keeps_profiles_bounded no_timestamps at_noon after_first_payment
              (payment 200) false Hsecond H1) as (_ & _ & H2).
  split; [exact H1|]. split; [vm_compute; reflexivity|].
  split; [vm_compute; eauto|]. split; [exact H2|]. vm_compute. reflexivity.
Defined.

Lemma settled_analyzer_wf : wf_analyzer settled_analyzer.
Proof.
  split; intros k p Hl; cbn [settled_analyzer user_profiles group_profiles] in Hl;
    apply lookup_singleton_Some in Hl; destruct Hl as [_ <-].
  - unfold wf_user_profile. simpl.
    split; [lia|]. split; [discriminate|]. split; [split; discriminate|].
    split; [lia|]. split; [lia|]. split; [lia|].
    split; [apply NoDup_singleton|]. split; constructor.
  - unfold wf_group_profile. simpl.
    split; [discriminate|]. split; [split; discriminate|].
    split; [lia|]. split; [lia | apply NoDup_singleton].
Qed.

(** X16 at a payment of 450 by [alice], whose stored average is 150 over
    four expenses: the signals are computed from her profile and that of her
    group, and the amount deviation, three times the average, is capped
    at 1. *)
Lemma behavioral_scores_in_unit_interval_witness :
  wf_analyzer settled_analyzer
  /\ (total_expenses <$> user_profiles settled_analyzer !! "alice"%string) = Some 4%Z
  /\ (snd <$> head (fst (analyze_expense no_timestamps at_noon settled_analyzer
                           (payment 450)))) = Some 1
  /\ Forall (fun kv => 0 <= snd kv <= 1)
            (fst (analyze_expense no_timestamps at_noon settled_analyzer (payment 450)))
  /\ exists signals,
       fst (analyze_expense no_timestamps at_noon settled_analyzer (payment 450))
       = signals ++ [("behavioral_risk_score"%string, Py.mean (map snd signals))]
       /\ length signals = 7%nat.
Proof.
  pose proof settled_analyzer_wf as Hwf.
  destruct (behavioral_scores_in_unit_interval no_timestamps at_noon settled_analyzer
              (payment 450) Hwf) as (_ & Hrange & Hmean).
  split; [exact Hwf|]. split; [vm_compute; reflexivity|].
  split; [vm_compute; reflexivity|]. split; [exact Hrange | exact Hmean].
Defined.

(** X19 at the payments of 100 and 200 by [alice]. *)
Lemma user_average_is_the_mean_of_the_rounds_witness :
  exists p,
    user_profiles (record_events no_timestamps (mkAnalyzer ∅ ∅)
                     [(at_noon, payment 100, false); (at_noon, payment 200, false)])
      !! "alice"%string = Some p
    /\ total_expenses p = 2%Z
    /\ avg_amount p == Py.mean [100; 200].
Proof.
  apply (user_average_is_the_mean_of_the_rounds no_timestamps (mkAnalyzer ∅ ∅) "alice"
           [(at_noon, payment 100, false); (at_noon, payment 200, false)]).
  - reflexivity.
  - repeat constructor.
  - discriminate.
Defined.

End ProfileFactsWitnesses.

Section DispatcherFacts.

Import Notifications Scenarios.

Variable clock : nat -> Py.datetime.
Variable requests_post : nat -> string -> bool.
Variable smtp_send : nat -> list string -> bool.
Variable _generate_alert_content : string -> Q -> ExpenseData -> string * string.

Ltac run_sender :=
  unfold _send_webhook, _send_email, _send_slack, _store_in_app_notification,
         bind, get_sys, get_ticks, now, ret, history_append, put_sys; simpl;
  repeat match goal with
         | |- context [if ?b then _ else _] => destruct b eqn:?; simpl
         | |- context [match ?l with [] => _ | _ :: _ => _ end] => destruct l eqn:?; simpl
         | |- context [match ?s with EmptyString => _ | String _ _ => _ end] =>
             destruct s eqn:?; simpl
         | |- context [match ?o with inl _ => _ | inr _ => _ end] => destruct o eqn:?; simpl
         end.

(** One iteration of the sending loop writes one history entry, for the
    channel of the iteration. *)
Lemma send_on_channel_records (alert : Alert) (rule : NotificationRule)
    (channel : NotificationChannel) (w : World) :
  exists entry,
    extends_history_only w
      (snd (send_on_channel clock requests_post smtp_send alert rule channel w)) [entry]
    /\ h_channel entry = channel
    /\ recorded_for alert rule entry
    /\ (In channel [SMS; IN_APP; DISCORD] -> h_status entry = "sent"%string).
Proof.
  unfold send_on_channel, bind, extends_history_only, recorded_for, marked, history.
  destruct channel; simpl; run_sender;
    (eexists; split; [repeat split; reflexivity|]; simpl;
     split; [reflexivity|]; split;
     [ split; [reflexivity|]; split; [reflexivity|];
       first [ left; split; reflexivity | right; split; [reflexivity | discriminate] ]
     | first [ reflexivity | intros [H|[H|[H|[]]]]; discriminate ] ]).
Qed.

Lemma send_on_channels_records (alert : Alert) (rule : NotificationRule)
    (chans : list NotificationChannel) (w : World) :
  exists entries,
    extends_history_only w
      (snd (send_on_channels clock requests_post smtp_send alert rule chans w)) entries
    /\ map h_channel entries = chans
    /\ Forall (recorded_for alert rule) entries
    /\ Forall (fun h => In (h_channel h) [SMS; IN_APP; DISCORD] -> h_status h = "sent"%string)
              entries.
Proof.
  revert w. induction chans as [|channel rest IH]; intros w.
  - exists []. simpl. unfold extends_history_only. rewrite app_nil_r.
    repeat split; constructor.
  - cbn [send_on_channels]. unfold bind.
    destruct (send_on_channel_records alert rule channel w)
      as (entry & (Hc & Ha & Hr & Hh) & Hchan & Hrec & Hsent).
    destruct (send_on_channel _ _ _ _ _ _ w) as [[] w1]. cbn [snd] in *.
    destruct (IH w1) as (entries & (Hc' & Ha' & Hr' & Hh') & Hchans & Hrecs & Hsents).
    exists (entry :: entries). split; [|split; [|split]].
    + unfold extends_history_only. rewrite Hc', Ha', Hr', Hh', Hc, Ha, Hr, Hh.
      rewrite <- app_assoc. repeat split.
    + simpl. rewrite Hchan, Hchans. reflexivity.
    + constructor; assumption.
    + constructor; [rewrite Hchan; exact Hsent | exact Hsents].
Qed.

(** X20. Sending under a rule writes exactly one history entry per channel
    of the rule, in the order of the channels, whether the sending succeeded
    or raised: each entry names the alert and the rule and is marked sent
    without error or failed with the error; a failure on one channel does not
    stop the later ones. The channels without sender (SMS, Discord) and the
    in-app channel are always marked sent. Nothing else of the system
    changes. *)
Theorem one_history_entry_per_channel (alert : Alert) (rule : NotificationRule)
    (w : World) :
  exists entries,
    extends_history_only w
      (snd (_send_notifications clock requests_post smtp_send alert rule w)) entries
    /\ map h_channel entries = channels rule
    /\ Forall (recorded_for alert rule) entries
    /\ Forall (fun h => In (h_channel h) [SMS; IN_APP; DISCORD] -> h_status h = "sent"%string)
              entries.
Proof. unfold _send_notifications. apply send_on_channels_records. Qed.

Lemma send_on_channel_quiet (alert : Alert) (rule : NotificationRule)
    (channel : NotificationChannel) (w : World) :
  webhook_urls (config (sys w)) = [] ->
  email_recipients (config (sys w)) = [] ->
  slack_webhook_url (config (sys w)) = EmptyString ->
  exists entry,
    extends_history_only w
      (snd (send_on_channel clock requests_post smtp_send alert rule channel w)) [entry]
    /\ h_status entry = "sent"%string.
Proof.
  intros Hweb Hmail Hslack.
  unfold send_on_channel, bind, extends_history_only, history.
  destruct channel; simpl;
    unfold _send_webhook, _send_email, _send_slack, _store_in_app_notification,
           bind, get_sys, get_ticks, now, ret, history_append, put_sys; simpl;
    rewrite ?Hweb, ?Hmail, ?Hslack; simpl;
    repeat match goal with
           | |- context [if ?b then _ else _] => destruct b; simpl
           end;
    (eexists; split; [repeat split; reflexivity | reflexivity]).
Qed.

(** X21. With no webhook URL, no mail recipient and no Slack URL
    configured, as in the default configuration, every notification is
    recorded as sent, one entry per channel of the rule, although no request
    is made, and whatever the state of the network and of the mail server. *)
Theorem unconfigured_channels_are_recorded_as_sent (alert : Alert)
    (rule : NotificationRule) (w : World) :
  webhook_urls (config (sys w)) = [] ->
  email_recipients (config (sys w)) = [] ->
  slack_webhook_url (config (sys w)) = EmptyString ->
  exists entries,
    extends_history_only w
      (snd (_send_notifications clock requests_post smtp_send alert rule w)) entries
    /\ length entries = length (channels rule)
    /\ Forall (fun h => h_status h = "sent"%string) entries.
Proof.
  unfold _send_notifications. generalize (channels rule) as chans.
  intros chans. revert w. induction chans as [|channel rest IH]; intros w Hweb Hmail Hslack.
  - exists []. simpl. unfold extends_history_only. rewrite app_nil_r.
    repeat split; constructor.
  - cbn [send_on_channels]. unfold bind.
    destruct (send_on_channel_quiet alert rule channel w Hweb Hmail Hslack)
      as (entry & (Hc & Ha & Hr & Hh) & Hsent).
    destruct (send_on_channel _ _ _ _ _ _ w) as [[] w1]. cbn [snd] in *.
    destruct (IH w1) as (entries & (Hc' & Ha' & Hr' & Hh') & Hlen & Hsents);
      try (rewrite Hc; assumption).
    exists (entry :: entries). split; [|split].
    + unfold extends_history_only. rewrite Hc', Ha', Hr', Hh', Hc, Ha, Hr, Hh.
      rewrite <- app_assoc. repeat split.
    + simpl. rewrite Hlen. reflexivity.
    + constructor; assumption.
Qed.

Lemma _should_notify_sys (rule : NotificationRule) (w : World) :
  sys (snd (_should_notify clock rule w)) = sys w.
Proof. unfold _should_notify. destruct (last_triggered rule); reflexivity. Qed.

(** One iteration of the loop over the rules. *)
Lemma _process_rule_effect (alert : Alert) (rule : NotificationRule) (w : World) :
  let r := _process_rule clock requests_post smtp_send alert rule w in
  (exists entries, extends_history_only w (snd r) entries /\ Forall marked entries)
  /\ (fst r = rule
      \/ exists t, fst r = set_last_triggered rule t
                   /\ enabled rule = true /\ _matches_rule alert rule = true)
  /\ (enabled rule && _matches_rule alert rule = false -> r = (rule, w)).
Proof.
  cbv zeta. unfold _process_rule.
  destruct (enabled rule); cbn [negb andb];
    [|split; [exists []; unfold extends_history_only; rewrite app_nil_r; auto | auto]].
  destruct (_matches_rule alert rule);
    [|split; [exists []; unfold extends_history_only; rewrite app_nil_r; auto | auto]].
  unfold bind. pose proof (_should_notify_sys rule w) as Hsys.
  destruct (_should_notify clock rule w) as [notify w0]. cbn [snd] in Hsys.
  destruct notify.
  - destruct (send_on_channels_records alert rule (channels rule) w0)
      as (entries & (Hc & Ha & Hr & Hh) & _ & Hrec & _).
    unfold _send_notifications.
    destruct (send_on_channels _ _ _ _ _ _ w0) as [[] w1]. cbn [snd] in *.
    unfold now, ret. cbn [fst snd sys]. unfold history in *.
    split; [|split; [right; eexists; repeat split | discriminate]].
    exists entries. unfold extends_history_only, history. cbn [sys].
    rewrite Hc, Ha, Hr, Hh, Hsys. repeat split.
    eapply Forall_impl; [exact Hrec|]. intros h Hh'. apply Hh'.
  - unfold ret. cbn [fst snd].
    split; [|split; [left; reflexivity | discriminate]].
    exists []. unfold extends_history_only, history. rewrite Hsys, app_nil_r. auto.
Qed.

Lemma process_rules_effect (alert : Alert) (rs : list NotificationRule) (w : World) :
  let r := process_rules clock requests_post smtp_send alert rs w in
  (exists entries, extends_history_only w (snd r) entries /\ Forall marked entries)
  /\ Forall2 (fun rule rule' =>
                rule' = rule
                \/ exists t, rule' = set_last_triggered rule t
                             /\ enabled rule = true /\ _matches_rule alert rule = true)
             rs (fst r)
  /\ (Forall (fun rule => enabled rule && _matches_rule alert rule = false) rs ->
      r = (rs, w)).
Proof.
  cbv zeta. revert w. induction rs as [|rule rest IH]; intros w.
  - simpl. split; [|split; [constructor | reflexivity]].
    exists []. unfold extends_history_only. rewrite app_nil_r. auto.
  - cbn [process_rules]. unfold bind.
    destruct (_process_rule_effect alert rule w)
      as ((e1 & (Hc & Ha & Hr & Hh) & Hm1) & Hrule & Hidle).
    destruct (_process_rule _ _ _ alert rule w) as [rule' w1]. cbn [fst snd] in *.
    destruct (IH w1) as ((e2 & (Hc' & Ha' & Hr' & Hh') & Hm2) & Hrest & Hidle').
    destruct (process_rules _ _ _ alert rest w1) as [rest' w2]. cbn [fst snd ret] in *.
    unfold ret. cbn [fst snd].
    split; [|split].
    + exists (e1 ++ e2). unfold extends_history_only.
      rewrite Hc', Ha', Hr', Hh', Hc, Ha, Hr, Hh, app_assoc.
      repeat split. apply Forall_app. auto.
    + constructor; assumption.
    + intros Hall. apply Forall_cons in Hall. destruct Hall as [H1 H2].
      specialize (Hidle H1). injection Hidle as -> ->.
      specialize (Hidle' H2). injection Hidle' as -> ->. reflexivity.
Qed.

(** The effect of processing one alert. *)
Lemma _process_alert_effect (alert : Alert) (w : World) :
  let w' := snd (_process_alert clock requests_post smtp_send alert w) in
  config (sys w') = config (sys w)
  /\ active_alerts (sys w') = active_alerts (sys w)
  /\ (exists entries, history w' = history w ++ entries /\ Forall marked entries)
  /\ Forall2 (fun rule rule' =>
                rule' = rule
                \/ exists t, rule' = set_last_triggered rule t
                             /\ enabled rule = true /\ _matches_rule alert rule = true)
             (rules (sys w)) (rules (sys w'))
  /\ (Forall (fun rule => enabled rule && _matches_rule alert rule = false) (rules (sys w)) ->
      w' = w).
Proof.
  cbv zeta. unfold _process_alert, bind, get_sys, put_sys. cbn [fst snd].
  destruct (process_rules_effect alert (rules (sys w)) w)
    as ((entries & (Hc & Ha & Hr & Hh) & Hm) & Hrules & Hidle).
  destruct (process_rules _ _ _ alert (rules (sys w)) w) as [rules' w1].
  cbn [fst snd sys config active_alerts rules] in *. unfold history in *. cbn [sys] in *.
  split; [exact Hc|]. split; [exact Ha|]. split; [eauto|]. split; [exact Hrules|].
  intros Hall. specialize (Hidle Hall). injection Hidle as -> ->.
  destruct w as [[c a h r] k]. reflexivity.
Qed.

(** X22. Processing an alert leaves the configuration and the active
    alerts as they are, only appends to the notification history, and leaves
    the rules in place and in order, each as it was or with a new
    [last_triggered] stamp; a rule that changed is enabled and matches the
    alert. When no enabled rule matches the alert, the system is unchanged
    and the clock is not read. *)
Theorem _process_alert_restamps_rules_only (alert : Alert) (w : World) :
  let w' := snd (_process_alert clock requests_post smtp_send alert w) in
  config (sys w') = config (sys w)
  /\ active_alerts (sys w') = active_alerts (sys w)
  /\ (exists entries, history w' = history w ++ entries /\ Forall marked entries)
  /\ Forall2 (fun rule rule' =>
                restamped rule rule'
                /\ (rule' <> rule -> enabled rule = true /\ _matches_rule alert rule = true))
             (rules (sys w)) (rules (sys w'))
  /\ (Forall (fun rule => enabled rule && _matches_rule alert rule = false) (rules (sys w)) ->
      w' = w).
Proof.
  cbv zeta. destruct (_process_alert_effect alert w) as (Hc & Ha & Hh & Hrules & Hidle).
  split; [exact Hc|]. split; [exact Ha|]. split; [exact Hh|]. split; [|exact Hidle].
  eapply Forall2_impl; [exact Hrules|]. cbv beta.
  intros rule rule' [->|(t & -> & Hen & Hm)].
  - split; [left; reflexivity | congruence].
  - split; [right; eauto | auto].
Qed.

Lemma process_alerts_effect (alerts : list Alert) (w : World) :
  let w' := snd (process_alerts clock requests_post smtp_send alerts w) in
  config (sys w') = config (sys w)
  /\ active_alerts (sys w') = active_alerts (sys w)
  /\ exists entries, history w' = history w ++ entries /\ Forall marked entries.
Proof.
  cbv zeta. revert w. induction alerts as [|alert rest IH]; intros w.
  - simpl. repeat split. exists []. rewrite app_nil_r. auto.
  - cbn [process_alerts]. unfold bind.
    destruct (_process_alert_effect alert w) as (Hc & Ha & (e1 & Hh & Hm1) & _).
    destruct (_process_alert _ _ _ alert w) as [[] w1]. cbn [snd] in *.
    destruct (IH w1) as (Hc' & Ha' & (e2 & Hh' & Hm2)).
    rewrite Hc', Ha', Hc, Ha, Hh', Hh. repeat split.
    exists (e1 ++ e2). rewrite app_assoc. split; [reflexivity | apply Forall_app; auto].
Qed.

Lemma _create_alert_effect (risk_type_ : string) (score : Q) (expense_data : ExpenseData)
    (recs : list string) (current_time : Py.datetime) (w : World) :
  exists alert,
    _create_alert _generate_alert_content risk_type_ score expense_data recs current_time w
    = (alert,
       mkWorld (mkSystem (config (sys w)) (<[id alert := alert]> (active_alerts (sys w)))
                         (notification_history (sys w)) (rules (sys w)))
               (ticks w))
    /\ risk_type alert = risk_type_ /\ risk_score alert = score
    /\ timestamp alert = current_time
    /\ acknowledged alert = false /\ resolved alert = false
    /\ recommendations alert = recs
    /\ user_id alert = get (ed_user_id expense_data) "unknown"%string
    /\ (Py.Qltb 0.6 score = true -> severity alert = HIGH \/ severity alert = CRITICAL).
Proof.
  unfold _create_alert.
  destruct (_generate_alert_content risk_type_ score expense_data) as [title_ message_].
  unfold bind, get_sys, put_sys, ret. cbn [fst snd sys ticks].
  match goal with |- exists _, (?x, _) = _ /\ _ => exists x end.
  split; [reflexivity|]. cbn.
  repeat split. intros Hhigh.
  destruct (Qle_bool 0.8 score); [right; reflexivity|].
  destruct (Qle_bool 0.6 score) eqn:E; [left; reflexivity|].
  q_tests. lra.
Qed.

Lemma create_alerts_effect (items : list (string * Q)) (expense_data : ExpenseData)
    (recs : list string) (current_time : Py.datetime) (w : World) :
  let r := create_alerts _generate_alert_content items expense_data recs current_time w in
  ticks (snd r) = ticks w
  /\ (config (sys (snd r)) = config (sys w) /\ history (snd r) = history w)
  /\ map (fun a => (risk_type a, risk_score a)) (fst r)
     = List.filter (fun kv => Py.Qltb 0.6 (snd kv)) items
  /\ Forall (fun a =>
               (severity a = HIGH \/ severity a = CRITICAL)
               /\ timestamp a = current_time
               /\ acknowledged a = false /\ resolved a = false
               /\ recommendations a = recs
               /\ user_id a = get (ed_user_id expense_data) "unknown"%string
               /\ is_Some (active_alerts (sys (snd r)) !! id a))
            (fst r)
  /\ (forall k, is_Some (active_alerts (sys w) !! k) ->
                is_Some (active_alerts (sys (snd r)) !! k)).
Proof.
  cbv zeta. revert w. induction items as [|[risk_type_ score] rest IH]; intros w.
  - simpl. repeat split; auto.
  - cbn [create_alerts List.filter snd].
    destruct (Py.Qltb 0.6 score) eqn:Ehigh; [|apply IH].
    unfold bind.
    destruct (_create_alert_effect risk_type_ score expense_data recs current_time w)
      as (alert & -> & Hty & Hsc & Hts & Hack & Hres & Hrecs & Huser & Hsev).
    match goal with
    | |- context [create_alerts _ rest expense_data recs current_time ?w1] =>
        destruct (IH w1) as (Hticks & Hconfig & Hmap & Hall & Hkeep);
          destruct (create_alerts _generate_alert_content rest expense_data recs
                                  current_time w1) as [alerts w2]
    end.
    cbn [fst snd sys ticks config active_alerts ret] in *. unfold ret. cbn [fst snd].
    split; [exact Hticks|]. split; [exact Hconfig|]. split; [|split].
    + cbn [map]. rewrite Hmap, Hty, Hsc. reflexivity.
    + constructor; [|exact Hall].
      repeat (split; [solve [auto]|]).
      apply Hkeep. rewrite lookup_insert_eq. eexists. reflexivity.
    + intros k Hk. apply Hkeep.
      destruct (decide (id alert = k)) as [<-|Hne].
      * rewrite lookup_insert_eq. eexists. reflexivity.
      * rewrite lookup_insert_ne by assumption. exact Hk.
Qed.

(** X23. The alerts returned for a risk analysis are the entries of its
    [risk_scores] whose score exceeds 0.6, in order. Each has severity HIGH
    or CRITICAL (the MEDIUM and LOW branches are never taken), carries the
    single clock reading made on entry and the recommendations of the
    analysis, is neither acknowledged nor resolved, and is stored among the
    active alerts under its id. No active alert is removed, the
    configuration is unchanged, and the history only gains entries marked
    sent or failed. *)
Theorem process_risk_analysis_alerts (risk_scores : list (string * Q))
    (recs : list string) (expense_data : ExpenseData) (w : World) :
  let r := process_risk_analysis clock requests_post smtp_send _generate_alert_content
             risk_scores recs expense_data w in
  map (fun a => (risk_type a, risk_score a)) (fst r)
  = List.filter (fun kv => Py.Qltb 0.6 (snd kv)) risk_scores
  /\ Forall (fun a =>
               (severity a = HIGH \/ severity a = CRITICAL)
               /\ timestamp a = clock (ticks w)
               /\ acknowledged a = false /\ resolved a = false
               /\ recommendations a = recs
               /\ user_id a = get (ed_user_id expense_data) "unknown"%string
               /\ is_Some (active_alerts (sys (snd r)) !! id a))
            (fst r)
  /\ (forall k, is_Some (active_alerts (sys w) !! k) ->
                is_Some (active_alerts (sys (snd r)) !! k))
  /\ config (sys (snd r)) = config (sys w)
  /\ exists entries, history (snd r) = history w ++ entries /\ Forall marked entries.
Proof.
  cbv zeta. unfold process_risk_analysis, bind, now. cbn [fst snd].
  destruct (create_alerts_effect risk_scores expense_data recs (clock (ticks w))
              (mkWorld (sys w) (S (ticks w))))
    as (_ & [Hconfig Hhist] & Hmap & Hall & Hkeep).
  destruct (create_alerts _ risk_scores expense_data recs (clock (ticks w)) _)
    as [alerts w1].
  destruct (process_alerts_effect alerts w1) as (Hc & Ha & Hh).
  destruct (process_alerts _ _ _ alerts w1) as [[] w2].
  unfold ret. cbn [fst snd sys] in *.
  rewrite Ha, Hc. unfold history in *. cbn [sys] in *. rewrite <- Hhist.
  repeat split; auto.
Qed.

End DispatcherFacts.

Section DispatcherFactsWitnesses.

Import Notifications Scenarios.

(** X21 at the high-risk rule in a system with the default configuration,
    the network being down. *)
Lemma unconfigured_channels_are_recorded_as_sent_witness :
  exists entries,
    extends_history_only one_rule_world
      (snd (_send_notifications ticking_clock network_down smtp_down
              (high_risk_alert "alice" "flat") high_risk_rule one_rule_world)) entries
    /\ length entries = length (channels high_risk_rule)
    /\ Forall (fun h => h_status h = "sent"%string) entries.
Proof.
  apply (unconfigured_channels_are_recorded_as_sent ticking_clock network_down smtp_down
           (high_risk_alert "alice" "flat") high_risk_rule one_rule_world);
    reflexivity.
Defined.

End DispatcherFactsWitnesses.

Section AlertLifecycle.

Import Notifications Scenarios.

Variable clock : nat -> Py.datetime.

Lemma unresolved_insert (s : System) (alert_id : AlertId) (old new : Alert) :
  active_alerts s !! alert_id = Some old ->
  size (filter (fun kv => resolved (snd kv) = false) (<[alert_id := new]> (active_alerts s)))
  = match resolved old, resolved new with
    | false, true => pred (unresolved s)
    | true, false => S (unresolved s)
    | _, _ => unresolved s
    end.
Proof.
  intros Hold. unfold unresolved.
  set (P := fun kv : AlertId * Alert => resolved (snd kv) = false).
  assert (Hlook : filter P (active_alerts s) !! alert_id
                  = if resolved old then None else Some old).
  { destruct (resolved old) eqn:E.
    - apply map_lookup_filter_None. right. intros x Hx. rewrite Hold in Hx.
      injection Hx as <-. unfold P. simpl. congruence.
    - apply map_lookup_filter_Some. split; [exact Hold | exact E]. }
  destruct (resolved new) eqn:Enew.
  - rewrite map_filter_insert_False by (unfold P; simpl; congruence).
    rewrite map_filter_delete, map_size_delete, Hlook.
    destruct (resolved old); reflexivity.
  - rewrite map_filter_insert_True by exact Enew.
    rewrite map_size_insert, Hlook. destruct (resolved old); reflexivity.
Qed.

(** X24. Acknowledging and resolving. For an id that is not stored, both
    return False and change nothing. For a stored alert, resolving returns
    True, marks that alert resolved and acknowledged and leaves every other
    alert and the rest of the system as they are; the number of unresolved
    alerts drops by one if the alert was unresolved and is unchanged
    otherwise. Acknowledging returns True, never changes that number, and
    leaves a resolved alert resolved; acknowledging before resolving gives
    the same state as resolving alone. *)
Theorem resolving_and_acknowledging (alert_id : AlertId) (w : World) :
  (active_alerts (sys w) !! alert_id = None ->
     resolve_alert alert_id w = (false, w) /\ acknowledge_alert alert_id w = (false, w))
  /\ (forall alert, active_alerts (sys w) !! alert_id = Some alert ->
        let w1 := snd (resolve_alert alert_id w) in
        let w2 := snd (acknowledge_alert alert_id w) in
        fst (resolve_alert alert_id w) = true
        /\ fst (acknowledge_alert alert_id w) = true
        /\ active_alerts (sys w1) !! alert_id = Some (set_resolved alert)
        /\ active_alerts (sys w2) !! alert_id = Some (set_acknowledged alert)
        /\ (forall k, k <> alert_id ->
              active_alerts (sys w1) !! k = active_alerts (sys w) !! k
              /\ active_alerts (sys w2) !! k = active_alerts (sys w) !! k)
        /\ (config (sys w1) = config (sys w) /\ history w1 = history w
            /\ rules (sys w1) = rules (sys w) /\ ticks w1 = ticks w)
        /\ (config (sys w2) = config (sys w) /\ history w2 = history w
            /\ rules (sys w2) = rules (sys w) /\ ticks w2 = ticks w)
        /\ unresolved (sys w1)
           = (if resolved alert then unresolved (sys w) else pred (unresolved (sys w)))
        /\ unresolved (sys w2) = unresolved (sys w)
        /\ snd (acknowledge_alert alert_id w1) = w1
        /\ snd (resolve_alert alert_id w2) = w1).
Proof.
  split.
  - intros Hnone. unfold resolve_alert, acknowledge_alert, bind, get_sys, ret.
    rewrite Hnone. split; reflexivity.
  - intros alert Hsome. cbv zeta.
    unfold resolve_alert, acknowledge_alert, bind, get_sys, put_sys, ret.
    cbn [fst snd sys ticks]. rewrite Hsome. cbn [fst snd sys ticks active_alerts].
    rewrite !lookup_insert_eq. cbn [fst snd sys ticks active_alerts config
                                    notification_history rules].
    split; [reflexivity|]. split; [reflexivity|]. split; [reflexivity|].
    split; [reflexivity|]. split.
    { intros k Hne. rewrite !lookup_insert_ne by congruence. split; reflexivity. }
    split; [repeat split|]. split; [repeat split|].
    split.
    { unfold unresolved at 1. cbn [active_alerts].
      rewrite (unresolved_insert (sys w) alert_id alert (set_resolved alert) Hsome).
      cbn [resolved set_resolved]. destruct (resolved alert); reflexivity. }
    split.
    { unfold unresolved at 1. cbn [active_alerts].
      rewrite (unresolved_insert (sys w) alert_id alert (set_acknowledged alert) Hsome).
      cbn [resolved set_acknowledged]. destruct (resolved alert); reflexivity. }
    split.
    { rewrite insert_insert_eq. reflexivity. }
    rewrite insert_insert_eq. reflexivity.
Qed.

(** The sent and the failed entries split any list of marked entries. *)
Lemma marked_partition (entries : list HistoryEntry) :
  Forall marked entries ->
  length entries
  = (length (filter (fun n => h_status n = "sent"%string) entries)
     + length (filter (fun n => h_status n = "failed"%string) entries))%nat.
Proof.
  induction 1 as [|h entries Hh _ IH]; [reflexivity|].
  rewrite !filter_cons. cbn [length]. rewrite IH.
  destruct Hh as [[Hs _]|[Hf _]].
  - rewrite decide_True by exact Hs.
    rewrite decide_False by (rewrite Hs; discriminate). simpl. lia.
  - rewrite decide_False by (rewrite Hf; discriminate).
    rewrite decide_True by exact Hf. simpl. lia.
Qed.

(** X25. The statistics of the dispatcher: when every history entry is
    marked sent or failed, as the entries written by the dispatcher are, the
    notifications of the last 24 hours are the successful plus the failed
    ones; the active alerts counted are the unresolved ones; at most as many
    rules as are stored are counted; and taking the statistics reads the
    clock once and changes nothing else. *)
Theorem notification_stats_add_up (w : World) :
  Forall marked (history w) ->
  let stats := fst (get_notification_stats clock w) in
  total_alerts_24h stats
  = (successful_notifications_24h stats + failed_notifications_24h stats)%nat
  /\ (total_alerts_24h stats <= length (history w))%nat
  /\ stats_active_alerts stats = unresolved (sys w)
  /\ (active_rules stats <= length (rules (sys w)))%nat
  /\ snd (get_notification_stats clock w) = mkWorld (sys w) (S (ticks w)).
Proof.
  intros Hmarked. cbv zeta.
  unfold get_notification_stats, bind, now, get_sys, ret.
  cbn [fst snd sys ticks total_alerts_24h successful_notifications_24h
       failed_notifications_24h stats_active_alerts active_rules].
  split; [|split; [|split; [|split]]].
  - apply marked_partition. unfold history in Hmarked.
    apply Forall_forall. intros h Hin. apply list_elem_of_filter in Hin.
    destruct Hin as [_ Hin]. eapply Forall_forall in Hmarked; eauto.
  - apply length_filter.
  - reflexivity.
  - apply length_filter.
  - reflexivity.
Qed.

End AlertLifecycle.

Section AlertLifecycleWitnesses.

Import Notifications Scenarios.

(** X25 at a system that processed one alert under a rule with two
    channels while the network was down: the webhook entry is marked failed,
    the in-app entry sent. *)
Lemma notification_stats_add_up_witness :
  Forall marked (history after_paging)
  /\ map h_status (history after_paging) = ["failed"; "sent"]%string
  /\ let stats := fst (get_notification_stats ticking_clock after_paging) in
     total_alerts_24h stats = 2%nat
     /\ successful_notifications_24h stats = 1%nat
     /\ failed_notifications_24h stats = 1%nat
     /\ total_alerts_24h stats
        = (successful_notifications_24h stats + failed_notifications_24h stats)%nat.
Proof.
  assert (Hmarked : Forall marked (history after_paging)).
  { destruct (_process_alert_effect ticking_clock network_down smtp_down
                (high_risk_alert "alice" "flat") paging_world)
      as (_ & _ & (entries & Hhistory & Hentries) & _).
    unfold after_paging. rewrite Hhistory. exact Hentries. }
  split; [exact Hmarked|]. split; [reflexivity|]. cbv zeta.
  split; [reflexivity|]. split; [reflexivity|]. split; [reflexivity|].
  destruct (notification_stats_add_up ticking_clock after_paging Hmarked) as [H _].
  exact H.
Defined.

End AlertLifecycleWitnesses.

Section RuleEngineFurther.

Import Schemas RuleEngine Scenarios.

Variable fromisoformat : string -> option Py.parsed_datetime.

(** A property of the violations of every check is a property of the
    violations of [check_rules]. *)
Lemma check_rules_Forall (P : RuleViolation.t -> Prop) (self : RuleEngine.t)
    (utcnow : Py.datetime) (expense : ExpenseIn.t) (features : gmap string Py.value)
    (historical_data : option (list Hist)) :
  (forall vs, _check_excessive_amount self expense features = inr vs -> Forall P vs) ->
  Forall P (_check_participant_mismatch expense) ->
  Forall P (_check_blacklisted_entities self expense) ->
  (forall hist, Forall P (_check_rapid_expenses fromisoformat self expense hist)) ->
  Forall P (_check_time_patterns fromisoformat utcnow expense) ->
  Forall P (_check_participant_count self expense) ->
  Forall P (_check_payer_participation expense) ->
  Forall P (_check_amount_precision expense) ->
  Forall P (check_rules fromisoformat self utcnow expense features historical_data).
Proof.
  intros Hexc Hmis Hbl Hrapid Htime Hcount Hpayer Hprec. unfold check_rules.
  destruct (_check_excessive_amount self expense features) as [e|excessive] eqn:Eexc;
    simpl; [constructor|].
  specialize (Hexc _ eq_refl).
  repeat (apply Forall_app; split); auto;
    destruct historical_data as [[|hist rest]|]; repeat (apply Forall_app; split); auto.
Qed.

Lemma default_merchant_never_matches (merchant : option string) :
  truthy merchant
  && Py.mem (Py.lower (default EmptyString merchant)) (suspicious_merchants RuleEngine.__init__)
  = false.
Proof.
  destruct merchant as [[|c s]|]; reflexivity.
Qed.

Ltac named_violations :=
  repeat match goal with
         | |- Forall _ (if ?b then _ else _) => destruct b
         | |- Forall _ (match ?x with inl _ => _ | inr _ => _ end) => destruct x
         | |- Forall _ (_ ++ _) => apply Forall_app; split
         | |- Forall _ [] => constructor
         | |- Forall _ (_ :: _) => constructor
         | |- RuleViolation.rule_name _ <> _ => simpl; discriminate
         end.

(** X26. The merchant blacklist of the default configuration holds only
    the empty string, which the lower-cased name of a merchant that is
    present never equals: with the default rule engine, no expense, history
    or feature set yields a [blacklisted_merchant] violation. *)
Theorem default_merchant_blacklist_is_inert (utcnow : Py.datetime)
    (expense : ExpenseIn.t) (features : gmap string Py.value)
    (historical_data : option (list Hist)) :
  suspicious_merchants RuleEngine.__init__ = [EmptyString]
  /\ Forall (fun v => RuleViolation.rule_name v <> "blacklisted_merchant"%string)
            (check_rules fromisoformat RuleEngine.__init__ utcnow expense features
                         historical_data).
Proof.
  split; [reflexivity|]. apply check_rules_Forall.
  - intros vs H. unfold _check_excessive_amount in H.
    destruct (Py.as_number _) as [e|q]; simpl in H; [discriminate|].
    destruct (Py.Qltb _ q); [|injection H as <-; constructor].
    unfold Py.div_ in H. simpl in H. unfold RuleViolation.new in H.
    destruct (Qle_bool 0 _ && Qle_bool _ 1)%bool; simpl in H; [|discriminate].
    injection H as <-. constructor; [simpl; discriminate | constructor].
  - unfold _check_participant_mismatch. named_violations.
  - unfold _check_blacklisted_entities. rewrite default_merchant_never_matches.
    named_violations.
  - intros hist. unfold _check_rapid_expenses, Py.bind, Py.ret.
    destruct (parse_timestamp _ _) as [e|expense_time]; [constructor|].
    destruct (count_rapid _ _ _ _ _ _) as [e|n]; [constructor|].
    destruct (3 <=? n)%nat; [named_violations|].
    destruct (2 <=? n)%nat; named_violations.
  - unfold _check_time_patterns.
    destruct (parse_timestamp _ _) as [e|expense_time]; [constructor|].
    destruct (Py.dt_gt _ _) as [e|[|]]; named_violations.
  - unfold _check_participant_count. named_violations.
  - unfold _check_payer_participation. named_violations.
  - unfold _check_amount_precision. named_violations.
Qed.

(** X27. A group-mean ratio that is present but is a string or [None]
    makes the first rule raise, and the handler of [check_rules] then
    reports no violation at all, whatever the expense: every other rule is
    silenced with it. *)
Theorem malformed_ratio_silences_every_rule (self : RuleEngine.t) (utcnow : Py.datetime)
    (expense : ExpenseIn.t) (features : gmap string Py.value)
    (historical_data : option (list Hist)) :
  ~ numeric_features features ->
  check_rules fromisoformat self utcnow expense features historical_data = [].
Proof.
  intros Hnum. unfold check_rules, _check_excessive_amount, numeric_features in *.
  destruct (features !! "amount_vs_group_mean"%string) as [[q|s|b|]|];
    try (exfalso; apply Hnum; exact I); reflexivity.
Qed.

(** X28. The first rule under a positive threshold [T] and a numeric
    ratio [r]: nothing is reported up to [r = T]; above, exactly one
    [excessive_amount] violation, of confidence [min(0.9, r / 2T)], which is
    above 0.5 and at most 0.9; its severity is high exactly when [r > 2T],
    and then its confidence is 0.9. *)
Theorem excessive_amount_confidence (self : RuleEngine.t) (expense : ExpenseIn.t)
    (features : gmap string Py.value) :
  0 < amount_multiplier_threshold self ->
  numeric_features features ->
  exists r,
    Py.as_number (default (Py.Num 1) (features !! "amount_vs_group_mean"%string)) = inr r
    /\ ((r <= amount_multiplier_threshold self
         /\ _check_excessive_amount self expense features = inr [])
        \/ (amount_multiplier_threshold self < r
            /\ exists v,
                 _check_excessive_amount self expense features = inr [v]
                 /\ RuleViolation.rule_name v = "excessive_amount"%string
                 /\ RuleViolation.confidence v
                    = Py.min_ 0.9 (r / (amount_multiplier_threshold self * 2))
                 /\ 0.5 < RuleViolation.confidence v <= 0.9
                 /\ (RuleViolation.severity v = "high"%string
                     <-> amount_multiplier_threshold self * 2 < r)
                 /\ (RuleViolation.severity v = "high"%string
                     -> RuleViolation.confidence v = 0.9))).
Proof.
  intros Hth Hnum. unfold _check_excessive_amount.
  assert (Hn : exists q, Py.as_number (default (Py.Num 1)
                           (features !! "amount_vs_group_mean"%string)) = inr q).
  { unfold numeric_features in Hnum.
    destruct (features !! "amount_vs_group_mean"%string) as [[q|s|b|]|]; simpl;
      try contradiction; eauto. }
  destruct Hn as [q Hq]. rewrite Hq. exists q. split; [reflexivity|]. simpl.
  set (T := amount_multiplier_threshold self) in *.
  destruct (Py.Qltb T q) eqn:Ebig.
  - right. apply Qltb_true in Ebig. split; [exact Ebig|].
    unfold Py.div_.
    destruct (Qeq_bool _ 0) eqn:Ez; [apply Qeq_bool_iff in Ez; lra|].
    simpl. unfold RuleViolation.new.
    set (ratio := q / (T * 2)).
    assert (Hratio : 1 # 2 < ratio).
    { unfold ratio. apply Qlt_shift_div_l; lra. }
    assert (Hmin : 0.5 < Py.min_ 0.9 ratio <= 0.9).
    { split; [|apply min_le_l]. unfold Py.min_.
      destruct (Py.Qltb ratio 0.9); lra. }
    assert (H0 : Qle_bool 0 (Py.min_ 0.9 ratio) = true) by (apply Qle_bool_iff; lra).
    assert (H1 : Qle_bool (Py.min_ 0.9 ratio) 1 = true) by (apply Qle_bool_iff; lra).
    rewrite H0, H1. simpl. eexists. split; [reflexivity|]. simpl.
    split; [reflexivity|]. split; [reflexivity|]. split; [exact Hmin|].
    destruct (Py.Qltb (T * 2) q) eqn:Ehigh.
    + apply Qltb_true in Ehigh. split; [tauto|]. intros _.
      assert (Hone : 1 < ratio).
      { unfold ratio. apply Qlt_shift_div_l; lra. }
      unfold Py.min_. destruct (Py.Qltb ratio 0.9) eqn:E; [|reflexivity].
      apply Qltb_true in E. lra.
    + apply Qltb_false in Ehigh. split.
      * split; [discriminate | intros; lra].
      * discriminate.
  - left. apply Qltb_false in Ebig. split; [exact Ebig | reflexivity].
Qed.

End RuleEngineFurther.

Section RuleEngineFurtherWitnesses.

Import Schemas RuleEngine Scenarios.

(** X27 at the shared meal, with the ratio given as text. *)
Lemma malformed_ratio_silences_every_rule_witness :
  check_rules no_timestamps RuleEngine.__init__ (Py.hours 12) shared_meal
              {["amount_vs_group_mean"%string := Py.Str "n/a"]} None = [].
Proof.
  apply malformed_ratio_silences_every_rule.
  unfold numeric_features. rewrite lookup_singleton_eq. intros [].
Defined.

(** X28 at the shared meal with a ratio of 12 under the default threshold 5. *)
Lemma excessive_amount_confidence_witness :
  exists r,
    Py.as_number (default (Py.Num 1)
                    (({["amount_vs_group_mean"%string := Py.Num 12]} : gmap string Py.value)
                       !! "amount_vs_group_mean"%string)) = inr r
    /\ ((r <= amount_multiplier_threshold RuleEngine.__init__
         /\ _check_excessive_amount RuleEngine.__init__ shared_meal
              {["amount_vs_group_mean"%string := Py.Num 12]} = inr [])
        \/ (amount_multiplier_threshold RuleEngine.__init__ < r
            /\ exists v,
                 _check_excessive_amount RuleEngine.__init__ shared_meal
                   {["amount_vs_group_mean"%string := Py.Num 12]} = inr [v]
                 /\ RuleViolation.rule_name v = "excessive_amount"%string
                 /\ RuleViolation.confidence v
                    = Py.min_ 0.9 (r / (amount_multiplier_threshold RuleEngine.__init__ * 2))
                 /\ 0.5 < RuleViolation.confidence v <= 0.9
                 /\ (RuleViolation.severity v = "high"%string
                     <-> amount_multiplier_threshold RuleEngine.__init__ * 2 < r)
                 /\ (RuleViolation.severity v = "high"%string
                     -> RuleViolation.confidence v = 0.9))).
Proof.
  apply (excessive_amount_confidence RuleEngine.__init__ shared_meal
           {["amount_vs_group_mean"%string := Py.Num 12]}).
  - reflexivity.
  - unfold numeric_features. rewrite lookup_singleton_eq. exact I.
Defined.

End RuleEngineFurtherWitnesses.

Section EnsembleThreshold.

Import Schemas Ensemble Scenarios.

Variable fromisoformat : string -> option Py.parsed_datetime.

(** X29. The suspicion threshold. [update_threshold] accepts exactly the
    values of the unit interval and changes nothing but the threshold. Two
    ensembles that differ by their threshold only return verdicts with the
    same anomaly score, rule violations and explanation, and the verdict
    under the higher threshold is suspicious only if the verdict under the
    lower one is. *)
Theorem raising_the_threshold_never_adds_suspicion (self : Ensemble.t)
    (low high : Q) (utcnow : Py.datetime) (expense : ExpenseIn.t)
    (features : gmap string Py.value) (feature_vector : list Q)
    (historical_data : option (list RuleEngine.Hist)) :
  0 <= low -> low <= high -> high <= 1 ->
  exists self1 self2 verdict1 verdict2,
    update_threshold self low = inr self1
    /\ update_threshold self high = inr self2
    /\ suspicion_threshold self1 = low /\ suspicion_threshold self2 = high
    /\ (ml_model self1, rule_engine self1, ml_weight self1, rule_weight self1)
       = (ml_model self, rule_engine self, ml_weight self, rule_weight self)
    /\ predict_single fromisoformat self1 utcnow expense features feature_vector
                      historical_data = inr verdict1
    /\ predict_single fromisoformat self2 utcnow expense features feature_vector
                      historical_data = inr verdict2
    /\ (forall key, key <> "is_suspicious"%string ->
          lookup_key verdict1 key = lookup_key verdict2 key)
    /\ (lookup_key verdict2 "is_suspicious" = Some (VBool true) ->
        lookup_key verdict1 "is_suspicious" = Some (VBool true)).
Proof.
  intros H0 Hle H1. unfold update_threshold.
  assert (Hlow : Qle_bool 0 low && Qle_bool low 1 = true).
  { apply andb_true_iff. split; apply Qle_bool_iff; lra. }
  assert (Hhigh : Qle_bool 0 high && Qle_bool high 1 = true).
  { apply andb_true_iff. split; apply Qle_bool_iff; lra. }
  rewrite Hlow, Hhigh. unfold Py.ret.
  exists (mk (ml_model self) (rule_engine self) (ml_weight self) (rule_weight self) low),
         (mk (ml_model self) (rule_engine self) (ml_weight self) (rule_weight self) high).
  unfold predict_single, predict_single_try. cbn [ml_model rule_engine
    ml_weight rule_weight suspicion_threshold]. unfold _combine_scores, _create_explanation.
  cbn [ml_weight rule_weight].
  unfold Py.bind, Py.ret.
  destruct (ml_model self) as [model|];
    [destruct (is_fitted model);
     [destruct (predict_proba model feature_vector) as [e|proba];
      [|destruct (explain_prediction model feature_vector 0) as [e|expl]]|]|];
    cbv beta iota;
    try match goal with
        | |- context [ml_contributions ?a ?b] => destruct (ml_contributions a b)
        end;
    cbv beta iota;
    do 2 eexists; do 7 (split; [reflexivity|]);
    (split;
     [ intros key Hkey; unfold lookup_key; cbn [List.find fst];
       destruct (String.eqb "anomaly_score" key); [reflexivity|];
       destruct (String.eqb "is_suspicious" key) eqn:E;
       [apply String.eqb_eq in E; congruence | reflexivity]
     | unfold lookup_key, safe_default; simpl;
       first [ discriminate
             | intros H; injection H as H; apply Qle_bool_iff in H;
               f_equal; f_equal; apply Qle_bool_iff; lra ] ]).
Qed.

End EnsembleThreshold.

Section EnsembleThresholdWitnesses.

Import Schemas Ensemble Scenarios.

(** X29 at the shared meal, with the thresholds 0.2 and 0.8. *)
Lemma raising_the_threshold_never_adds_suspicion_witness :
  exists self1 self2 verdict1 verdict2,
    update_threshold rules_only 0.2 = inr self1
    /\ update_threshold rules_only 0.8 = inr self2
    /\ suspicion_threshold self1 = 0.2 /\ suspicion_threshold self2 = 0.8
    /\ (ml_model self1, rule_engine self1, ml_weight self1, rule_weight self1)
       = (ml_model rules_only, rule_engine rules_only, ml_weight rules_only,
          rule_weight rules_only)
    /\ predict_single no_timestamps self1 (Py.hours 12) shared_meal ∅ [] None = inr verdict1
    /\ predict_single no_timestamps self2 (Py.hours 12) shared_meal ∅ [] None = inr verdict2
    /\ (forall key, key <> "is_suspicious"%string ->
          lookup_key verdict1 key = lookup_key verdict2 key)
    /\ (lookup_key verdict2 "is_suspicious" = Some (VBool true) ->
        lookup_key verdict1 "is_suspicious" = Some (VBool true)).
Proof.
  apply (raising_the_threshold_never_adds_suspicion no_timestamps rules_only 0.2 0.8
           (Py.hours 12) shared_meal ∅ [] None); discriminate.
Defined.

End EnsembleThresholdWitnesses.

Section EncoderFacts.

Import FeatureEngineering.

Lemma _encode_categorical_dense (value : string) (encoder : gmap string nat) :
  dense_encoder encoder -> dense_encoder (snd (_encode_categorical value encoder)).
Proof.
  intros [Hlt Hinj]. unfold _encode_categorical.
  destruct (encoder !! value) as [code|] eqn:E; [split; assumption|].
  cbn [snd]. split.
  - intros v c Hl. rewrite map_size_insert_None by exact E.
    destruct (decide (value = v)) as [<-|Hne].
    + rewrite lookup_insert_eq in Hl. injection Hl as <-. lia.
    + rewrite lookup_insert_ne in Hl by assumption. apply Hlt in Hl. lia.
  - intros v1 v2 c H1 H2.
    destruct (decide (value = v1)) as [<-|Hne1];
      destruct (decide (value = v2)) as [<-|Hne2]; [reflexivity| | |].
    + rewrite lookup_insert_eq in H1. injection H1 as <-.
      rewrite lookup_insert_ne in H2 by assumption. apply Hlt in H2. lia.
    + rewrite lookup_insert_eq in H2. injection H2 as <-.
      rewrite lookup_insert_ne in H1 by assumption. apply Hlt in H1. lia.
    + rewrite lookup_insert_ne in H1, H2 by assumption. eauto.
Qed.

Lemma _encode_categorical_keeps (value other : string) (encoder : gmap string nat)
    (code : nat) :
  encoder !! other = Some code ->
  snd (_encode_categorical value encoder) !! other = Some code.
Proof.
  intros Hl. unfold _encode_categorical.
  destruct (encoder !! value) as [c|] eqn:E; [exact Hl|].
  cbn [snd]. rewrite lookup_insert_ne; [exact Hl | congruence].
Qed.

(** X30. The categorical encoder, started empty and fed any sequence of
    values, numbers the distinct values seen from 0 without gap or clash:
    every code is below the number of values stored and no two values share
    one. Encoding a further value returns the code then stored for it,
    leaves the codes of all values seen before as they are, and encoding it
    again returns the same code and changes nothing. *)
Theorem encoder_codes_are_dense_and_stable (values : list string) (value : string) :
  let encoder := encode_all values ∅ in
  let '(code, encoder') := _encode_categorical value encoder in
  dense_encoder encoder /\ dense_encoder encoder'
  /\ encoder' !! value = Some code
  /\ (code < size encoder')%nat
  /\ (forall other c, encoder !! other = Some c -> encoder' !! other = Some c)
  /\ (forall other, other <> value -> encoder' !! other = encoder !! other)
  /\ _encode_categorical value encoder' = (code, encoder').
Proof.
  cbv zeta.
  assert (Hdense : dense_encoder (encode_all values ∅)).
  { unfold encode_all. induction values as [|v values IH] using rev_ind.
    - cbn [fold_left].
      split; [intros v c H | intros v1 v2 c H _]; rewrite lookup_empty in H; discriminate.
    - rewrite fold_left_app. cbn [fold_left]. apply _encode_categorical_dense, IH. }
  set (encoder := encode_all values ∅) in *.
  pose proof (_encode_categorical_dense value encoder Hdense) as Hdense'.
  pose proof (fun other c => _encode_categorical_keeps value other encoder c) as Hkeep.
  assert (Hother : forall other, other <> value ->
            snd (_encode_categorical value encoder) !! other = encoder !! other).
  { intros other Hne. unfold _encode_categorical.
    destruct (encoder !! value); [reflexivity|]. cbn [snd].
    apply lookup_insert_ne. congruence. }
  assert (Hcode : snd (_encode_categorical value encoder) !! value
                  = Some (fst (_encode_categorical value encoder))).
  { unfold _encode_categorical.
    destruct (encoder !! value) as [c|] eqn:E; [exact E|]. cbn [fst snd].
    apply lookup_insert_eq. }
  destruct (_encode_categorical value encoder) as [code encoder'] eqn:Eenc.
  cbn [fst snd] in *.
  split; [exact Hdense|]. split; [exact Hdense'|]. split; [exact Hcode|].
  split; [destruct Hdense' as [Hlt _]; eapply Hlt, Hcode|].
  split; [exact Hkeep|]. split; [exact Hother|].
  unfold _encode_categorical. rewrite Hcode. reflexivity.
Qed.

End EncoderFacts.
